(** * The risk-assessment pipeline of gemini_play, embedded in Rocq

    The development follows the Python sources module by module:
    - [config.py]      : the constants [TOP_N_RISKS] and [MAX_CANDIDATE_RISKS];
    - [models.py]      : the records [Risk], [Control], [RiskAssessment], ...;
    - [prompts.py]     : the two prompt templates and their formatters;
    - [llm_service.py] : [_format_proposal_text], [extract_keywords],
                         [rank_and_select];
    - [db_service.py]  : [_sanitize_keyword], [_validate_risk_id],
                         [search_risks], [get_controls_for_risks];
    - [risk_engine.py] : [_get_fallback_risks], [assess_proposal].

    Python values that come out of [json.loads] are modelled by the type
    [json]; the operations Python performs on them dynamically ([in],
    subscripting, [len], iteration, [float], truthiness) are written out
    with the failures they have on values of the wrong shape.  Exceptions
    are an explicit result type, external calls thread an abstract world. *)

From Stdlib Require Import String Ascii List NArith ZArith Bool Lia.
From Stdlib Require Import Floats DecimalString.
Import ListNotations.

Set Implicit Arguments.

(* ================================================================= *)
(** ** Python strings *)

(** A Python [str] is a sequence of Unicode code points. *)
Definition pystr := list N.

Definition str (s : string) : pystr :=
  map N_of_ascii (list_ascii_of_string s).
Arguments str : simpl never.

Fixpoint pystr_eqb (a b : pystr) : bool :=
  match a, b with
  | [], [] => true
  | x :: a', y :: b' => N.eqb x y && pystr_eqb a' b'
  | _, _ => false
  end.

(** [sep.join(parts)] on a list of strings. *)
Fixpoint join (sep : pystr) (parts : list pystr) : pystr :=
  match parts with
  | [] => []
  | [p] => p
  | p :: rest => p ++ sep ++ join sep rest
  end.

Fixpoint is_prefix (a b : pystr) : bool :=
  match a, b with
  | [], _ => true
  | x :: a', y :: b' => N.eqb x y && is_prefix a' b'
  | _ :: _, [] => false
  end.

(** [a in b] for two strings: [a] occurs in [b] as a substring. *)
Fixpoint is_substring (a b : pystr) : bool :=
  is_prefix a b ||
  match b with
  | [] => false
  | _ :: b' => is_substring a b'
  end.

(** [str(n)] for a non-negative machine-independent integer. *)
Definition str_of_nat (n : nat) : pystr :=
  str (NilEmpty.string_of_uint (Nat.to_uint n)).

Definition NL : pystr := [10%N].
Definition DQ : pystr := [34%N].

(* ================================================================= *)
(** ** Values produced by [json.loads] *)

#[local] Set Warnings "-register-all".

Inductive json : Type :=
| JNull
| JBool (b : bool)
| JInt (z : Z)
| JFloat (f : float)
| JStr (s : pystr)
| JList (l : list json)
| JDict (d : list (pystr * json)).

(** A [dict] keeps its keys in insertion order; lookup takes the first
    binding of the key. *)
Fixpoint lookup {A : Type} (k : pystr) (d : list (pystr * A)) : option A :=
  match d with
  | [] => None
  | (k', v) :: d' => if pystr_eqb k' k then Some v else lookup k d'
  end.

Definition has_key {A : Type} (k : pystr) (d : list (pystr * A)) : bool :=
  match lookup k d with Some _ => true | None => false end.

(** [s == v] for a string [s] and an arbitrary value [v]. *)
Definition eq_str (s : pystr) (v : json) : bool :=
  match v with
  | JStr t => pystr_eqb s t
  | _ => false
  end.

(** Python truthiness, [bool(v)]. *)
Definition truthy (v : json) : bool :=
  match v with
  | JNull => false
  | JBool b => b
  | JInt z => negb (Z.eqb z 0)
  | JFloat f => negb (PrimFloat.eqb f PrimFloat.zero)
  | JStr s => match s with [] => false | _ => true end
  | JList l => match l with [] => false | _ => true end
  | JDict d => match d with [] => false | _ => true end
  end.

(* ================================================================= *)
(** ** Exceptions *)

Inductive exn_class : Type :=
| Exception_
| ValueError
| TypeError
| KeyError
| AttributeError
| OverflowError
| ValidationError        (* pydantic *)
| RequestException       (* requests.exceptions.RequestException, its other subclasses *)
| JSONDecodeError        (* json.JSONDecodeError *)
| RequestsJSONDecodeError (* requests.exceptions.JSONDecodeError, a subclass of both *)
| UnboundLocalError
| OtherException (name : pystr).

(** [exn_str e] is [str(e)].  Every exception of the model is an instance
    of [Exception]. *)
Record exn : Type := Exn { exn_cls : exn_class; exn_str : pystr }.

Definition is_request_exception (e : exn) : bool :=
  match exn_cls e with
  | RequestException | RequestsJSONDecodeError => true
  | _ => false
  end.

Definition is_json_decode_error (e : exn) : bool :=
  match exn_cls e with
  | JSONDecodeError | RequestsJSONDecodeError => true
  | _ => false
  end.

Inductive result (A : Type) : Type :=
| Ok (a : A)
| Raise (e : exn).
Arguments Ok {A} a.
Arguments Raise {A} e.

(** Failures raised by the interpreter or by a library rather than by a
    [raise] statement of the sources. *)
Inductive fault : Type :=
| NotAContainer (v : json)               (* [k in v]            : TypeError *)
| BadSubscript (v : json) (k : pystr)    (* [v[k]], v not a dict : TypeError *)
| MissingKey (k : pystr)                 (* [d[k]]              : KeyError *)
| NoLen (v : json)                       (* [len(v)]            : TypeError *)
| NotIterable (v : json)                 (* [for x in v]        : TypeError *)
| NoAttribute (v : json) (a : pystr)     (* [v.a]               : AttributeError *)
| FloatOfString (s : pystr)              (* [float(s)]          : ValueError *)
| FloatOfHugeInt (z : Z)                 (* [float(z)]          : OverflowError *)
| FloatOfOther (v : json)                (* [float(v)]          : TypeError *)
| JoinItem (i : nat) (v : json)          (* [sep.join(l)]       : TypeError *)
| Unhashable (v : json)                  (* [v in d], v a key   : TypeError *)
| UnboundLocal (name : pystr)            (* [name], not assigned : UnboundLocalError *)
| Invalid (model field : pystr) (v : json). (* pydantic         : ValidationError *)

Definition fault_class (f : fault) : exn_class :=
  match f with
  | NotAContainer _ | BadSubscript _ _ | NoLen _ | NotIterable _
  | FloatOfOther _ | JoinItem _ _ | Unhashable _ => TypeError
  | MissingKey _ => KeyError
  | NoAttribute _ _ => AttributeError
  | FloatOfString _ => ValueError
  | FloatOfHugeInt _ => OverflowError
  | UnboundLocal _ => UnboundLocalError
  | Invalid _ _ _ => ValidationError
  end.

(* ================================================================= *)
(** ** What the sources take from the Python runtime and its libraries

    [json_loads t] is [json.loads(t)]: the value of the text, a
    [JSONDecodeError] for a text that is not JSON, or another exception
    ([RecursionError] for a text nested too deeply, [ValueError] for an
    integer of too many digits); [py_repr v] is [str(v)] for a value that is
    not a string; [fault_msg f] is the text of the exception the runtime raises
    for [f]; [float_of_str] is [float] on strings; [validate_str] is
    pydantic's validation of a field declared [str], which leaves a string
    as it is and, depending on the version, converts or rejects the rest. *)

Class Runtime : Type := {
  json_loads : pystr -> result json;
  py_repr : json -> pystr;
  fault_msg : fault -> pystr;
  float_of_str : pystr -> option float;
  validate_str : json -> option pystr;
  validate_str_id : forall s, validate_str (JStr s) = Some s
}.

Section Dynamic.
Context {RT : Runtime}.

Definition fail {A : Type} (f : fault) : result A :=
  Raise (Exn (fault_class f) (fault_msg f)).

(** [str(v)], as an f-string placeholder formats a value. *)
Definition py_str (v : json) : pystr :=
  match v with
  | JStr s => s
  | _ => py_repr v
  end.

(** [k in v] for a string [k]. *)
Definition py_in (k : pystr) (v : json) : result bool :=
  match v with
  | JDict d => Ok (has_key k d)
  | JList l => Ok (existsb (eq_str k) l)
  | JStr s => Ok (is_substring k s)
  | _ => fail (NotAContainer v)
  end.

(** [v[k]] for a string [k]. *)
Definition py_getitem (v : json) (k : pystr) : result json :=
  match v with
  | JDict d => match lookup k d with
               | Some x => Ok x
               | None => fail (MissingKey k)
               end
  | _ => fail (BadSubscript v k)
  end.

(** [v.get(k)] and [v.get(k, default)]. *)
Definition py_get (v : json) (k : pystr) (default : json) : result json :=
  match v with
  | JDict d => match lookup k d with
               | Some x => Ok x
               | None => Ok default
               end
  | _ => fail (NoAttribute v (str "get"))
  end.

(** [len(v)]. *)
Definition py_len (v : json) : result nat :=
  match v with
  | JList l => Ok (length l)
  | JDict d => Ok (length d)
  | JStr s => Ok (length s)
  | _ => fail (NoLen v)
  end.

(** The items [for x in v] visits. *)
Definition py_iter (v : json) : result (list json) :=
  match v with
  | JList l => Ok l
  | JDict d => Ok (map (fun kv => JStr (fst kv)) d)
  | JStr s => Ok (map (fun c => JStr [c]) s)
  | _ => fail (NotIterable v)
  end.

(** [float(z)] for an integer: the nearest binary64 value, or
    [OverflowError]. *)
Definition float_of_int (z : Z) : option float :=
  let f := SF2Prim (binary_normalize 53 1024 z 0 false) in
  if PrimFloat.is_infinity f then None else Some f.

(** [float(v)]. *)
Definition py_float (v : json) : result float :=
  match v with
  | JFloat f => Ok f
  | JInt z => match float_of_int z with
              | Some f => Ok f
              | None => fail (FloatOfHugeInt z)
              end
  | JBool b => Ok (if b then PrimFloat.one else PrimFloat.zero)
  | JStr s => match float_of_str s with
              | Some f => Ok f
              | None => fail (FloatOfString s)
              end
  | _ => fail (FloatOfOther v)
  end.

End Dynamic.

(* ================================================================= *)
(** ** Sequencing of computations that may raise *)

Definition bindR {A B : Type} (r : result A) (k : A -> result B) : result B :=
  match r with
  | Ok a => k a
  | Raise e => Raise e
  end.

Notation "'let?' x := r 'in' k" := (bindR r (fun x => k))
  (at level 10, x name, r at level 100, k at level 200).

(** A computation over a state [S]: it returns a value or raises, and in
    both cases leaves the state it reached. *)
Definition M (S A : Type) : Type := S -> result A * S.

Definition ret {S A : Type} (a : A) : M S A := fun s => (Ok a, s).

Definition raise {S A : Type} (e : exn) : M S A := fun s => (Raise e, s).

Definition bind {S A B : Type} (m : M S A) (k : A -> M S B) : M S B :=
  fun s =>
    match m s with
    | (Ok a, s') => k a s'
    | (Raise e, s') => (Raise e, s')
    end.

Definition lift {S A : Type} (r : result A) : M S A := fun s => (r, s).

(** [try: m  except Exception as e: h e]. *)
Definition try_except {S A : Type} (m : M S A) (h : exn -> M S A) : M S A :=
  fun s =>
    match m s with
    | (Ok a, s') => (Ok a, s')
    | (Raise e, s') => h e s'
    end.

Notation "x <- m ;; k" := (bind m (fun x => k))
  (at level 61, m at next level, right associativity).
Notation "m ;;; k" := (bind m (fun _ => k))
  (at level 61, right associativity).

(** [for x in l: body x], the loop stopping at the first exception. *)
Fixpoint for_each {S A : Type} (l : list A) (body : A -> M S unit) : M S unit :=
  match l with
  | [] => ret tt
  | x :: l' => body x ;;; for_each l' body
  end.

(** A loop that carries an accumulator. *)
Fixpoint fold_each {S A B : Type} (l : list A) (acc : B) (body : B -> A -> M S B)
  : M S B :=
  match l with
  | [] => ret acc
  | x :: l' => acc' <- body acc x ;; fold_each l' acc' body
  end.

Fixpoint for_eachR {A : Type} (l : list A) (body : A -> result unit) : result unit :=
  match l with
  | [] => Ok tt
  | x :: l' => let? _ := body x in for_eachR l' body
  end.

Fixpoint mapR {A B : Type} (f : A -> result B) (l : list A) : result (list B) :=
  match l with
  | [] => Ok []
  | x :: l' => let? y := f x in let? ys := mapR f l' in Ok (y :: ys)
  end.

(* ================================================================= *)
(** ** config.py *)

Definition TOP_N_RISKS : nat := 3.
Definition MAX_CANDIDATE_RISKS : nat := 30.

(* ================================================================= *)
(** ** models.py *)

Record Control : Type := {
  control_id : pystr;
  control_title : pystr;
  control_description : option pystr
}.

Record Risk : Type := {
  risk_id : pystr;
  risk_title : pystr;
  risk_description : pystr
}.

(** [RiskAssessment]; its first three fields carry the prefix [ra_] to keep
    them apart from those of [Risk]. *)
Record RiskAssessment : Type := {
  ra_risk_id : pystr;
  ra_risk_title : pystr;
  ra_risk_description : pystr;
  explanation : pystr;
  controls : list Control
}.

(** [assessment_id] and [timestamp] are filled by default factories
    ([uuid.uuid4], [datetime.now]). *)
Record RiskAssessmentResult : Type := {
  assessment_id : pystr;
  timestamp : Z;
  risks : list RiskAssessment
}.

Record ProposalSchema : Type := {
  cfp_id : option pystr;
  proposal_title : option pystr;
  description : pystr;
  technical_approach : option pystr;
  data_sources : option (list pystr);
  deployment : option pystr;
  data_governance : option pystr;
  model_governance : option pystr;
  security_measures : option pystr;
  additional_fields : option (list (pystr * json))
}.

Record KeywordExtractionResult : Type := {
  keywords : list pystr;
  confidence : float
}.

(** [RiskRankingResult.risks : List[Dict[str, str]]]. *)
Record RiskRankingResult : Type := {
  ranked_risks : list (list (pystr * pystr))
}.

Definition opt_json (o : option pystr) : json :=
  match o with
  | Some s => JStr s
  | None => JNull
  end.

(** [ProposalSchema.dict()], as app.py hands a proposal to the engine. *)
Definition ProposalSchema_dict (p : ProposalSchema) : json :=
  JDict
    [ (str "cfp_id", opt_json (cfp_id p));
      (str "proposal_title", opt_json (proposal_title p));
      (str "description", JStr (description p));
      (str "technical_approach", opt_json (technical_approach p));
      (str "data_sources",
         match data_sources p with
         | Some l => JList (map JStr l)
         | None => JNull
         end);
      (str "deployment", opt_json (deployment p));
      (str "data_governance", opt_json (data_governance p));
      (str "model_governance", opt_json (model_governance p));
      (str "security_measures", opt_json (security_measures p));
      (str "additional_fields",
         match additional_fields p with
         | Some d => JDict d
         | None => JNull
         end) ].

(* ================================================================= *)
(** ** prompts.py *)

Definition lines (l : list pystr) : pystr := join NL l.

Definition quoted (s : string) : pystr := DQ ++ str s ++ DQ.

(** [KEYWORD_EXTRACTION_PROMPT] up to its placeholder and after it, with
    the doubled braces of the template already reduced by [str.format]. *)
Definition KEYWORD_EXTRACTION_PROMPT_head : pystr :=
  lines
    [ str "";
      str "You are an AI/ML security risk assessor. Your task is to analyze a proposal and extract key risk themes that would be relevant for AI/ML security assessment.";
      str "";
      str "PROPOSAL:";
      str "" ].

Definition KEYWORD_EXTRACTION_PROMPT_tail : pystr :=
  lines
    [ str "";
      str "";
      str "INSTRUCTIONS:";
      str "1. Read the proposal carefully";
      str "2. Identify the main AI/ML use case described";
      str "3. Extract 3-5 key risk themes that would be relevant for this type of AI/ML system";
      str "4. Focus on security, privacy, governance, and operational risks";
      str "5. Use specific, searchable terms";
      str "";
      str "RISK THEMES TO CONSIDER:";
      str "- data privacy";
      str "- model deployment";
      str "- training data";
      str "- supply chain";
      str "- model governance";
      str "- access control";
      str "- data poisoning";
      str "- model bias";
      str "- compliance";
      str "- third party";
      str "";
      str "Return ONLY a JSON object with this exact format:";
      str "{";
      str "  " ++ quoted "keywords" ++ str ": [" ++ quoted "theme1" ++ str ", "
        ++ quoted "theme2" ++ str ", " ++ quoted "theme3" ++ str ", "
        ++ quoted "theme4" ++ str ", " ++ quoted "theme5" ++ str "],";
      str "  " ++ quoted "confidence" ++ str ": 0.85";
      str "}";
      str "";
      str "CRITICAL: Return ONLY valid JSON. No additional text or explanation.";
      str "" ].

Definition format_keyword_extraction_prompt (proposal_text : pystr) : pystr :=
  KEYWORD_EXTRACTION_PROMPT_head ++ proposal_text ++ KEYWORD_EXTRACTION_PROMPT_tail.

Definition RISK_RANKING_PROMPT_head : pystr :=
  lines
    [ str "";
      str "You are an AI/ML security risk assessor. Your task is to analyze a proposal and select the top 3 most relevant risks from a list of candidate risks.";
      str "";
      str "PROPOSAL:";
      str "" ].

Definition RISK_RANKING_PROMPT_middle : pystr :=
  lines [ str ""; str ""; str "CANDIDATE RISKS:"; str "" ].

Definition ranking_example (id : string) (trailing : string) : list pystr :=
  [ str "    {";
    str "      " ++ quoted "risk_id" ++ str ": " ++ quoted id ++ str trailing;
    str "      " ++ quoted "reasoning" ++ str ": "
      ++ quoted "Detailed explanation of why this risk applies to the proposal..." ].

Definition RISK_RANKING_PROMPT_tail : pystr :=
  lines
    ([ str "";
       str "";
       str "INSTRUCTIONS:";
       str "1. Analyze the proposal's AI/ML use case, data sources, deployment approach, and security measures";
       str "2. For each candidate risk, assess how relevant it is to this specific proposal";
       str "3. Consider the likelihood and impact of each risk for this use case";
       str "4. Select the TOP 3 most relevant risks";
       str "5. For each selected risk, provide a clear explanation of why it applies";
       str "";
       str "CRITICAL CONSTRAINTS:";
       str "- You MUST select exactly 3 risks";
       str "- You MUST only select from the candidate risks list above";
       str "- Risk IDs must match exactly (e.g., " ++ quoted "R.AIR.001" ++ str ")";
       str "- Provide substantive explanations (at least 2 sentences each)";
       str "";
       str "Return ONLY a JSON object with this exact format:";
       str "{";
       str "  " ++ quoted "risks" ++ str ": [" ]
     ++ ranking_example "R.AIR.XXX" "," ++ [ str "    }," ]
     ++ ranking_example "R.AIR.YYY" ", " ++ [ str "    }," ]
     ++ ranking_example "R.AIR.ZZZ" "," ++ [ str "    }" ]
     ++ [ str "  ]";
          str "}";
          str "";
          str "CRITICAL: Return ONLY valid JSON. No additional text or explanation.";
          str "" ]).

Definition format_risk_ranking_prompt (proposal_text candidate_risks : pystr) : pystr :=
  RISK_RANKING_PROMPT_head ++ proposal_text ++ RISK_RANKING_PROMPT_middle
    ++ candidate_risks ++ RISK_RANKING_PROMPT_tail.

(** [format_candidate_risks]; the ranking stage calls it on the dictionaries
    it builds from the candidates' three fields. *)
Definition format_candidate_risks (risks : list Risk) : pystr :=
  join NL
    (map (fun risk =>
            str "ID: " ++ risk_id risk ++ NL
            ++ str "Title: " ++ risk_title risk ++ NL
            ++ str "Description: " ++ risk_description risk ++ NL)
         risks).

(* ================================================================= *)
(** ** The outside world

    The generation service, the HTTP session of the database client and
    the default factories of [RiskAssessmentResult] are functions of an
    abstract world [W], which they may change.
    - [generate_content prompt] is
      [self.model.generate_content(prompt, generation_config=...)], the
      configuration being fixed by config.py, with the [.text] of the
      response; what the property [.text] raises is a [ValueError] of
      the library, never a [JSONDecodeError], so a [JSONDecodeError] of
      [generate_content] is one of the call itself;
    - [session_get path name value] is
      [self.session.get(base_url + path, params={name: value}, timeout=...)]
      followed by [raise_for_status()] and [json()];
    - [default_factories] is [uuid.uuid4()] with [datetime.now()]. *)

Class Services (W : Type) : Type := {
  generate_content : pystr -> W -> result pystr * W;
  session_get : pystr -> pystr -> pystr -> W -> result json * W;
  default_factories : W -> (pystr * Z) * W
}.

(** The calls a run makes, in the order it makes them. *)
Inductive call : Type :=
| Generate (prompt : pystr)
| Search (keywords : list pystr)
| Controls (risk_ids : list pystr)
| Get (path name value : pystr).

Record state (W : Type) : Type := {
  world : W;
  calls : list call
}.

Definition external {W A : Type} (c : call) (f : W -> result A * W)
  : M (state W) A :=
  fun s =>
    let (r, w) := f (world s) in
    (r, {| world := w; calls := calls s ++ [c] |}).

(* ================================================================= *)
(** ** llm_service.py *)

Section GeminiLLMService.
Context {RT : Runtime} {W : Type} {SV : Services W}.

(** [', '.join(sources)]: every item has to be a string. *)
Fixpoint join_items (i : nat) (l : list json) : result (list pystr) :=
  match l with
  | [] => Ok []
  | JStr s :: l' => let? rest := join_items (S i) l' in Ok (s :: rest)
  | v :: _ => fail (JoinItem i v)
  end.

(** [if proposal.get(key): parts.append(f"<label>{proposal[key]}")]. *)
Definition append_field (proposal : json) (key : string) (label : string)
    (parts : list pystr) : result (list pystr) :=
  let? v := py_get proposal (str key) JNull in
  if truthy v then Ok (parts ++ [str label ++ py_str v]) else Ok parts.

Definition append_data_sources (proposal : json) (parts : list pystr)
  : result (list pystr) :=
  let? sources := py_get proposal (str "data_sources") JNull in
  if truthy sources then
    match sources with
    | JList l =>
        let? items := join_items 0 l in
        Ok (parts ++ [str "Data Sources: " ++ join (str ", ") items])
    | _ => Ok (parts ++ [str "Data Sources: " ++ py_str sources])
    end
  else Ok parts.

Definition append_additional_fields (proposal : json) (parts : list pystr)
  : result (list pystr) :=
  let? extra := py_get proposal (str "additional_fields") JNull in
  if truthy extra then
    match extra with
    | JDict d =>
        Ok (parts ++ map (fun kv => fst kv ++ str ": " ++ py_str (snd kv)) d)
    | _ => fail (NoAttribute extra (str "items"))
    end
  else Ok parts.

Definition _format_proposal_text (proposal : json) : result pystr :=
  let parts := [] in
  let? parts := append_field proposal "proposal_title" "Title: " parts in
  let? parts := append_field proposal "description" "Description: " parts in
  let? parts := append_field proposal "technical_approach" "Technical Approach: " parts in
  let? parts := append_data_sources proposal parts in
  let? parts := append_field proposal "deployment" "Deployment: " parts in
  let? parts := append_field proposal "data_governance" "Data Governance: " parts in
  let? parts := append_field proposal "model_governance" "Model Governance: " parts in
  let? parts := append_field proposal "security_measures" "Security Measures: " parts in
  let? parts := append_additional_fields proposal parts in
  Ok (join (NL ++ NL) parts).

Definition invalid_json : exn :=
  Exn Exception_ (str "Invalid JSON response from LLM").

Definition invalid_format : exn :=
  Exn ValueError (str "Invalid response format from LLM").

Definition no_keywords : exn :=
  Exn ValueError (str "No keywords extracted").

(** [a not in v or b not in v], the second test made only when the first
    does not already decide. *)
Definition lacks_either (a b : string) (v : json) : result bool :=
  let? has_a := py_in (str a) v in
  if negb has_a then Ok true
  else let? has_b := py_in (str b) v in Ok (negb has_b).

(** [KeywordExtractionResult(keywords=..., confidence=...)]: the model
    validates [keywords : List[str]] item by item. *)
Definition new_KeywordExtractionResult (items : list json) (c : float)
  : result KeywordExtractionResult :=
  let? ks := mapR (fun v => match validate_str v with
                           | Some s => Ok s
                           | None => fail (Invalid (str "KeywordExtractionResult")
                                                   (str "keywords") v)
                           end) items in
  Ok {| keywords := ks; confidence := c |}.

(** The part of [extract_keywords] that follows [json.loads]. *)
Definition extract_keywords_validate (result_data : json)
  : result KeywordExtractionResult :=
  let? missing := lacks_either "keywords" "confidence" result_data in
  if missing then Raise invalid_format
  else
    let? kws := py_getitem result_data (str "keywords") in
    let? cv := py_getitem result_data (str "confidence") in
    let? c := py_float cv in
    match kws with
    | JList ((_ :: _) as items) => new_KeywordExtractionResult items c
    | _ => Raise no_keywords
    end.

(** The [except] clauses of [extract_keywords] and [rank_and_select]:
    [[
        except json.JSONDecodeError as e:
            logger.error(f"Raw response: {response.text}")
            raise Exception("Invalid JSON response from LLM")
        except Exception as e:
            raise
    ]]
    Two statements of the [try] body can raise a [JSONDecodeError], the
    generation request and [json.loads]; the formatter and the validation
    raise none.  When it is the request, [response] has not been assigned
    ([bound] is [false]) and the logging statement of the first clause
    raises [UnboundLocalError] in place of the exception the clause was to
    raise. *)
Definition handled (bound : bool) (e : exn) : exn :=
  if is_json_decode_error e then
    if bound then invalid_json
    else Exn (fault_class (UnboundLocal (str "response")))
             (fault_msg (UnboundLocal (str "response")))
  else e.

(** [response = self.model.generate_content(prompt, ...)] with the reading
    of [response.text], inside the [try] statement. *)
Definition generate (prompt : pystr) : M (state W) pystr :=
  try_except (external (Generate prompt) (generate_content prompt))
    (fun e => raise (handled false e)).

(** What the request gives inside the [try] statement when the service
    gives [y]. *)
Definition generated (y : result pystr) : result pystr :=
  match y with
  | Ok text => Ok text
  | Raise e => Raise (handled false e)
  end.

(** [json.loads(response.text)], inside the [try] statement. *)
Definition loads (text : pystr) : result json :=
  match json_loads text with
  | Ok result_data => Ok result_data
  | Raise e => Raise (handled true e)
  end.

Definition extract_keywords (proposal : json)
  : M (state W) KeywordExtractionResult :=
  proposal_text <- lift (_format_proposal_text proposal) ;;
  let prompt := format_keyword_extraction_prompt proposal_text in
  text <- generate prompt ;;
  result_data <- lift (loads text) ;;
  lift (extract_keywords_validate result_data).

(** [ValueError(f"Expected {config.TOP_N_RISKS} risks, got {n}")]. *)
Definition count_mismatch (n : nat) : exn :=
  Exn ValueError
      (str "Expected " ++ str_of_nat TOP_N_RISKS ++ str " risks, got "
       ++ str_of_nat n).

(** [ValueError(f"LLM selected invalid risk_id: {risk_id}")]. *)
Definition invalid_risk_id (rid : json) : exn :=
  Exn ValueError (str "LLM selected invalid risk_id: " ++ py_str rid).

(** The body of the validation loop of [rank_and_select]. *)
Definition check_ranked_risk (risks : list Risk) (risk : json) : result unit :=
  let? bad := lacks_either "risk_id" "reasoning" risk in
  if bad then Raise (Exn ValueError (str "Invalid risk format in LLM response"))
  else
    let? rid := py_getitem risk (str "risk_id") in
    if existsb (fun r => eq_str (risk_id r) rid) risks then Ok tt
    else Raise (invalid_risk_id rid).

(** [RiskRankingResult(risks=...)], validated as [List[Dict[str, str]]].
    By the time it is built every item has been subscripted with a string
    key, so it is a list of dictionaries. *)
Definition validate_ranked_entry (v : json) : result (list (pystr * pystr)) :=
  match v with
  | JDict d =>
      mapR (fun kv => match validate_str (snd kv) with
                      | Some s => Ok (fst kv, s)
                      | None => fail (Invalid (str "RiskRankingResult") (fst kv) (snd kv))
                      end) d
  | _ => fail (Invalid (str "RiskRankingResult") (str "risks") v)
  end.

Definition new_RiskRankingResult (ranked : json) : result RiskRankingResult :=
  match ranked with
  | JList l =>
      let? entries := mapR validate_ranked_entry l in
      Ok {| ranked_risks := entries |}
  | _ => fail (Invalid (str "RiskRankingResult") (str "risks") ranked)
  end.

(** The part of [rank_and_select] that follows [json.loads]; [risks] is
    the candidate list after truncation. *)
Definition rank_and_select_validate (risks : list Risk) (result_data : json)
  : result RiskRankingResult :=
  let? has_risks := py_in (str "risks") result_data in
  if negb has_risks then Raise invalid_format
  else
    let? ranked := py_getitem result_data (str "risks") in
    let? n := py_len ranked in
    if negb (Nat.eqb n TOP_N_RISKS) then Raise (count_mismatch n)
    else
      let? items := py_iter ranked in
      let? _ := for_eachR items (check_ranked_risk risks) in
      new_RiskRankingResult ranked.

(** [risks[:MAX_CANDIDATE_RISKS]] when there are more of them. *)
Definition limit_candidates (risks : list Risk) : list Risk :=
  if Nat.ltb MAX_CANDIDATE_RISKS (length risks)
  then firstn MAX_CANDIDATE_RISKS risks
  else risks.

Definition ranking_prompt (proposal_text : pystr) (risks : list Risk) : pystr :=
  format_risk_ranking_prompt proposal_text (format_candidate_risks risks).

Definition rank_and_select (proposal : json) (risks : list Risk)
  : M (state W) RiskRankingResult :=
  let risks := limit_candidates risks in
  proposal_text <- lift (_format_proposal_text proposal) ;;
  let prompt := ranking_prompt proposal_text risks in
  text <- generate prompt ;;
  result_data <- lift (loads text) ;;
  lift (rank_and_select_validate risks result_data).

End GeminiLLMService.

(* ================================================================= *)
(** ** db_service.py *)

Definition in_range (lo hi c : N) : bool := N.leb lo c && N.leb c hi.

Definition is_upper (c : N) : bool := in_range 65 90 c.
Definition is_lower (c : N) : bool := in_range 97 122 c.
Definition is_digit (c : N) : bool := in_range 48 57 c.

(** The class [\s] of a [str] pattern: the characters for which
    [str.isspace] holds. *)
Definition is_space (c : N) : bool :=
  in_range 9 13 c || in_range 28 32 c
  || N.eqb c 133 || N.eqb c 160 || N.eqb c 5760
  || in_range 8192 8202 c || N.eqb c 8232 || N.eqb c 8233
  || N.eqb c 8239 || N.eqb c 8287 || N.eqb c 12288.

(** The characters the class [[^a-zA-Z0-9\s\-_]] does not match. *)
Definition keeps (c : N) : bool :=
  is_lower c || is_upper c || is_digit c || is_space c
  || N.eqb c 45 || N.eqb c 95.

Definition _sanitize_keyword (keyword : pystr) : pystr :=
  let sanitized := filter keeps keyword in
  firstn 100 sanitized.

(** The longest prefix of [s] within the class [p], and what follows. *)
Fixpoint span (p : N -> bool) (s : pystr) : pystr * pystr :=
  match s with
  | c :: s' =>
      if p c then let (a, b) := span p s' in (c :: a, b) else ([], s)
  | [] => ([], [])
  end.

(** [re.match(r'^R\.[A-Z]+\.[0-9]+$', s)]; [$] also matches just before a
    final newline. *)
Definition matches_risk_id (s : pystr) : bool :=
  match s with
  | 82%N :: 46%N :: s1 =>
      match span is_upper s1 with
      | (_ :: _, 46%N :: s2) =>
          match span is_digit s2 with
          | (_ :: _, []) => true
          | (_ :: _, [10%N]) => true
          | _ => false
          end
      | _ => false
      end
  | _ => false
  end.

(** [x == z] for a float and an integer, compared exactly. *)
Definition float_eq_int (f : float) (z : Z) : bool :=
  match Prim2SF f with
  | S754_zero _ => Z.eqb z 0
  | S754_finite sign m e =>
      let v := if sign then Z.neg m else Z.pos m in
      if Z.leb 0 e then Z.eqb z (v * 2 ^ e) else Z.eqb (z * 2 ^ (- e)) v
  | _ => false
  end.

Definition Z_of_bool (b : bool) : Z := if b then 1%Z else 0%Z.

(** Equality of two dictionary keys.  [json.loads] returns one and the same
    object for every [NaN], which a dictionary finds by identity. *)
Definition key_eq (a b : json) : bool :=
  match a, b with
  | JStr s, JStr t => pystr_eqb s t
  | JNull, JNull => true
  | JBool x, JBool y => Bool.eqb x y
  | JBool x, JInt z | JInt z, JBool x => Z.eqb (Z_of_bool x) z
  | JInt x, JInt y => Z.eqb x y
  | JBool x, JFloat f | JFloat f, JBool x => float_eq_int f (Z_of_bool x)
  | JInt z, JFloat f | JFloat f, JInt z => float_eq_int f z
  | JFloat f, JFloat g =>
      PrimFloat.eqb f g || (PrimFloat.is_nan f && PrimFloat.is_nan g)
  | _, _ => false
  end.

Definition hashable (v : json) : bool :=
  match v with
  | JList _ | JDict _ => false
  | _ => true
  end.

(** [d[k] = v] on a dictionary with string keys. *)
Fixpoint dict_set {A : Type} (k : pystr) (v : A) (d : list (pystr * A))
  : list (pystr * A) :=
  match d with
  | [] => [(k, v)]
  | (k', v') :: d' =>
      if pystr_eqb k' k then (k', v) :: d' else (k', v') :: dict_set k v d'
  end.

Section DatabaseServiceClient.
Context {RT : Runtime} {W : Type} {SV : Services W}.

(** [k in all_risks]. *)
Definition key_in {A : Type} (k : json) (d : list (json * A)) : result bool :=
  if hashable k then Ok (existsb (fun kv => key_eq (fst kv) k) d)
  else fail (Unhashable k).

(** [Risk(risk_id=item["id"], risk_title=item["title"],
          risk_description=item["description"])]. *)
Definition new_Risk (item : json) : result Risk :=
  let? id := py_getitem item (str "id") in
  let? title := py_getitem item (str "title") in
  let? descr := py_getitem item (str "description") in
  match validate_str id, validate_str title, validate_str descr with
  | Some i, Some t, Some d =>
      Ok {| risk_id := i; risk_title := t; risk_description := d |}
  | None, _, _ => fail (Invalid (str "Risk") (str "risk_id") id)
  | _, None, _ => fail (Invalid (str "Risk") (str "risk_title") title)
  | _, _, None => fail (Invalid (str "Risk") (str "risk_description") descr)
  end.

(** One round of the loop over [data.get("results", [])]. *)
Definition collect_item (all_risks : list (json * Risk)) (item : json)
  : result (list (json * Risk)) :=
  let? ty := py_get item (str "type") JNull in
  if eq_str (str "risk") ty then
    let? id := py_getitem item (str "id") in
    let? seen := key_in id all_risks in
    if negb seen then
      let? r := new_Risk item in Ok (all_risks ++ [(id, r)])
    else Ok all_risks
  else Ok all_risks.

Fixpoint collect_items (all_risks : list (json * Risk)) (items : list json)
  : result (list (json * Risk)) :=
  match items with
  | [] => Ok all_risks
  | item :: rest =>
      let? all_risks := collect_item all_risks item in
      collect_items all_risks rest
  end.

(** One round of the loop over the first three sanitized keywords. *)
Definition search_keyword (all_risks : list (json * Risk)) (keyword : pystr)
  : M (state W) (list (json * Risk)) :=
  data <- external (Get (str "/api/search") (str "q") keyword)
                   (session_get (str "/api/search") (str "q") keyword) ;;
  lift (let? results := py_get data (str "results") (JList []) in
        let? items := py_iter results in
        collect_items all_risks items).

Definition unavailable (e : exn) : exn :=
  Exn Exception_ (str "Database service unavailable: " ++ exn_str e).

(** The two [except] clauses shared by the methods of the client. *)
Definition client_errors {A : Type} (m : M (state W) A) : M (state W) A :=
  try_except m
    (fun e => if is_request_exception e then raise (unavailable e) else raise e).

Definition search_risks (keywords : list pystr) : M (state W) (list Risk) :=
  client_errors
    (let sanitized_keywords := map _sanitize_keyword keywords in
     all_risks <- fold_each (firstn 3 sanitized_keywords) [] search_keyword ;;
     ret (map snd all_risks)).

Definition _validate_risk_id (risk_id : pystr) : result pystr :=
  if matches_risk_id risk_id then Ok risk_id
  else Raise (Exn ValueError (str "Invalid risk ID format: " ++ risk_id)).

(** One round of the loop over the relationships, for one risk. *)
Definition collect_control (risk_id : pystr) (found : list Control)
    (relationship : json) : result (list Control) :=
  let? source := py_get relationship (str "source_id") JNull in
  if eq_str risk_id source then
    let? ty := py_get relationship (str "relationship_type") JNull in
    if eq_str (str "risk_control") ty then
      let? target := py_get relationship (str "target_id") JNull in
      if truthy target then
        match validate_str target with
        | Some cid =>
            Ok (found ++
                [ {| control_id := cid;
                     control_title := str "Control " ++ py_str target;
                     control_description :=
                       Some (str "Control for risk " ++ risk_id) |} ])
        | None => fail (Invalid (str "Control") (str "control_id") target)
        end
      else Ok found
    else Ok found
  else Ok found.

Fixpoint collect_controls (risk_id : pystr) (found : list Control)
    (data : list json) : result (list Control) :=
  match data with
  | [] => Ok found
  | relationship :: rest =>
      let? found := collect_control risk_id found relationship in
      collect_controls risk_id found rest
  end.

Fixpoint controls_by_risk_of (data : list json) (ids : list pystr)
    (acc : list (pystr * list Control)) : result (list (pystr * list Control)) :=
  match ids with
  | [] => Ok acc
  | risk_id :: rest =>
      let? found := collect_controls risk_id [] data in
      controls_by_risk_of data rest (dict_set risk_id found acc)
  end.

Definition get_controls_for_risks (risk_ids : list pystr)
  : M (state W) (list (pystr * list Control)) :=
  client_errors
    (validated_ids <- lift (mapR _validate_risk_id risk_ids) ;;
     let param := join (str ",") validated_ids in
     data <- external (Get (str "/api/relationships") (str "risk_ids") param)
                      (session_get (str "/api/relationships") (str "risk_ids") param) ;;
     lift (match validated_ids with
           | [] => Ok []
           | _ => let? items := py_iter data in
                  controls_by_risk_of items validated_ids []
           end)).

End DatabaseServiceClient.

(* ================================================================= *)
(** ** risk_engine.py *)

(** What the engine asks of the [db_client] it is constructed with. *)
Record DbClient (W : Type) : Type := {
  db_search_risks : list pystr -> W -> result (list Risk) * W;
  db_get_controls_for_risks :
    list pystr -> W -> result (list (pystr * list Control)) * W
}.

(** The client of db_service.py as the engine sees it: the requests it
    sends stay inside the call. *)
Definition DatabaseServiceClient {RT : Runtime} {W : Type} {SV : Services W}
  : DbClient W :=
  {| db_search_risks := fun keywords w =>
       let (r, s) := search_risks keywords {| world := w; calls := [] |} in
       (r, world s);
     db_get_controls_for_risks := fun risk_ids w =>
       let (r, s) := get_controls_for_risks risk_ids {| world := w; calls := [] |} in
       (r, world s) |}.

Section RiskAssessmentEngine.
Context {RT : Runtime} {W : Type} {SV : Services W}.
Variable db_client : DbClient W.

Definition fallback_keywords : list pystr :=
  [str "data"; str "model"; str "security"; str "privacy"; str "governance"].

Definition _get_fallback_risks : M (state W) (list Risk) :=
  try_except
    (external (Search fallback_keywords)
              (db_search_risks db_client fallback_keywords))
    (fun _ => ret []).

(** Stages 1 and 2: keywords, search, fallback. *)
Definition candidate_stage (proposal : json) : M (state W) (list Risk) :=
  keyword_result <- extract_keywords proposal ;;
  let keywords := keywords keyword_result in
  candidate_risks <- external (Search keywords)
                              (db_search_risks db_client keywords) ;;
  match candidate_risks with
  | [] => _get_fallback_risks
  | _ => ret candidate_risks
  end.

(** [d[k]] on a validated dictionary. *)
Definition dict_getitem (d : list (pystr * pystr)) (k : pystr) : result pystr :=
  match lookup k d with
  | Some v => Ok v
  | None => fail (MissingKey k)
  end.

(** The inner loop of stage 5: the first candidate with the given id. *)
Definition find_details (candidate_risks : list Risk) (id : pystr)
  : option Risk :=
  find (fun risk => pystr_eqb (risk_id risk) id) candidate_risks.

(** One round of the outer loop of stage 5. *)
Definition assess_ranked (candidate_risks : list Risk)
    (controls_by_risk : list (pystr * list Control))
    (assessments : list RiskAssessment) (ranked_risk : list (pystr * pystr))
  : result (list RiskAssessment) :=
  let? id := dict_getitem ranked_risk (str "risk_id") in
  let? reasoning := dict_getitem ranked_risk (str "reasoning") in
  match find_details candidate_risks id with
  | None => Ok assessments
  | Some risk_details =>
      let controls := match lookup id controls_by_risk with
                      | Some cs => cs
                      | None => []
                      end in
      Ok (assessments ++
          [ {| ra_risk_id := id;
               ra_risk_title := risk_title risk_details;
               ra_risk_description := risk_description risk_details;
               explanation := reasoning;
               controls := controls |} ])
  end.

Fixpoint assess_all (candidate_risks : list Risk)
    (controls_by_risk : list (pystr * list Control))
    (assessments : list RiskAssessment) (ranked : list (list (pystr * pystr)))
  : result (list RiskAssessment) :=
  match ranked with
  | [] => Ok assessments
  | ranked_risk :: rest =>
      let? assessments :=
        assess_ranked candidate_risks controls_by_risk assessments ranked_risk in
      assess_all candidate_risks controls_by_risk assessments rest
  end.

Definition padding : RiskAssessment :=
  {| ra_risk_id := str "N/A";
     ra_risk_title := str "Assessment Error";
     ra_risk_description := str "Could not assess this risk";
     explanation := str "Assessment failed";
     controls := [] |}.

(** [while len(assessments) < TOP_N_RISKS: assessments.append(...)]; the
    loop runs at most [TOP_N_RISKS] times. *)
Fixpoint pad_loop (fuel : nat) (assessments : list RiskAssessment)
  : list RiskAssessment :=
  match fuel with
  | O => assessments
  | S fuel' =>
      if Nat.ltb (length assessments) TOP_N_RISKS
      then pad_loop fuel' (assessments ++ [padding])
      else assessments
  end.

Definition ensure_top_n (assessments : list RiskAssessment)
  : list RiskAssessment :=
  if negb (Nat.eqb (length assessments) TOP_N_RISKS)
  then pad_loop TOP_N_RISKS assessments
  else assessments.

(** [RiskAssessmentResult(risks=...)]. *)
Definition new_RiskAssessmentResult (rs : list RiskAssessment)
  : M (state W) RiskAssessmentResult :=
  fun s =>
    let '((id, ts), w) := default_factories (world s) in
    (Ok {| assessment_id := id; timestamp := ts; risks := rs |},
     {| world := w; calls := calls s |}).

(** Stage 4: the controls of the selected risks. *)
Definition enrichment_stage (ranking_result : RiskRankingResult)
  : M (state W) (list (pystr * list Control)) :=
  risk_ids <- lift (mapR (fun r => dict_getitem r (str "risk_id"))
                         (ranked_risks ranking_result)) ;;
  external (Controls risk_ids) (db_get_controls_for_risks db_client risk_ids).

(** Stages 3 to 5, from the candidates on. *)
Definition ranking_stages (proposal : json) (candidate_risks : list Risk)
  : M (state W) RiskAssessmentResult :=
  ranking_result <- rank_and_select proposal candidate_risks ;;
  controls_by_risk <- enrichment_stage ranking_result ;;
  assessments <- lift (assess_all candidate_risks controls_by_risk []
                                  (ranked_risks ranking_result)) ;;
  new_RiskAssessmentResult (ensure_top_n assessments).

(** The body of the [try] statement of [assess_proposal]. *)
Definition assess_body (proposal : json) : M (state W) RiskAssessmentResult :=
  candidate_risks <- candidate_stage proposal ;;
  ranking_stages proposal candidate_risks.

Definition error_assessment (e : exn) : RiskAssessment :=
  {| ra_risk_id := str "ERROR";
     ra_risk_title := str "Assessment Error";
     ra_risk_description := str "An error occurred during risk assessment";
     explanation := str "Error: " ++ exn_str e;
     controls := [] |}.

Definition assess_proposal (proposal : json) : M (state W) RiskAssessmentResult :=
  try_except (assess_body proposal)
    (fun e => new_RiskAssessmentResult (repeat (error_assessment e) TOP_N_RISKS)).

(** The ways a stage of a run can raise [e], leaving the state [s']. *)
Inductive stage_error (proposal : json) (s : state W) (e : exn) (s' : state W)
  : Prop :=
| extraction_error :
    extract_keywords proposal s = (Raise e, s') ->
    stage_error proposal s e s'
| search_error kr s1 :
    extract_keywords proposal s = (Ok kr, s1) ->
    external (Search (keywords kr)) (db_search_risks db_client (keywords kr)) s1
      = (Raise e, s') ->
    stage_error proposal s e s'
| ranking_error cands s1 :
    candidate_stage proposal s = (Ok cands, s1) ->
    rank_and_select proposal cands s1 = (Raise e, s') ->
    stage_error proposal s e s'
| enrichment_error cands s1 rr s2 :
    candidate_stage proposal s = (Ok cands, s1) ->
    rank_and_select proposal cands s1 = (Ok rr, s2) ->
    enrichment_stage rr s2 = (Raise e, s') ->
    stage_error proposal s e s'
| join_error cands s1 rr s2 cb :
    candidate_stage proposal s = (Ok cands, s1) ->
    rank_and_select proposal cands s1 = (Ok rr, s2) ->
    enrichment_stage rr s2 = (Ok cb, s') ->
    assess_all cands cb [] (ranked_risks rr) = Raise e ->
    stage_error proposal s e s'.

End RiskAssessmentEngine.

(* ================================================================= *)
(** ** The formatter as the specification words it

    The specification describes the output of the formatter on a proposal
    record: one block per field, in a fixed order, each with its label.
    [blocks emit_text emit_list p] lists those blocks, [emit_text] and
    [emit_list] deciding which of the fields that are present get a block. *)

Section FormatterSpec.
Context {RT : Runtime}.
Variable emit_text : pystr -> bool.
Variable emit_list : list pystr -> bool.

Definition text_block (label : string) (field : option pystr) : list pystr :=
  match field with
  | Some v => if emit_text v then [str label ++ v] else []
  | None => []
  end.

Definition list_block (label : string) (field : option (list pystr))
  : list pystr :=
  match field with
  | Some l => if emit_list l then [str label ++ join (str ", ") l] else []
  | None => []
  end.

Definition additional_blocks (field : option (list (pystr * json)))
  : list pystr :=
  match field with
  | Some d => map (fun kv => fst kv ++ str ": " ++ py_str (snd kv)) d
  | None => []
  end.

Definition blocks (p : ProposalSchema) : list pystr :=
  text_block "Title: " (proposal_title p)
  ++ text_block "Description: " (Some (description p))
  ++ text_block "Technical Approach: " (technical_approach p)
  ++ list_block "Data Sources: " (data_sources p)
  ++ text_block "Deployment: " (deployment p)
  ++ text_block "Data Governance: " (data_governance p)
  ++ text_block "Model Governance: " (model_governance p)
  ++ text_block "Security Measures: " (security_measures p)
  ++ additional_blocks (additional_fields p).

End FormatterSpec.

Definition nonempty {A : Type} (l : list A) : bool :=
  match l with [] => false | _ => true end.

(** A block for every field that is present. *)
Definition format_present {RT : Runtime} (p : ProposalSchema) : pystr :=
  join (NL ++ NL) (blocks (fun _ => true) (fun _ => true) p).

(** A block for every field that is present and not empty. *)
Definition format_nonempty {RT : Runtime} (p : ProposalSchema) : pystr :=
  join (NL ++ NL) (blocks nonempty nonempty p).

(** The characters the sanitizer is said to keep: ASCII letters, digits,
    whitespace, hyphens and underscores. *)
Definition is_ascii_letter (c : N) : bool := is_upper c || is_lower c.

Definition allowed (c : N) : bool :=
  is_ascii_letter c || is_digit c || is_space c || N.eqb c 45 || N.eqb c 95.

(** The request [search_risks] sends for one keyword. *)
Definition search_request (keyword : pystr) : call :=
  Get (str "/api/search") (str "q") keyword.

(** A validated entry of a ranking: it has a reasoning and the id of one of
    [risks]. *)
Definition selects_from (risks : list Risk) (entry : list (pystr * pystr)) : Prop :=
  exists id why,
    lookup (str "risk_id") entry = Some id
    /\ lookup (str "reasoning") entry = Some why
    /\ In id (map risk_id risks).

(** An assessment the join adds: it is built from a ranked entry and from
    the candidate that bears its id. *)
Definition joined (candidate_risks : list Risk)
    (ranked : list (list (pystr * pystr))) (a : RiskAssessment) : Prop :=
  exists entry risk,
    In entry ranked /\ In risk candidate_risks
    /\ lookup (str "risk_id") entry = Some (ra_risk_id a)
    /\ lookup (str "reasoning") entry = Some (explanation a)
    /\ risk_id risk = ra_risk_id a
    /\ risk_title risk = ra_risk_title a
    /\ risk_description risk = ra_risk_description a.

(** The candidates of a run whose search returned [found] and left the
    world [w]: the risks found or, when there are none, what the fallback
    search returns, nothing if it raises. *)
Definition candidates_of {W : Type} (db_client : DbClient W)
    (found : list Risk) (w : W) : list Risk :=
  match found with
  | [] => match fst (db_search_risks db_client fallback_keywords w) with
          | Ok l => l
          | Raise _ => []
          end
  | _ => found
  end.

(** The ids a ranking result selects. *)
Definition selected_ids (r : RiskRankingResult) : list (option pystr) :=
  map (lookup (str "risk_id")) (ranked_risks r).

(* ================================================================= *)
(** ** Concrete runs

    A world that answers from a script: each kind of call takes the next
    reply of its list.  The runtime parses the reply texts below and
    validates strings strictly. *)

Module Scenario.

Definition entry (id reasoning : string) : json :=
  JDict [ (str "risk_id", JStr (str id)); (str "reasoning", JStr (str reasoning)) ].

Definition entry_text (id reasoning : string) : pystr :=
  str "{" ++ quoted "risk_id" ++ str ": " ++ quoted id ++ str ", "
  ++ quoted "reasoning" ++ str ": " ++ quoted reasoning ++ str "}".

Definition ranking_value (ids : list string) : json :=
  JDict [ (str "risks", JList (map (fun id => entry id "relevant") ids)) ].

Definition ranking_text (ids : list string) : pystr :=
  str "{" ++ quoted "risks" ++ str ": ["
  ++ join (str ", ") (map (fun id => entry_text id "relevant") ids)
  ++ str "]}".

Definition themes : list pystr :=
  [str "data privacy"; str "model deployment"; str "third party"].

Definition themes_text : pystr :=
  str "[" ++ quoted "data privacy" ++ str ", " ++ quoted "model deployment"
  ++ str ", " ++ quoted "third party" ++ str "]".

(** A keyword reply whose confidence lies outside [0, 1]. *)
Definition keywords_text : pystr :=
  str "{" ++ quoted "keywords" ++ str ": " ++ themes_text ++ str ", "
  ++ quoted "confidence" ++ str ": 1.5}".

Definition keywords_value : json :=
  JDict [ (str "keywords", JList (map JStr themes));
          (str "confidence", JFloat 1.5%float) ].

(** A keyword reply whose confidence is [null]. *)
Definition null_confidence_text : pystr :=
  str "{" ++ quoted "keywords" ++ str ": " ++ themes_text ++ str ", "
  ++ quoted "confidence" ++ str ": null}".

Definition null_confidence_value : json :=
  JDict [ (str "keywords", JList (map JStr themes));
          (str "confidence", JNull) ].

Definition valid_ids : list string := ["R.AIR.002"; "R.AIR.004"; "R.AIR.005"]%string.
Definition repeated_ids : list string := ["R.AIR.001"; "R.AIR.001"; "R.AIR.001"]%string.
Definition two_ids : list string := ["R.AIR.001"; "R.AIR.002"]%string.
Definition unknown_ids : list string := ["R.AIR.001"; "R.AIR.099"; "R.AIR.003"]%string.

Definition parsed : list (pystr * json) :=
  [ (keywords_text, keywords_value);
    (null_confidence_text, null_confidence_value);
    (ranking_text valid_ids, ranking_value valid_ids);
    (ranking_text repeated_ids, ranking_value repeated_ids);
    (ranking_text two_ids, ranking_value two_ids);
    (ranking_text unknown_ids, ranking_value unknown_ids) ].

Definition strict_str (v : json) : option pystr :=
  match v with
  | JStr s => Some s
  | _ => None
  end.

(** What [json.loads] raises on a text that does not start a value. *)
Definition decode_error : exn :=
  Exn JSONDecodeError (str "Expecting value: line 1 column 1 (char 0)").

Definition loads_from (known : list (pystr * json)) (t : pystr) : result json :=
  match lookup t known with
  | Some v => Ok v
  | None => Raise decode_error
  end.

Definition runtime : Runtime :=
  {| json_loads := loads_from parsed;
     py_repr := fun _ => str "<repr>";
     fault_msg := fun _ => str "<fault>";
     float_of_str := fun _ => None;
     validate_str := strict_str;
     validate_str_id := fun s => eq_refl |}.

Record script : Type := {
  llm_replies : list (result pystr);
  search_replies : list (result (list Risk));
  controls_replies : list (result (list (pystr * list Control)));
  http_replies : list (result json)
}.

Definition exhausted : exn := Exn (OtherException (str "Exhausted")) (str "no reply left").

Definition next {A : Type} (l : list (result A)) : result A * list (result A) :=
  match l with
  | r :: rest => (r, rest)
  | [] => (Raise exhausted, [])
  end.

Definition services : Services script :=
  {| generate_content := fun _ w =>
       let (r, rest) := next (llm_replies w) in
       (r, {| llm_replies := rest; search_replies := search_replies w;
              controls_replies := controls_replies w;
              http_replies := http_replies w |});
     session_get := fun _ _ _ w =>
       let (r, rest) := next (http_replies w) in
       (r, {| llm_replies := llm_replies w; search_replies := search_replies w;
              controls_replies := controls_replies w;
              http_replies := rest |});
     default_factories := fun w =>
       ((str "00000000-0000-4000-8000-000000000000", 0%Z), w) |}.

Definition db : DbClient script :=
  {| db_search_risks := fun _ w =>
       let (r, rest) := next (search_replies w) in
       (r, {| llm_replies := llm_replies w; search_replies := rest;
              controls_replies := controls_replies w;
              http_replies := http_replies w |});
     db_get_controls_for_risks := fun _ w =>
       let (r, rest) := next (controls_replies w) in
       (r, {| llm_replies := llm_replies w; search_replies := search_replies w;
              controls_replies := rest;
              http_replies := http_replies w |}) |}.

Definition start (w : script) : state script := {| world := w; calls := [] |}.

Definition proposal : json :=
  JDict [ (str "description",
           JStr (str "Deploy a chatbot using RAG over support tickets")) ].

Definition proposal_text : pystr :=
  str "Description: Deploy a chatbot using RAG over support tickets".

Definition risk (id title : string) : Risk :=
  {| risk_id := str id; risk_title := str title;
     risk_description := str "A risk of the catalog" |}.

Definition five : list Risk :=
  [ risk "R.AIR.001" "Data poisoning"; risk "R.AIR.002" "Prompt injection";
    risk "R.AIR.003" "Model theft"; risk "R.AIR.004" "Privacy leakage";
    risk "R.AIR.005" "Third-party dependency" ].

Definition control (id : string) : Control :=
  {| control_id := str id; control_title := str "Control";
     control_description := None |}.

Definition script_of (ranking : list string) (found : list (result (list Risk)))
  : script :=
  {| llm_replies := [Ok keywords_text; Ok (ranking_text ranking)];
     search_replies := found;
     controls_replies := [Ok [(str "R.AIR.002", [control "C.AIIM.1"])]];
     http_replies := [] |}.

(** Five candidates, three of them validly selected. *)
Definition valid_run : script := script_of valid_ids [Ok five].

(** One candidate, selected three times. *)
Definition repeated_run : script :=
  script_of repeated_ids [Ok [risk "R.AIR.001" "Data poisoning"]].

(** Only two risks in the ranking reply. *)
Definition short_run : script := script_of two_ids [Ok five].

(** An id that is not among the candidates. *)
Definition unknown_run : script := script_of unknown_ids [Ok five].

(** Both searches come back empty. *)
Definition empty_run : script := script_of valid_ids [Ok []; Ok []].

(** The keyword reply has a [null] confidence. *)
Definition null_confidence_run : script :=
  {| llm_replies := [Ok null_confidence_text];
     search_replies := []; controls_replies := []; http_replies := [] |}.

(** A search session that answers three requests. *)
Definition search_session : script :=
  {| llm_replies := []; search_replies := []; controls_replies := [];
     http_replies := [Ok (JDict []); Ok (JDict []); Ok (JDict [])] |}.

(** A proposal record whose description is the empty string. *)
Definition empty_description : ProposalSchema :=
  {| cfp_id := None;
     proposal_title := Some (str "Chatbot");
     description := str "";
     technical_approach := None;
     data_sources := None;
     deployment := None;
     data_governance := None;
     model_governance := None;
     security_measures := None;
     additional_fields := None |}.

(** A proposal as the command line reads it from a file, with data sources
    that are not strings. *)
Definition numbered_sources : json :=
  JDict [ (str "description", JStr (str "Chatbot"));
          (str "data_sources", JList [JInt 1; JInt 2]) ].

(** The keywords of a search, two of them with characters that the
    sanitizer removes. *)
Definition raw_keywords : list pystr :=
  [str "data; privacy"; str "model's"; str "third-party_x"; str "unused"].

(** The state a run is in when its ranking stage starts. *)
Definition ranking_state (w : script) : state script :=
  snd (@candidate_stage runtime script services db proposal (start w)).

End Scenario.

(* ================================================================= *)
(** ** db_service.py and llm_service.py: lookups by id and health checks

    The requests of these methods carry no query parameter and the probe of
    the generation service has its own configuration, so they have their
    own interface to the world.
    - [session_fetch path] is [self.session.get(base_url + path, timeout=...)];
    - [generate_probe prompt] is
      [self.model.generate_content(prompt,
         generation_config=GenerationConfig(temperature=0,
                                            max_output_tokens=10)).text]. *)

(** What the methods read of a [requests.Response]: [response_json] is the
    outcome of [response.json()]. *)
Record response : Type := {
  status_code : nat;
  reason : pystr;
  response_json : result json
}.

Class Probes (W : Type) : Type := {
  session_fetch : pystr -> W -> result response * W;
  generate_probe : pystr -> W -> result pystr * W
}.

Inductive request : Type :=
| Fetch (path : pystr)
| Ask (prompt : pystr).

Record session (W : Type) : Type := {
  net : W;
  sent : list request
}.

Definition send {W A : Type} (q : request) (f : W -> result A * W)
  : M (session W) A :=
  fun s =>
    let (r, w) := f (net s) in
    (r, {| net := w; sent := sent s ++ [q] |}).

(** [response.raise_for_status()]: an [HTTPError] for the codes 400 to 599. *)
Definition raise_for_status (path : pystr) (r : response) : result unit :=
  if Nat.leb 400 (status_code r) && Nat.ltb (status_code r) 500 then
    Raise (Exn RequestException
               (str_of_nat (status_code r) ++ str " Client Error: " ++ reason r
                ++ str " for url: " ++ path))
  else if Nat.leb 500 (status_code r) && Nat.ltb (status_code r) 600 then
    Raise (Exn RequestException
               (str_of_nat (status_code r) ++ str " Server Error: " ++ reason r
                ++ str " for url: " ++ path))
  else Ok tt.

Section Lookups.
Context {RT : Runtime} {W : Type} {PB : Probes W}.

(** [except requests.exceptions.RequestException: return None]; any other
    exception leaves the method. *)
Definition none_on_request_error {A : Type} (m : M (session W) (option A))
  : M (session W) (option A) :=
  try_except m
    (fun e => if is_request_exception e then ret None else raise e).

Definition get_risk_by_id (risk_id : pystr) : M (session W) (option Risk) :=
  none_on_request_error
    (validated_id <- lift (_validate_risk_id risk_id) ;;
     let path := str "/api/risks/" ++ validated_id in
     response <- send (Fetch path) (session_fetch path) ;;
     if Nat.eqb (status_code response) 404 then ret None
     else
       lift (raise_for_status path response) ;;;
       data <- lift (response_json response) ;;
       risk <- lift (new_Risk data) ;;
       ret (Some risk)).

(** [DatabaseServiceClient.health_check]; its bare [except] catches
    everything. *)
Definition db_health_check : M (session W) bool :=
  try_except
    (response <- send (Fetch (str "/api/health"))
                      (session_fetch (str "/api/health")) ;;
     ret (Nat.eqb (status_code response) 200))
    (fun _ => ret false).

Definition probe_prompt : pystr := str "Say 'OK' if you can respond".

(** [GeminiLLMService.health_check]. *)
Definition llm_health_check : M (session W) bool :=
  try_except
    (text <- send (Ask probe_prompt) (generate_probe probe_prompt) ;;
     ret (is_substring (str "OK") text))
    (fun _ => ret false).

(** [RiskAssessmentEngine.health_check], for an engine built on the two
    services above: a dictionary with two entries. *)
Definition health_check : M (session W) (list (pystr * bool)) :=
  database_service <- db_health_check ;;
  llm_service <- llm_health_check ;;
  ret [ (str "database_service", database_service);
        (str "llm_service", llm_service) ].

End Lookups.

(* ================================================================= *)
(** ** cli.py and app.py *)

(** [load_proposal_from_text]. *)
Definition load_proposal_from_text (text : pystr) : json :=
  JDict [ (str "description", JStr text);
          (str "proposal_title", JStr (str "CLI Input Proposal")) ].

Module App.

Record AssessmentRequest : Type := {
  proposal : ProposalSchema;
  cfp : option (list (pystr * json))
}.

(** What a handler gives back: the response model, or an [HTTPException]. *)
Inductive reply : Type :=
| Returned (r : RiskAssessmentResult)
| HTTPException (status : nat) (detail : pystr).

(** [proposal_dict = request.proposal.dict()], with
    [proposal_dict["cfp_context"] = request.cfp] when a context is given and
    not empty. *)
Definition proposal_dict (request : AssessmentRequest) : json :=
  match ProposalSchema_dict (proposal request), cfp request with
  | JDict d, Some ((_ :: _) as c) => JDict (dict_set (str "cfp_context") (JDict c) d)
  | v, _ => v
  end.

Section Handlers.
Context {RT : Runtime} {W : Type} {SV : Services W}.
Variable db_client : DbClient W.

(** The [try] statement of both handlers around the call of the engine. *)
Definition perform (proposal_dict : json) : state W -> reply * state W :=
  fun s =>
    match assess_proposal db_client proposal_dict s with
    | (Ok r, s') => (Returned r, s')
    | (Raise e, s') =>
        (HTTPException 500 (str "Assessment failed: " ++ exn_str e), s')
    end.

Definition assess_risks (request : AssessmentRequest)
  : state W -> reply * state W :=
  perform (proposal_dict request).

Definition assess_risks_simple (p : ProposalSchema)
  : state W -> reply * state W :=
  perform (ProposalSchema_dict p).

End Handlers.

End App.

(* ================================================================= *)
(** ** What the properties below speak of *)

(** The keys [_format_proposal_text] reads. *)
Definition formatted_keys : list pystr :=
  [ str "proposal_title"; str "description"; str "technical_approach";
    str "data_sources"; str "deployment"; str "data_governance";
    str "model_governance"; str "security_measures"; str "additional_fields" ].

(** The ids [_validate_risk_id] is written for: [R.], upper-case ASCII
    letters, a dot, ASCII digits, at least one of each. *)
Definition risk_id_form (s : pystr) : Prop :=
  exists letters digits,
    letters <> [] /\ digits <> []
    /\ Forall (fun c => is_upper c = true) letters
    /\ Forall (fun c => is_digit c = true) digits
    /\ s = str "R." ++ letters ++ str "." ++ digits.

(** A string validation that accepts strings only, as pydantic 2 does. *)
Definition strict_validation {RT : Runtime} : Prop :=
  forall v s, validate_str v = Some s -> v = JStr s.

(** A control as [get_controls_for_risks] builds it: it is described as a control of that risk
    and titled after the target of its relationship. *)
Definition control_of {RT : Runtime} (risk : pystr) (c : Control) : Prop :=
  control_description c = Some (str "Control for risk " ++ risk)
  /\ exists target,
       truthy target = true
       /\ validate_str target = Some (control_id c)
       /\ control_title c = str "Control " ++ py_str target.

(** What the dictionary [all_risks] of [search_risks] satisfies when
    validation accepts strings only: each key is the id of its risk, and
    no id occurs twice. *)
Definition keyed_by_id (all_risks : list (json * Risk)) : Prop :=
  Forall (fun kv => fst kv = JStr (risk_id (snd kv))) all_risks
  /\ NoDup (map (fun kv => risk_id (snd kv)) all_risks).

(** The items of a search result that [search_risks] turns into risks:
    the objects whose ["type"] is ["risk"]. *)
Definition is_risk_item (item : json) : bool :=
  match item with
  | JDict d =>
      match lookup (str "type") d with
      | Some t => eq_str (str "risk") t
      | None => false
      end
  | _ => false
  end.

(** The assessment the join builds from one entry of the ranking. *)
Definition assessed_from (candidate_risks : list Risk)
    (controls_by_risk : list (pystr * list Control))
    (entry : list (pystr * pystr)) (a : RiskAssessment) : Prop :=
  lookup (str "risk_id") entry = Some (ra_risk_id a)
  /\ lookup (str "reasoning") entry = Some (explanation a)
  /\ (exists risk,
        find_details candidate_risks (ra_risk_id a) = Some risk
        /\ ra_risk_title a = risk_title risk
        /\ ra_risk_description a = risk_description risk)
  /\ controls a = match lookup (ra_risk_id a) controls_by_risk with
                  | Some cs => cs
                  | None => []
                  end.

(** An entry of a ranking next to the item of the reply it was validated
    from: the same keys in the same order, each value validated. *)
Definition validated_from {RT : Runtime} (item : json)
    (entry : list (pystr * pystr)) : Prop :=
  exists d,
    item = JDict d
    /\ Forall2 (fun kv ke => fst ke = fst kv /\ validate_str (snd kv) = Some (snd ke))
               d entry.

(** More concrete runs. *)
Module Cases.

Definition item (type id title : string) : json :=
  JDict [ (str "type", JStr (str type)); (str "id", JStr (str id));
          (str "title", JStr (str title));
          (str "description", JStr (str "A risk of the catalog")) ].

Definition results (items : list json) : json :=
  JDict [ (str "results", JList items) ].

(** Two searches whose results overlap and include a control. *)
Definition overlapping : Scenario.script :=
  {| Scenario.llm_replies := [];
     Scenario.search_replies := [];
     Scenario.controls_replies := [];
     Scenario.http_replies :=
       [ Ok (results [ item "risk" "R.AIR.001" "Data poisoning";
                       item "control" "C.AIIM.1" "Inventory";
                       item "risk" "R.AIR.002" "Prompt injection" ]);
         Ok (results [ item "risk" "R.AIR.002" "Prompt injection (again)";
                       item "risk" "R.AIR.003" "Model theft" ]);
         Ok (JDict []) ] |}.

Definition relationship (source target : string) : json :=
  JDict [ (str "source_id", JStr (str source));
          (str "relationship_type", JStr (str "risk_control"));
          (str "target_id", JStr (str target)) ].

(** A session that answers one request with two relationships. *)
Definition related : Scenario.script :=
  {| Scenario.llm_replies := [];
     Scenario.search_replies := [];
     Scenario.controls_replies := [];
     Scenario.http_replies :=
       [ Ok (JList [ relationship "R.AIR.001" "C.AIIM.1";
                     relationship "R.AIR.002" "C.AIIM.2" ]) ] |}.

(** A session whose first request fails to connect. *)
Definition refused : exn := Exn RequestException (str "Connection refused").

Definition unreachable : Scenario.script :=
  {| Scenario.llm_replies := [];
     Scenario.search_replies := [];
     Scenario.controls_replies := [];
     Scenario.http_replies := [Raise refused] |}.

(** The valid run of [Scenario], with the client of db_service.py behind
    the engine: one search request per keyword, one relationship request. *)
Definition served : Scenario.script :=
  {| Scenario.llm_replies :=
       [Ok Scenario.keywords_text; Ok (Scenario.ranking_text Scenario.valid_ids)];
     Scenario.search_replies := [];
     Scenario.controls_replies := [];
     Scenario.http_replies :=
       [ Ok (results [ item "risk" "R.AIR.002" "Prompt injection";
                       item "risk" "R.AIR.004" "Privacy leakage" ]);
         Ok (results [ item "risk" "R.AIR.005" "Third-party dependency" ]);
         Ok (results []);
         Ok (JList [ relationship "R.AIR.002" "C.AIIM.1" ]) ] |}.

(** A repository whose ids are not in the form the client validates. *)
Definition legacy_ids : Scenario.script :=
  {| Scenario.llm_replies :=
       [Ok Scenario.keywords_text;
        Ok (Scenario.ranking_text ["AIR-1"; "AIR-2"; "AIR-3"]%string)];
     Scenario.search_replies := [];
     Scenario.controls_replies := [];
     Scenario.http_replies :=
       [ Ok (results [ item "risk" "AIR-1" "Data poisoning";
                       item "risk" "AIR-2" "Prompt injection";
                       item "risk" "AIR-3" "Model theft" ]);
         Ok (results []); Ok (results []) ] |}.

Definition legacy_parsed : list (pystr * json) :=
  (Scenario.ranking_text ["AIR-1"; "AIR-2"; "AIR-3"]%string,
   Scenario.ranking_value ["AIR-1"; "AIR-2"; "AIR-3"]%string)
  :: Scenario.parsed.

Definition legacy_runtime : Runtime :=
  {| json_loads := Scenario.loads_from legacy_parsed;
     py_repr := fun _ => str "<repr>";
     fault_msg := fun _ => str "<fault>";
     float_of_str := fun _ => None;
     validate_str := Scenario.strict_str;
     validate_str_id := fun s => eq_refl |}.

(** The generation service answers the keyword request with text that is
    not JSON. *)
Definition garbled : Scenario.script :=
  {| Scenario.llm_replies := [Ok (str "Sure! Here are the keywords.")];
     Scenario.search_replies := [Ok Scenario.five];
     Scenario.controls_replies := [];
     Scenario.http_replies := [] |}.

(** The generation service answers the keyword request with brackets
    nested deeper than the recursion limit of the parser. *)
Definition nested_text : pystr := repeat 91%N 2000.

Definition recursion_error : exn :=
  Exn (OtherException (str "RecursionError"))
      (str "maximum recursion depth exceeded").

Definition nesting_runtime : Runtime :=
  {| json_loads := fun t =>
       if pystr_eqb t nested_text then Raise recursion_error
       else Scenario.loads_from Scenario.parsed t;
     py_repr := fun _ => str "<repr>";
     fault_msg := fun _ => str "<fault>";
     float_of_str := fun _ => None;
     validate_str := Scenario.strict_str;
     validate_str_id := fun s => eq_refl |}.

Definition nested : Scenario.script :=
  {| Scenario.llm_replies := [Ok nested_text];
     Scenario.search_replies := [Ok Scenario.five];
     Scenario.controls_replies := [];
     Scenario.http_replies := [] |}.

(** The generation service cannot be reached. *)
Definition timed_out : exn :=
  Exn (OtherException (str "DeadlineExceeded")) (str "504 Deadline Exceeded").

Definition silent : Scenario.script :=
  {| Scenario.llm_replies := [Raise timed_out];
     Scenario.search_replies := [Ok Scenario.five];
     Scenario.controls_replies := [];
     Scenario.http_replies := [] |}.

(** The first search finds nothing and the fallback search fails. *)
Definition database_unavailable : exn :=
  Exn Exception_ (str "Database service unavailable: Connection refused").

Definition fallback_down : Scenario.script :=
  Scenario.script_of Scenario.valid_ids [Ok []; Raise database_unavailable].

(** Probes answered from a script. *)
Record probe_script : Type := {
  fetches : list (result response);
  answers : list (result pystr)
}.

Definition probes : Probes probe_script :=
  {| session_fetch := fun _ w =>
       let (r, rest) := Scenario.next (fetches w) in
       (r, {| fetches := rest; answers := answers w |});
     generate_probe := fun _ w =>
       let (r, rest) := Scenario.next (answers w) in
       (r, {| fetches := fetches w; answers := rest |}) |}.

Definition open (w : probe_script) : session probe_script :=
  {| net := w; sent := [] |}.

Definition not_found : response :=
  {| status_code := 404; reason := str "Not Found";
     response_json := Ok (JDict []) |}.

Definition found (id : string) : response :=
  {| status_code := 200; reason := str "OK";
     response_json := Ok (item "risk" id "Data poisoning") |}.

(** The database is down, the generation service answers. *)
Definition database_down : probe_script :=
  {| fetches := [Raise refused]; answers := [Ok (str "OK, I can respond")] |}.

End Cases.

(** [pin H c v]: the hypothesis [H] can only hold when the character [c]
    is the literal [v]; [unpin H c]: it cannot hold whatever [c] is. *)
Ltac pin H c v :=
  assert (c = v) as -> by
    (destruct c as [|c]; [discriminate H|];
     repeat (destruct c as [c|c|]; try discriminate H); reflexivity).

Ltac unpin H c :=
  destruct c as [|c]; [discriminate H|];
  repeat (destruct c as [c|c|]; try discriminate H).

(* ================================================================= *)
(** * Properties *)

(** ** Strings, dictionaries and loops *)

Lemma pystr_eqb_refl (s : pystr) : pystr_eqb s s = true.
Proof.
  induction s as [|c s IH]; simpl; [reflexivity|].
  now rewrite N.eqb_refl, IH.
Qed.

Lemma pystr_eqb_eq (a b : pystr) : pystr_eqb a b = true -> a = b.
Proof.
  revert b; induction a as [|x a IH]; intros [|y b]; simpl; try discriminate; auto.
  intros H; apply andb_prop in H as [Hx Hab].
  apply N.eqb_eq in Hx; subst; f_equal; auto.
Qed.

Lemma pystr_eqb_neq (a b : pystr) : a <> b -> pystr_eqb a b = false.
Proof.
  intros H; destruct (pystr_eqb a b) eqn:E; [|reflexivity].
  now apply pystr_eqb_eq in E.
Qed.

Lemma eq_str_true (s : pystr) (v : json) : eq_str s v = true -> v = JStr s.
Proof.
  destruct v; simpl; try discriminate.
  intros H; apply pystr_eqb_eq in H; now subst.
Qed.

Lemma has_key_lookup {A : Type} (k : pystr) (d : list (pystr * A)) :
  has_key k d = true -> exists v, lookup k d = Some v.
Proof.
  unfold has_key; destruct (lookup k d) as [v|]; [eauto|discriminate].
Qed.

Lemma bindR_Ok {A B : Type} (r : result A) (k : A -> result B) (b : B) :
  bindR r k = Ok b -> exists a, r = Ok a /\ k a = Ok b.
Proof.
  destruct r as [a|e]; simpl; [eauto|discriminate].
Qed.

Lemma mapR_length {A B : Type} (f : A -> result B) (l : list A) (l' : list B) :
  mapR f l = Ok l' -> length l' = length l.
Proof.
  revert l'; induction l as [|x l IH]; simpl; intros l' H.
  - now inversion H.
  - apply bindR_Ok in H as (y & _ & H).
    apply bindR_Ok in H as (ys & Hys & H).
    inversion H; subst; simpl; f_equal; auto.
Qed.

Lemma mapR_Forall2 {A B : Type} (f : A -> result B) (l : list A) (l' : list B) :
  mapR f l = Ok l' -> Forall2 (fun x y => f x = Ok y) l l'.
Proof.
  revert l'; induction l as [|x l IH]; simpl; intros l' H.
  - inversion H; constructor.
  - apply bindR_Ok in H as (y & Hy & H).
    apply bindR_Ok in H as (ys & Hys & H).
    inversion H; subst; constructor; auto.
Qed.

Lemma for_eachR_Forall {A : Type} (body : A -> result unit) (l : list A) :
  for_eachR l body = Ok tt -> Forall (fun x => body x = Ok tt) l.
Proof.
  induction l as [|x l IH]; simpl; intros H; [constructor|].
  apply bindR_Ok in H as ([] & Hx & H); constructor; auto.
Qed.

Lemma for_eachR_Raise {A : Type} (body : A -> result unit) (l : list A) (x : A) :
  In x l -> (exists e, body x = Raise e) -> exists e, for_eachR l body = Raise e.
Proof.
  induction l as [|y l IH]; simpl; intros Hin Hx; [contradiction|].
  destruct (body y) as [[]|e] eqn:Ey; simpl; [|eauto].
  destruct Hin as [->|Hin]; [|auto].
  destruct Hx as (e & He); congruence.
Qed.

(** ** Computations over a state *)

Lemma bind_Ok {S A B : Type} (m : M S A) (k : A -> M S B) s b s' :
  bind m k s = (Ok b, s') ->
  exists a s1, m s = (Ok a, s1) /\ k a s1 = (Ok b, s').
Proof.
  unfold bind; destruct (m s) as [[a|e] s1]; intros H; [eauto|discriminate].
Qed.

Lemma bind_Raise {S A B : Type} (m : M S A) (k : A -> M S B) s e s' :
  bind m k s = (Raise e, s') ->
  m s = (Raise e, s') \/ exists a s1, m s = (Ok a, s1) /\ k a s1 = (Raise e, s').
Proof.
  unfold bind; destruct (m s) as [[a|e1] s1]; intros H; [eauto|].
  left; congruence.
Qed.

Lemma bind_step {S A B : Type} (m : M S A) (k : A -> M S B) s a s1 :
  m s = (Ok a, s1) -> bind m k s = k a s1.
Proof. unfold bind; now intros ->. Qed.

Lemma bind_fail {S A B : Type} (m : M S A) (k : A -> M S B) s e s1 :
  m s = (Raise e, s1) -> bind m k s = (Raise e, s1).
Proof. unfold bind; now intros ->. Qed.

Lemma lift_eq {S A : Type} (r x : result A) (s s' : S) :
  lift r s = (x, s') -> r = x /\ s' = s.
Proof. unfold lift; intros H; inversion H; auto. Qed.

Lemma external_eq {W A : Type} (c : call) (f : W -> result A * W) s r s' :
  external c f s = (r, s') ->
  exists w, f (world s) = (r, w) /\ s' = {| world := w; calls := calls s ++ [c] |}.
Proof.
  unfold external; destruct (f (world s)) as [r0 w]; intros H.
  inversion H; subst; eauto.
Qed.

Lemma external_run {W A : Type} (c : call) (f : W -> result A * W) s r w :
  f (world s) = (r, w) ->
  external c f s = (r, {| world := w; calls := calls s ++ [c] |}).
Proof. unfold external; now intros ->. Qed.

(** ** The generation request and the parsing of its reply *)

Section Generation.
Context {RT : Runtime} {W : Type} {SV : Services W}.

Lemma generate_run (prompt : pystr) (s : state W) y w :
  generate_content prompt (world s) = (y, w) ->
  generate prompt s
  = (generated y, {| world := w; calls := calls s ++ [Generate prompt] |}).
Proof.
  intros H; unfold generate, try_except.
  rewrite (external_run _ _ _ H); now destruct y.
Qed.

Lemma generate_eq (prompt : pystr) (s : state W) x s' :
  generate prompt s = (x, s') ->
  exists y w,
    generate_content prompt (world s) = (y, w)
    /\ x = generated y
    /\ s' = {| world := w; calls := calls s ++ [Generate prompt] |}.
Proof.
  destruct (generate_content prompt (world s)) as [y w] eqn:E.
  rewrite (generate_run _ _ E); intros H; inversion H; subst; eauto.
Qed.

Lemma generate_Ok (prompt : pystr) (s : state W) reply s' :
  generate prompt s = (Ok reply, s') ->
  exists w,
    generate_content prompt (world s) = (Ok reply, w)
    /\ s' = {| world := w; calls := calls s ++ [Generate prompt] |}.
Proof.
  intros H; apply generate_eq in H as (y & w & Hg & Hy & ->).
  destruct y; inversion Hy; subst; eauto.
Qed.

Lemma loads_Ok (text : pystr) (rd : json) :
  loads text = Ok rd <-> json_loads text = Ok rd.
Proof.
  unfold loads; destruct (json_loads text); split; intros H;
    inversion H; reflexivity.
Qed.

Lemma loads_Raise (text : pystr) (e : exn) :
  json_loads text = Raise e -> loads text = Raise (handled true e).
Proof. unfold loads; now intros ->. Qed.

End Generation.

(** ** The ranking stage *)

Section RankingFacts.
Context {RT : Runtime} {W : Type} {SV : Services W}.

Lemma lacks_either_false (a b : string) (v : json) :
  lacks_either a b v = Ok false ->
  py_in (str a) v = Ok true /\ py_in (str b) v = Ok true.
Proof.
  unfold lacks_either; intros H.
  apply bindR_Ok in H as (ha & Ha & H).
  destruct ha; simpl in H; [|discriminate].
  apply bindR_Ok in H as (hb & Hb & H).
  destruct hb; simpl in H; [auto|discriminate].
Qed.

Lemma py_getitem_Ok (v : json) (k : pystr) (x : json) :
  py_getitem v k = Ok x -> exists d, v = JDict d /\ lookup k d = Some x.
Proof.
  destruct v; simpl; try discriminate.
  destruct (lookup k d) eqn:E; [|discriminate].
  intros H; inversion H; subst; eauto.
Qed.

(** An item passes the validation loop only if it is a dictionary with a
    reasoning and with the id of one of the candidates. *)
Lemma check_ranked_risk_Ok (risks : list Risk) (v : json) :
  check_ranked_risk risks v = Ok tt ->
  exists d id,
    v = JDict d /\ lookup (str "risk_id") d = Some (JStr id)
    /\ In id (map risk_id risks) /\ has_key (str "reasoning") d = true.
Proof.
  unfold check_ranked_risk; intros H.
  apply bindR_Ok in H as (bad & Hbad & H).
  destruct bad; [discriminate|].
  apply lacks_either_false in Hbad as [_ Hwhy].
  apply bindR_Ok in H as (rid & Hrid & H).
  apply py_getitem_Ok in Hrid as (d & -> & Hrid).
  destruct (existsb _ risks) eqn:E; [|discriminate].
  apply existsb_exists in E as (r & Hr & Heq).
  apply eq_str_true in Heq; subst rid.
  exists d, (risk_id r).
  split; [reflexivity|]; split; [assumption|]; split; [now apply in_map|].
  unfold py_in in Hwhy; congruence.
Qed.

Lemma validate_ranked_entry_lookup d e (k : pystr) (v : json) :
  validate_ranked_entry (JDict d) = Ok e ->
  lookup k d = Some v ->
  exists s, validate_str v = Some s /\ lookup k e = Some s.
Proof.
  simpl; revert e; induction d as [|[k' v'] d IH]; simpl; intros e H Hk;
    [discriminate|].
  apply bindR_Ok in H as (y & Hy & H).
  apply bindR_Ok in H as (ys & Hys & H).
  inversion H; subst e; clear H.
  destruct (validate_str v') as [s'|] eqn:Ev; [|discriminate].
  inversion Hy; subst y; simpl.
  destruct (pystr_eqb k' k).
  - inversion Hk; subst; eauto.
  - eauto.
Qed.

Lemma new_RiskRankingResult_Ok (ranked : json) (rr : RiskRankingResult) :
  new_RiskRankingResult ranked = Ok rr ->
  exists l, ranked = JList l /\ mapR validate_ranked_entry l = Ok (ranked_risks rr).
Proof.
  destruct ranked; simpl; try discriminate.
  intros H; apply bindR_Ok in H as (entries & He & H).
  inversion H; subst; simpl; eauto.
Qed.

Lemma rank_and_select_validate_Ok (risks : list Risk) (rd : json) rr :
  rank_and_select_validate risks rd = Ok rr ->
  exists l,
    py_getitem rd (str "risks") = Ok (JList l)
    /\ length l = TOP_N_RISKS
    /\ Forall (fun v => check_ranked_risk risks v = Ok tt) l
    /\ mapR validate_ranked_entry l = Ok (ranked_risks rr).
Proof.
  unfold rank_and_select_validate; intros H.
  apply bindR_Ok in H as (has & _ & H).
  destruct (negb has); [discriminate|].
  apply bindR_Ok in H as (ranked & Hranked & H).
  apply bindR_Ok in H as (n & Hn & H).
  destruct (Nat.eqb n TOP_N_RISKS) eqn:En; simpl in H; [|discriminate].
  apply Nat.eqb_eq in En.
  apply bindR_Ok in H as (items & Hitems & H).
  apply bindR_Ok in H as ([] & Hloop & H).
  apply new_RiskRankingResult_Ok in H as (l & -> & Hl).
  simpl in Hn, Hitems.
  injection Hn as Hn; injection Hitems as Hitems; subst items.
  exists l; split; [assumption|]; split; [congruence|]; split; [|assumption].
  now apply for_eachR_Forall.
Qed.

Lemma validated_entries (risks : list Risk) (l : list json) entries :
  Forall (fun v => check_ranked_risk risks v = Ok tt) l ->
  mapR validate_ranked_entry l = Ok entries ->
  Forall (selects_from risks) entries.
Proof.
  intros Hl Hm; apply mapR_Forall2 in Hm.
  induction Hm as [|v e l entries Hv _ IH]; [constructor|].
  inversion Hl; subst; constructor; auto.
  destruct (check_ranked_risk_Ok _ _ H1) as (d & id & -> & Hid & Hin & Hwhy).
  apply has_key_lookup in Hwhy as (w & Hw).
  destruct (validate_ranked_entry_lookup _ _ Hv Hid) as (s & Hs & Hse).
  destruct (validate_ranked_entry_lookup _ _ Hv Hw) as (t & _ & Hte).
  rewrite validate_str_id in Hs; inversion Hs; subst s.
  exists id, t; auto.
Qed.

Lemma rank_and_select_validate_selects (risks : list Risk) (rd : json) rr :
  rank_and_select_validate risks rd = Ok rr ->
  length (ranked_risks rr) = TOP_N_RISKS
  /\ Forall (selects_from risks) (ranked_risks rr).
Proof.
  intros H; apply rank_and_select_validate_Ok in H as (l & _ & Hlen & Hl & Hm).
  split.
  - apply mapR_length in Hm; congruence.
  - eapply validated_entries; eauto.
Qed.

(** A successful call of [rank_and_select], taken apart. *)
Lemma rank_and_select_Ok (proposal : json) (risks : list Risk) s rr s' :
  rank_and_select proposal risks s = (Ok rr, s') ->
  exists text reply rd w,
    _format_proposal_text proposal = Ok text
    /\ generate_content (ranking_prompt text (limit_candidates risks)) (world s)
       = (Ok reply, w)
    /\ s' = {| world := w;
               calls := calls s
                        ++ [Generate (ranking_prompt text (limit_candidates risks))] |}
    /\ json_loads reply = Ok rd
    /\ rank_and_select_validate (limit_candidates risks) rd = Ok rr.
Proof.
  unfold rank_and_select; intros H.
  apply bind_Ok in H as (text & s1 & Ht & H).
  apply lift_eq in Ht as [Ht ->].
  apply bind_Ok in H as (reply & s2 & Hg & H).
  apply generate_Ok in Hg as (w & Hg & ->).
  apply bind_Ok in H as (rd & s3 & Ej & H).
  apply lift_eq in Ej as [Ej ->]; apply loads_Ok in Ej.
  apply lift_eq in H as [H ->].
  exists text, reply, rd, w; auto.
Qed.

Lemma rank_and_select_selects (proposal : json) (risks : list Risk) s rr s' :
  rank_and_select proposal risks s = (Ok rr, s') ->
  length (ranked_risks rr) = TOP_N_RISKS
  /\ Forall (selects_from (limit_candidates risks)) (ranked_risks rr).
Proof.
  intros H; apply rank_and_select_Ok in H as (t & r & rd & w & _ & _ & _ & _ & H).
  now apply rank_and_select_validate_selects with (rd := rd).
Qed.

Lemma limit_candidates_firstn (risks : list Risk) :
  limit_candidates risks = firstn MAX_CANDIDATE_RISKS risks.
Proof.
  unfold limit_candidates.
  destruct (Nat.ltb MAX_CANDIDATE_RISKS (length risks)) eqn:E; [reflexivity|].
  apply Nat.ltb_ge in E; symmetry; now apply firstn_all2.
Qed.

Lemma limit_candidates_incl (risks : list Risk) (id : pystr) :
  In id (map risk_id (limit_candidates risks)) -> In id (map risk_id risks).
Proof.
  rewrite limit_candidates_firstn; intros H.
  apply in_map_iff in H as (r & <- & Hr).
  apply in_map; rewrite <- (firstn_skipn MAX_CANDIDATE_RISKS risks).
  apply in_or_app; now left.
Qed.

End RankingFacts.

(** ** The engine *)

Section EngineFacts.
Context {RT : Runtime} {W : Type} {SV : Services W}.
Variable db_client : DbClient W.

Lemma pad_loop_length (fuel : nat) (l : list RiskAssessment) :
  length l <= TOP_N_RISKS -> TOP_N_RISKS <= length l + fuel ->
  length (pad_loop fuel l) = TOP_N_RISKS.
Proof.
  revert l; induction fuel as [|fuel IH]; simpl; intros l Hle Hge.
  - lia.
  - destruct (Nat.ltb (length l) TOP_N_RISKS) eqn:E.
    + apply Nat.ltb_lt in E; apply IH; rewrite length_app; simpl; lia.
    + apply Nat.ltb_ge in E; lia.
Qed.

Lemma pad_loop_In (fuel : nat) (l : list RiskAssessment) (a : RiskAssessment) :
  In a (pad_loop fuel l) -> In a l \/ a = padding.
Proof.
  revert l; induction fuel as [|fuel IH]; simpl; intros l H; [auto|].
  destruct (Nat.ltb (length l) TOP_N_RISKS); [|auto].
  apply IH in H as [H|H]; [|auto].
  apply in_app_or in H as [H|[H|[]]]; auto.
Qed.

Lemma ensure_top_n_length (l : list RiskAssessment) :
  length l <= TOP_N_RISKS -> length (ensure_top_n l) = TOP_N_RISKS.
Proof.
  intros H; unfold ensure_top_n.
  destruct (Nat.eqb (length l) TOP_N_RISKS) eqn:E; cbn [negb].
  - now apply Nat.eqb_eq.
  - apply pad_loop_length; lia.
Qed.

Lemma ensure_top_n_In (l : list RiskAssessment) (a : RiskAssessment) :
  In a (ensure_top_n l) -> In a l \/ a = padding.
Proof.
  unfold ensure_top_n; destruct (negb _); [apply pad_loop_In|auto].
Qed.

Lemma dict_getitem_Ok (d : list (pystr * pystr)) (k v : pystr) :
  dict_getitem d k = Ok v -> lookup k d = Some v.
Proof.
  unfold dict_getitem; destruct (lookup k d); [|discriminate].
  intros H; now inversion H.
Qed.

Lemma assess_ranked_Ok cands cb acc entry out :
  assess_ranked cands cb acc entry = Ok out ->
  out = acc \/ exists a, out = acc ++ [a] /\ joined cands [entry] a.
Proof.
  unfold assess_ranked; intros H.
  apply bindR_Ok in H as (id & Hid & H).
  apply bindR_Ok in H as (why & Hwhy & H).
  apply dict_getitem_Ok in Hid; apply dict_getitem_Ok in Hwhy.
  destruct (find_details cands id) as [r|] eqn:Ef.
  - right; inversion H; subst out; clear H.
    eexists; split; [reflexivity|].
    apply find_some in Ef as [Hr Heq]; apply pystr_eqb_eq in Heq.
    exists entry, r; simpl; repeat split; auto.
  - left; now inversion H.
Qed.

Lemma assess_all_Ok cands cb acc ranked out :
  assess_all cands cb acc ranked = Ok out ->
  length out <= length acc + length ranked
  /\ forall a, In a out -> In a acc \/ joined cands ranked a.
Proof.
  revert acc; induction ranked as [|entry ranked IH]; simpl; intros acc H.
  - inversion H; subst; split; [lia|auto].
  - apply bindR_Ok in H as (acc' & Hacc & H).
    apply IH in H as [Hlen Hin].
    apply assess_ranked_Ok in Hacc as [->|(a0 & -> & Ha0)].
    + split; [lia|].
      intros a Ha; apply Hin in Ha as [Ha|(e & r & He & Hr)]; [auto|].
      right; exists e, r; simpl; tauto.
    + rewrite length_app in Hlen; simpl in Hlen; split; [lia|].
      intros a Ha; apply Hin in Ha as [Ha|(e & r & He & Hr)].
      * apply in_app_or in Ha as [Ha|[<-|[]]]; [auto|].
        right; destruct Ha0 as (e & r & [<-|[]] & Hr).
        exists entry, r; simpl; tauto.
      * right; exists e, r; simpl; tauto.
Qed.

Lemma new_RiskAssessmentResult_run (rs : list RiskAssessment) (s : state W) :
  exists r s',
    new_RiskAssessmentResult rs s = (Ok r, s')
    /\ risks r = rs /\ calls s' = calls s.
Proof.
  unfold new_RiskAssessmentResult.
  destruct (default_factories (world s)) as [[id ts] w].
  eexists; eexists; split; [reflexivity|]; auto.
Qed.

Lemma new_RiskAssessmentResult_Ok (rs : list RiskAssessment) (s : state W) x s' :
  new_RiskAssessmentResult rs s = (x, s') ->
  exists r, x = Ok r /\ risks r = rs /\ calls s' = calls s.
Proof.
  destruct (new_RiskAssessmentResult_run rs s) as (r & s1 & E & Hr & Hc).
  rewrite E; intros H; inversion H; subst; eauto.
Qed.

(** A run whose [try] body returns, taken apart. *)
Lemma assess_body_Ok (proposal : json) s r s' :
  assess_body db_client proposal s = (Ok r, s') ->
  exists cands s1 rr s2 cb s3 assessments,
    candidate_stage db_client proposal s = (Ok cands, s1)
    /\ rank_and_select proposal cands s1 = (Ok rr, s2)
    /\ enrichment_stage db_client rr s2 = (Ok cb, s3)
    /\ assess_all cands cb [] (ranked_risks rr) = Ok assessments
    /\ risks r = ensure_top_n assessments
    /\ calls s' = calls s3.
Proof.
  unfold assess_body, ranking_stages; intros H.
  apply bind_Ok in H as (cands & s1 & Hc & H).
  apply bind_Ok in H as (rr & s2 & Hr & H).
  apply bind_Ok in H as (cb & s3 & He & H).
  apply bind_Ok in H as (assessments & s4 & Ha & H).
  apply lift_eq in Ha as [Ha ->].
  apply new_RiskAssessmentResult_Ok in H as (r' & Hr' & Hrs & Hcalls).
  inversion Hr'; subst r'.
  exists cands, s1, rr, s2, cb, s3, assessments; auto 10.
Qed.

(** The [try] body raises exactly when one of its stages does. *)
Lemma assess_body_Raise (proposal : json) s e s' :
  assess_body db_client proposal s = (Raise e, s') <->
  stage_error db_client proposal s e s'.
Proof.
  split.
  - unfold assess_body; intros H.
    apply bind_Raise in H as [H|(cands & s1 & Hc & H)].
    + unfold candidate_stage in H.
      apply bind_Raise in H as [H|(kr & s0 & Hk & H)];
        [now apply extraction_error|].
      apply bind_Raise in H as [H|(found & s2 & Hf & H)];
        [now apply search_error with kr s0|].
      destruct found; [|discriminate].
      unfold _get_fallback_risks, try_except in H.
      destruct (external _ _ s2) as [[x|e0] s3]; discriminate.
    + unfold ranking_stages in H.
      apply bind_Raise in H as [H|(rr & s2 & Hr & H)];
        [now apply ranking_error with cands s1|].
      apply bind_Raise in H as [H|(cb & s3 & He & H)];
        [now apply enrichment_error with cands s1 rr s2|].
      apply bind_Raise in H as [H|(assessments & s4 & Ha & H)].
      * apply lift_eq in H as [H ->]; now apply join_error with cands s1 rr s2 cb.
      * apply new_RiskAssessmentResult_Ok in H as (r & Hr' & _); discriminate.
  - unfold assess_body; intros [H|kr s1 Hk H|cands s1 Hc H
                               |cands s1 rr s2 Hc Hr H|cands s1 rr s2 cb Hc Hr He H].
    + apply bind_fail; unfold candidate_stage; now apply bind_fail.
    + apply bind_fail; unfold candidate_stage.
      rewrite (bind_step _ _ _ Hk); now apply bind_fail.
    + rewrite (bind_step _ _ _ Hc); unfold ranking_stages; now apply bind_fail.
    + rewrite (bind_step _ _ _ Hc); unfold ranking_stages.
      rewrite (bind_step _ _ _ Hr); now apply bind_fail.
    + rewrite (bind_step _ _ _ Hc); unfold ranking_stages.
      rewrite (bind_step _ _ _ Hr), (bind_step _ _ _ He).
      apply bind_fail; unfold lift; now rewrite H.
Qed.

Lemma assess_body_length (proposal : json) s r s' :
  assess_body db_client proposal s = (Ok r, s') ->
  length (risks r) = TOP_N_RISKS.
Proof.
  intros H.
  apply assess_body_Ok in H
    as (cands & s1 & rr & s2 & cb & s3 & assessments & _ & Hr & _ & Ha & -> & _).
  apply rank_and_select_selects in Hr as [Hlen _].
  apply assess_all_Ok in Ha as [Ha _]; simpl in Ha.
  apply ensure_top_n_length; lia.
Qed.

End EngineFacts.

(** ** The shape of the result and the degraded result *)

Section ShapeAndDegradation.
Context {RT : Runtime} {W : Type} {SV : Services W}.
Variable db_client : DbClient W.

Lemma pad_loop_repeat (fuel : nat) (l : list RiskAssessment) :
  pad_loop fuel l
  = l ++ repeat padding (Nat.min fuel (TOP_N_RISKS - length l)).
Proof.
  revert l; induction fuel as [|fuel IH]; intros l; cbn [pad_loop].
  - now rewrite app_nil_r.
  - destruct (Nat.ltb (length l) TOP_N_RISKS) eqn:E.
    + apply Nat.ltb_lt in E; rewrite IH, length_app; cbn [length].
      replace (TOP_N_RISKS - length l) with (S (TOP_N_RISKS - (length l + 1))) by lia.
      rewrite <- Nat.succ_min_distr; cbn [repeat].
      now rewrite <- app_assoc.
    + apply Nat.ltb_ge in E.
      replace (TOP_N_RISKS - length l) with 0 by lia.
      rewrite Nat.min_0_r; now rewrite app_nil_r.
Qed.

Lemma assess_proposal_returns (proposal : json) (s : state W) :
  exists r s', assess_proposal db_client proposal s = (Ok r, s').
Proof.
  unfold assess_proposal, try_except.
  destruct (assess_body db_client proposal s) as [[r|e] s1]; [eauto|].
  destruct (new_RiskAssessmentResult_run
              (repeat (error_assessment e) TOP_N_RISKS) s1)
    as (r & s2 & Hrun & _); eauto.
Qed.

(** The block that ensures the number of assessments, on any list: it
    appends ["N/A"] entries to a list of fewer than [TOP_N_RISKS] elements
    until it has [TOP_N_RISKS], and leaves any other list as it is. *)
Lemma ensure_top_n_pads (l : list RiskAssessment) :
  ensure_top_n l = l ++ repeat padding (TOP_N_RISKS - length l).
Proof.
  unfold ensure_top_n.
  destruct (Nat.eqb (length l) TOP_N_RISKS) eqn:E; cbn [negb].
  - apply Nat.eqb_eq in E; rewrite E, Nat.sub_diag; cbn [repeat].
    now rewrite app_nil_r.
  - rewrite pad_loop_repeat; do 2 f_equal; lia.
Qed.

(** C1.  Whatever the proposal and whatever the generation service and the
    repository do, [assess_proposal] returns a result, and the result has
    exactly [TOP_N_RISKS] = 3 risks.  On the success path the risks are
    what the block of lines 96 to 106 makes of the assessments that the
    join built from the candidates, the ranking and the controls of this
    run; on the failure path, where the [try] body raised [e], they are
    [TOP_N_RISKS] copies of the error entry of [e].  The block pads: to any
    list of assessments it appends as many ["N/A"] entries as the list
    lacks to have [TOP_N_RISKS] elements. *)
Theorem assess_proposal_shape (proposal : json) (s : state W) :
  (exists r s',
     assess_proposal db_client proposal s = (Ok r, s')
     /\ length (risks r) = TOP_N_RISKS
     /\ TOP_N_RISKS = 3
     /\ ((exists cands s1 rr s2 cb s3 assessments,
            candidate_stage db_client proposal s = (Ok cands, s1)
            /\ rank_and_select proposal cands s1 = (Ok rr, s2)
            /\ enrichment_stage db_client rr s2 = (Ok cb, s3)
            /\ assess_all cands cb [] (ranked_risks rr) = Ok assessments
            /\ length assessments <= TOP_N_RISKS
            /\ risks r = ensure_top_n assessments)
         \/ exists e s1,
              assess_body db_client proposal s = (Raise e, s1)
              /\ risks r = repeat (error_assessment e) TOP_N_RISKS))
  /\ (forall assessments : list RiskAssessment,
        ensure_top_n assessments
        = assessments ++ repeat padding (TOP_N_RISKS - length assessments))
  /\ padding = {| ra_risk_id := str "N/A";
                  ra_risk_title := str "Assessment Error";
                  ra_risk_description := str "Could not assess this risk";
                  explanation := str "Assessment failed";
                  controls := [] |}.
Proof.
  split; [|split; [exact ensure_top_n_pads|reflexivity]].
  unfold assess_proposal, try_except.
  destruct (assess_body db_client proposal s) as [[r|e] s1] eqn:E.
  - exists r, s1; split; [reflexivity|].
    split; [now apply assess_body_length in E|]; split; [reflexivity|].
    apply assess_body_Ok in E
      as (cands & s2 & rr & s3 & cb & s4 & assessments & Hc & Hr & He & Ha & Hrs & _).
    left; exists cands, s2, rr, s3, cb, s4, assessments.
    repeat (split; [assumption|]).
    split; [|assumption].
    apply rank_and_select_selects in Hr as [Hlen _].
    apply assess_all_Ok in Ha as [Ha _]; simpl in Ha; lia.
  - destruct (new_RiskAssessmentResult_run
                (repeat (error_assessment e) TOP_N_RISKS) s1)
      as (r & s2 & Hrun & Hr & _).
    exists r, s2; split; [assumption|].
    rewrite Hr; split; [apply repeat_length|]; split; [reflexivity|].
    right; exists e, s1; auto.
Qed.

End ShapeAndDegradation.

(** ** The anti-hallucination gate *)

Section Gate.
Context {RT : Runtime} {W : Type} {SV : Services W}.
Variable db_client : DbClient W.

Lemma lookup_has_key {A : Type} (k : pystr) (d : list (pystr * A)) (v : A) :
  lookup k d = Some v -> has_key k d = true.
Proof. unfold has_key; now intros ->. Qed.

(** An entry whose id is not the id of a candidate does not pass the loop. *)
Lemma check_ranked_risk_unknown (risks : list Risk) e (rid : json) :
  lookup (str "risk_id") e = Some rid ->
  (forall r, In r risks -> rid <> JStr (risk_id r)) ->
  exists err, check_ranked_risk risks (JDict e) = Raise err.
Proof.
  intros Hrid Hnot; unfold check_ranked_risk, lacks_either, py_in.
  rewrite (lookup_has_key _ _ Hrid); cbn [bindR negb].
  destruct (has_key (str "reasoning") e); cbn [bindR negb]; [|eauto].
  unfold py_getitem; rewrite Hrid; cbn [bindR].
  destruct (existsb _ risks) eqn:E; [|eauto].
  apply existsb_exists in E as (r & Hr & Heq).
  apply eq_str_true in Heq; now apply Hnot in Hr.
Qed.

Lemma rank_and_select_validate_unknown (risks : list Risk) d l e (rid : json) :
  lookup (str "risks") d = Some (JList l) ->
  In (JDict e) l ->
  lookup (str "risk_id") e = Some rid ->
  (forall r, In r risks -> rid <> JStr (risk_id r)) ->
  exists err, rank_and_select_validate risks (JDict d) = Raise err.
Proof.
  intros Hl Hin Hrid Hnot; unfold rank_and_select_validate, py_in, py_getitem.
  rewrite (lookup_has_key _ _ Hl), Hl; cbn [bindR negb py_len py_iter].
  destruct (Nat.eqb (length l) TOP_N_RISKS); cbn [negb]; [|eauto].
  destruct (for_eachR_Raise (check_ranked_risk risks) l (JDict e) Hin) as (err & ->).
  - now apply check_ranked_risk_unknown with rid.
  - cbn [bindR]; eauto.
Qed.

(** The ranking stage once its reply is known. *)
Lemma rank_and_select_reply (proposal : json) (risks : list Risk) s text reply w rd :
  _format_proposal_text proposal = Ok text ->
  generate_content (ranking_prompt text (limit_candidates risks)) (world s)
    = (Ok reply, w) ->
  json_loads reply = Ok rd ->
  rank_and_select proposal risks s
  = (rank_and_select_validate (limit_candidates risks) rd,
     {| world := w;
        calls := calls s ++ [Generate (ranking_prompt text (limit_candidates risks))] |}).
Proof.
  intros Ht Hg Hj; unfold rank_and_select.
  rewrite Ht; unfold bind at 1, lift at 1.
  erewrite bind_step by (exact (generate_run _ _ Hg)).
  apply loads_Ok in Hj; rewrite Hj; reflexivity.
Qed.

Lemma assess_proposal_Ok (proposal : json) s r s' :
  assess_proposal db_client proposal s = (Ok r, s') ->
  assess_body db_client proposal s = (Ok r, s')
  \/ exists e, risks r = repeat (error_assessment e) TOP_N_RISKS.
Proof.
  unfold assess_proposal, try_except.
  destruct (assess_body db_client proposal s) as [[r0|e] s1]; [auto|].
  intros H; apply new_RiskAssessmentResult_Ok in H as (r1 & Hr1 & Hrs & _).
  inversion Hr1; subst r1; right; now exists e.
Qed.

(** C2.  (1) When the reply of the ranking stage lists an entry whose
    [risk_id] is not, by exact equality, the id of a candidate passed to
    that call, [rank_and_select] raises and produces no result.
    (2) In every result of [assess_proposal], an entry whose id is neither
    ["ERROR"] nor ["N/A"] bears the id of one of the candidates given to
    the ranking stage of that run (indeed of one of the first
    [MAX_CANDIDATE_RISKS]), and that id was selected by the ranking. *)
Theorem anti_hallucination (proposal : json) (s : state W) :
  (forall risks text reply w d l e rid,
     _format_proposal_text proposal = Ok text ->
     generate_content (ranking_prompt text (limit_candidates risks)) (world s)
       = (Ok reply, w) ->
     json_loads reply = Ok (JDict d) ->
     lookup (str "risks") d = Some (JList l) ->
     In (JDict e) l ->
     lookup (str "risk_id") e = Some rid ->
     (forall r, In r risks -> rid <> JStr (risk_id r)) ->
     exists err s', rank_and_select proposal risks s = (Raise err, s'))
  /\ (forall r s' a,
        assess_proposal db_client proposal s = (Ok r, s') ->
        In a (risks r) ->
        ra_risk_id a <> str "ERROR" ->
        ra_risk_id a <> str "N/A" ->
        exists cands s1 rr s2,
          candidate_stage db_client proposal s = (Ok cands, s1)
          /\ rank_and_select proposal cands s1 = (Ok rr, s2)
          /\ In (Some (ra_risk_id a)) (selected_ids rr)
          /\ In (ra_risk_id a) (map risk_id (limit_candidates cands))
          /\ In (ra_risk_id a) (map risk_id cands)).
Proof.
  split.
  - intros risks text reply w d l e rid Ht Hg Hj Hl Hin Hrid Hnot.
    rewrite (rank_and_select_reply _ _ _ Ht Hg Hj).
    assert (Hlim : forall r, In r (limit_candidates risks) -> rid <> JStr (risk_id r)).
    { intros r Hr; apply Hnot.
      rewrite limit_candidates_firstn in Hr.
      rewrite <- (firstn_skipn MAX_CANDIDATE_RISKS risks).
      apply in_or_app; now left. }
    destruct (rank_and_select_validate_unknown _ _ _ Hl Hin Hrid Hlim) as (err & ->).
    eauto.
  - intros r s' a Hrun Ha Herr Hna.
    apply assess_proposal_Ok in Hrun as [Hrun|(e & He)].
    + apply assess_body_Ok in Hrun
        as (cands & s1 & rr & s2 & cb & s3 & assessments & Hc & Hr & _ & Hj & Hrs & _).
      rewrite Hrs in Ha; apply ensure_top_n_In in Ha as [Ha| ->];
        [|now contradiction Hna].
      apply assess_all_Ok in Hj as [_ Hj].
      apply Hj in Ha as [[]|(entry & risk & Hentry & _ & Hid & _)].
      pose proof (rank_and_select_selects _ _ _ Hr) as [_ Hsel].
      rewrite Forall_forall in Hsel.
      destruct (Hsel _ Hentry) as (id & why & Hid' & _ & Hin).
      assert (id = ra_risk_id a) by congruence; subst id.
      exists cands, s1, rr, s2; repeat split; auto.
      * unfold selected_ids; rewrite <- Hid; now apply in_map.
      * now apply limit_candidates_incl.
    + rewrite He in Ha; apply repeat_spec in Ha; subst a.
      now contradiction Herr.
Qed.

(** C6, as amended.  A successful call of [rank_and_select] returns exactly
    [TOP_N_RISKS] entries, each with a reasoning and with the id of one of
    the first [MAX_CANDIDATE_RISKS] candidates; nothing requires the ids to
    differ from one another. *)
Theorem rank_and_select_selects_candidates (proposal : json) (risks : list Risk)
    (s : state W) rr s' :
  rank_and_select proposal risks s = (Ok rr, s') ->
  length (ranked_risks rr) = TOP_N_RISKS
  /\ Forall (selects_from (firstn MAX_CANDIDATE_RISKS risks)) (ranked_risks rr).
Proof.
  intros H; rewrite <- limit_candidates_firstn.
  now apply rank_and_select_selects with proposal s s'.
Qed.

(** C5.  When the run reaches the ranking stage and the reply parses to an
    object whose ["risks"] array does not have exactly [TOP_N_RISKS]
    entries, [rank_and_select] raises the count-mismatch error and the
    result of the run is three ["ERROR"] entries that carry its message. *)
Theorem count_mismatch_degrades (proposal : json) (s : state W)
    cands s1 text reply w d l :
  candidate_stage db_client proposal s = (Ok cands, s1) ->
  _format_proposal_text proposal = Ok text ->
  generate_content (ranking_prompt text (limit_candidates cands)) (world s1)
    = (Ok reply, w) ->
  json_loads reply = Ok (JDict d) ->
  lookup (str "risks") d = Some (JList l) ->
  length l <> TOP_N_RISKS ->
  (exists s2, rank_and_select proposal cands s1
              = (Raise (count_mismatch (length l)), s2))
  /\ exists r s',
       assess_proposal db_client proposal s = (Ok r, s')
       /\ risks r = repeat (error_assessment (count_mismatch (length l))) 3
       /\ Forall (fun a => ra_risk_id a = str "ERROR") (risks r)
       /\ exn_str (count_mismatch (length l))
          = str "Expected 3 risks, got " ++ str_of_nat (length l).
Proof.
  intros Hc Ht Hg Hj Hl Hlen.
  assert (Hr : rank_and_select proposal cands s1
               = (Raise (count_mismatch (length l)),
                  {| world := w;
                     calls := calls s1
                              ++ [Generate (ranking_prompt text (limit_candidates cands))] |})).
  { rewrite (rank_and_select_reply _ _ _ Ht Hg Hj); f_equal.
    unfold rank_and_select_validate, py_in, py_getitem.
    rewrite (lookup_has_key _ _ Hl), Hl; cbn [bindR negb py_len].
    apply Nat.eqb_neq in Hlen; now rewrite Hlen. }
  split; [eauto|].
  assert (Hb : assess_body db_client proposal s
               = (Raise (count_mismatch (length l)),
                  {| world := w;
                     calls := calls s1
                              ++ [Generate (ranking_prompt text (limit_candidates cands))] |})).
  { apply assess_body_Raise; now apply ranking_error with cands s1. }
  unfold assess_proposal, try_except; rewrite Hb.
  destruct (new_RiskAssessmentResult_run
              (repeat (error_assessment (count_mismatch (length l))) TOP_N_RISKS)
              {| world := w;
                 calls := calls s1
                          ++ [Generate (ranking_prompt text (limit_candidates cands))] |})
    as (r & s2 & Hrun & Hrs & _).
  exists r, s2; split; [assumption|]; split; [assumption|]; split; [|reflexivity].
  rewrite Hrs; apply Forall_forall; intros a Ha.
  apply repeat_spec in Ha; now subst a.
Qed.

End Gate.

(** *** The theorems above on concrete runs *)

Lemma anti_hallucination_witness :
  (exists err s',
     rank_and_select (RT := Scenario.runtime) (SV := Scenario.services)
       Scenario.proposal Scenario.five
       (Scenario.ranking_state Scenario.unknown_run)
     = (Raise err, s'))
  /\ exists cands s1 rr s2,
       candidate_stage (RT := Scenario.runtime) (SV := Scenario.services)
         Scenario.db Scenario.proposal (Scenario.start Scenario.valid_run)
       = (Ok cands, s1)
       /\ rank_and_select (RT := Scenario.runtime) (SV := Scenario.services)
            Scenario.proposal cands s1 = (Ok rr, s2)
       /\ In (Some (str "R.AIR.002")) (selected_ids rr)
       /\ In (str "R.AIR.002") (map risk_id (limit_candidates cands))
       /\ In (str "R.AIR.002") (map risk_id cands).
Proof.
  split.
  - eapply (proj1 (anti_hallucination (RT := Scenario.runtime)
                     (SV := Scenario.services) Scenario.db Scenario.proposal
                     (Scenario.ranking_state Scenario.unknown_run)))
      with (e := [(str "risk_id", JStr (str "R.AIR.099"));
                  (str "reasoning", JStr (str "relevant"))]).
    + reflexivity.
    + reflexivity.
    + reflexivity.
    + reflexivity.
    + right; left; reflexivity.
    + reflexivity.
    + intros r [<-|[<-|[<-|[<-|[<-|[]]]]]]; vm_compute; discriminate.
  - edestruct (proj2 (anti_hallucination (RT := Scenario.runtime)
                        (SV := Scenario.services) Scenario.db Scenario.proposal
                        (Scenario.start Scenario.valid_run)))
      as (cands & s1 & rr & s2 & Hc & Hr & H1 & H2 & H3).
    + vm_compute; reflexivity.
    + left; reflexivity.
    + vm_compute; discriminate.
    + vm_compute; discriminate.
    + exists cands, s1, rr, s2; repeat split; assumption.
Defined.

Lemma rank_and_select_selects_candidates_witness :
  exists rr s',
    rank_and_select (RT := Scenario.runtime) (SV := Scenario.services)
      Scenario.proposal Scenario.five (Scenario.ranking_state Scenario.valid_run)
    = (Ok rr, s')
    /\ length (ranked_risks rr) = TOP_N_RISKS
    /\ Forall (selects_from (firstn MAX_CANDIDATE_RISKS Scenario.five))
              (ranked_risks rr).
Proof.
  eexists; eexists; split; [vm_compute; reflexivity|].
  eapply (rank_and_select_selects_candidates (RT := Scenario.runtime)
            (SV := Scenario.services))
    with (proposal := Scenario.proposal)
         (s := Scenario.ranking_state Scenario.valid_run).
  vm_compute; reflexivity.
Defined.

(** The validation accepts a reply that names the same candidate three
    times: the ids of a successful ranking need not be distinct. *)
Lemma repeated_selection_passes :
  exists rr s',
    rank_and_select (RT := Scenario.runtime) (SV := Scenario.services)
      Scenario.proposal [Scenario.risk "R.AIR.001" "Data poisoning"]
      (Scenario.ranking_state Scenario.repeated_run)
    = (Ok rr, s')
    /\ selected_ids rr
       = [Some (str "R.AIR.001"); Some (str "R.AIR.001"); Some (str "R.AIR.001")]
    /\ ~ NoDup (selected_ids rr).
Proof.
  eexists; eexists; split; [vm_compute; reflexivity|].
  split; [vm_compute; reflexivity|].
  intros H; vm_compute in H.
  inversion H as [|x l Hnot _]; apply Hnot; left; reflexivity.
Qed.

Lemma count_mismatch_degrades_witness :
  exists r s',
    assess_proposal (RT := Scenario.runtime) (SV := Scenario.services)
      Scenario.db Scenario.proposal (Scenario.start Scenario.short_run)
    = (Ok r, s')
    /\ risks r = repeat (error_assessment (count_mismatch 2)) 3.
Proof.
  edestruct (count_mismatch_degrades (RT := Scenario.runtime)
               (SV := Scenario.services) Scenario.db Scenario.proposal
               (Scenario.start Scenario.short_run))
    as [_ (r & s' & Hrun & Hr & _)].
  - vm_compute; reflexivity.
  - vm_compute; reflexivity.
  - vm_compute; reflexivity.
  - vm_compute; reflexivity.
  - vm_compute; reflexivity.
  - vm_compute; discriminate.
  - exists r, s'; split; [exact Hrun | exact Hr].
Defined.

(** ** The fallback search *)

Section Fallback.
Context {RT : Runtime} {W : Type} {SV : Services W}.
Variable db_client : DbClient W.

Lemma extract_keywords_Ok (proposal : json) s kr s1 :
  extract_keywords proposal s = (Ok kr, s1) ->
  exists text,
    _format_proposal_text proposal = Ok text
    /\ calls s1 = calls s ++ [Generate (format_keyword_extraction_prompt text)].
Proof.
  unfold extract_keywords; intros H.
  apply bind_Ok in H as (text & s0 & Ht & H).
  apply lift_eq in Ht as [Ht ->].
  apply bind_Ok in H as (reply & s2 & Hg & H).
  apply generate_Ok in Hg as (w & _ & ->).
  apply bind_Ok in H as (rd & s3 & Ej & H).
  apply lift_eq in Ej as [_ ->].
  apply lift_eq in H as [_ ->]; eauto.
Qed.

(** Whatever its outcome, the ranking stage of a proposal that can be
    formatted issues its one request to the generation service. *)
Lemma rank_and_select_calls (proposal : json) (risks : list Risk) s text x s' :
  _format_proposal_text proposal = Ok text ->
  rank_and_select proposal risks s = (x, s') ->
  calls s' = calls s ++ [Generate (ranking_prompt text (limit_candidates risks))].
Proof.
  intros Ht; unfold rank_and_select; rewrite Ht.
  unfold bind at 1, lift at 1; unfold bind.
  destruct (generate _ s) as [[reply|e] s1] eqn:Eg;
    apply generate_eq in Eg as (y & w & _ & _ & ->).
  - unfold lift; destruct (loads reply); intros H; now inversion H.
  - intros H; now inversion H.
Qed.

(** No reply passes the validation against an empty candidate list. *)
Lemma rank_and_select_nothing (proposal : json) s :
  exists e s', rank_and_select proposal [] s = (Raise e, s').
Proof.
  destruct (rank_and_select proposal [] s) as [[rr|e] s'] eqn:E; [|eauto].
  apply rank_and_select_selects in E as [Hlen Hsel].
  destruct (ranked_risks rr) as [|entry rest]; [discriminate|].
  inversion Hsel as [|? ? (id & why & _ & _ & []) _].
Qed.

Lemma candidate_stage_fallback (proposal : json) s kr s1 w2 found w3 :
  extract_keywords proposal s = (Ok kr, s1) ->
  db_search_risks db_client (keywords kr) (world s1) = (Ok [], w2) ->
  db_search_risks db_client fallback_keywords w2 = (found, w3) ->
  candidate_stage db_client proposal s
  = (Ok match found with Ok l => l | Raise _ => [] end,
     {| world := w3;
        calls := (calls s1 ++ [Search (keywords kr)]) ++ [Search fallback_keywords] |}).
Proof.
  intros Hk H1 H2; unfold candidate_stage.
  rewrite (bind_step _ _ _ Hk).
  erewrite bind_step by (apply external_run; exact H1).
  unfold _get_fallback_risks, try_except.
  erewrite external_run by (cbn [world]; exact H2).
  now destruct found.
Qed.

(** C4, as amended.  When the search on the extracted keywords returns no
    candidate, the engine searches once more, with the five fallback
    keywords; when that search also returns none (or raises), the ranking
    stage is still called, on the empty candidate list: the request to the
    generation service is issued, no reply can pass its validation, and the
    result of the run is [TOP_N_RISKS] ["ERROR"] entries. *)
Theorem empty_search_falls_back (proposal : json) (s : state W)
    kr s1 w2 found w3 :
  extract_keywords proposal s = (Ok kr, s1) ->
  db_search_risks db_client (keywords kr) (world s1) = (Ok [], w2) ->
  db_search_risks db_client fallback_keywords w2 = (found, w3) ->
  (exists s2,
     candidate_stage db_client proposal s
     = (Ok match found with Ok l => l | Raise _ => [] end, s2)
     /\ calls s2 = calls s1 ++ [Search (keywords kr); Search fallback_keywords]
     /\ fallback_keywords
        = [str "data"; str "model"; str "security"; str "privacy"; str "governance"])
  /\ ((found = Ok [] \/ exists e0, found = Raise e0) ->
      exists text e r s',
        _format_proposal_text proposal = Ok text
        /\ assess_proposal db_client proposal s = (Ok r, s')
        /\ calls s' = calls s1
                      ++ [Search (keywords kr); Search fallback_keywords;
                          Generate (ranking_prompt text [])]
        /\ risks r = repeat (error_assessment e) TOP_N_RISKS).
Proof.
  intros Hk H1 H2.
  pose proof (candidate_stage_fallback _ _ Hk H1 H2) as Hc.
  split.
  - eexists; split; [exact Hc|]; split; [|reflexivity].
    cbn [calls]; now rewrite <- app_assoc.
  - intros Hnone.
    assert (Hfound : match found with Ok l => l | Raise _ => [] end = [])
      by (destruct Hnone as [->|(e0 & ->)]; reflexivity).
    rewrite Hfound in Hc.
    destruct (extract_keywords_Ok _ _ Hk) as (text & Ht & _).
    destruct (rank_and_select_nothing proposal
                {| world := w3;
                   calls := (calls s1 ++ [Search (keywords kr)])
                            ++ [Search fallback_keywords] |})
      as (e & s3 & Hr).
    pose proof (rank_and_select_calls _ _ _ Ht Hr) as Hcalls.
    assert (Hb : assess_body db_client proposal s = (Raise e, s3)).
    { apply assess_body_Raise; eapply ranking_error; eauto. }
    destruct (new_RiskAssessmentResult_run
                (repeat (error_assessment e) TOP_N_RISKS) s3)
      as (r & s4 & Hrun & Hrs & Hc4).
    exists text, e, r, s4; split; [assumption|]; split.
    + unfold assess_proposal, try_except; now rewrite Hb.
    + split; [|assumption].
      rewrite Hc4, Hcalls; cbn [calls limit_candidates length Nat.ltb Nat.leb].
      now rewrite <- !app_assoc.
Qed.

End Fallback.

Lemma empty_search_falls_back_witness :
  exists r s',
    assess_proposal (RT := Scenario.runtime) (SV := Scenario.services)
      Scenario.db Scenario.proposal (Scenario.start Scenario.empty_run)
    = (Ok r, s')
    /\ calls s'
       = [Generate (format_keyword_extraction_prompt Scenario.proposal_text);
          Search Scenario.themes; Search fallback_keywords;
          Generate (ranking_prompt Scenario.proposal_text [])].
Proof.
  edestruct (empty_search_falls_back (RT := Scenario.runtime)
               (SV := Scenario.services) Scenario.db Scenario.proposal
               (Scenario.start Scenario.empty_run))
    as [_ H].
  - vm_compute; reflexivity.
  - vm_compute; reflexivity.
  - vm_compute; reflexivity.
  - destruct H as (text & e & r & s' & Ht & Hrun & Hcalls & _);
      [left; reflexivity|].
    exists r, s'; split; [exact Hrun|].
    assert (Htext : text = Scenario.proposal_text)
      by (vm_compute in Ht; injection Ht as <-; vm_compute; reflexivity).
    rewrite Hcalls, Htext; vm_compute; reflexivity.
Defined.

(** Both searches of this run return no candidate, and its second request
    to the generation service is the ranking request, made with an empty
    list of candidates. *)
Lemma ranking_called_without_candidates :
  fst (candidate_stage (RT := Scenario.runtime) (SV := Scenario.services)
         Scenario.db Scenario.proposal (Scenario.start Scenario.empty_run))
  = Ok []
  /\ calls (snd (assess_proposal (RT := Scenario.runtime)
                   (SV := Scenario.services) Scenario.db Scenario.proposal
                   (Scenario.start Scenario.empty_run)))
     = [Generate (format_keyword_extraction_prompt Scenario.proposal_text);
        Search Scenario.themes; Search fallback_keywords;
        Generate (ranking_prompt Scenario.proposal_text [])].
Proof.
  split; vm_compute; reflexivity.
Qed.

(** ** Errors of the stages *)

Section Degradation.
Context {RT : Runtime} {W : Type} {SV : Services W}.
Variable db_client : DbClient W.

(** C3, as amended.  [assess_proposal] always returns a result, never an
    exception.  When keyword extraction, the search for the extracted
    keywords, ranking, enrichment or the join raises [e], the result
    consists of [TOP_N_RISKS] copies of one entry with the id ["ERROR"],
    the title ["Assessment Error"], a fixed description, the explanation
    ["Error: "] followed by the message of [e], and no controls.  An error
    of the fallback search is not reported: [_get_fallback_risks] catches
    it, the run goes on without candidates, and the result carries the
    error that the ranking stage then raises. *)
Theorem stage_errors_degrade (proposal : json) (s : state W) :
  (exists r s', assess_proposal db_client proposal s = (Ok r, s'))
  /\ (forall e s1,
        stage_error db_client proposal s e s1 ->
        exists r s',
          assess_proposal db_client proposal s = (Ok r, s')
          /\ calls s' = calls s1
          /\ risks r = repeat (error_assessment e) TOP_N_RISKS
          /\ ra_risk_id (error_assessment e) = str "ERROR"
          /\ ra_risk_title (error_assessment e) = str "Assessment Error"
          /\ ra_risk_description (error_assessment e)
             = str "An error occurred during risk assessment"
          /\ explanation (error_assessment e) = str "Error: " ++ exn_str e
          /\ controls (error_assessment e) = [])
  /\ (forall kr s1 w2 e0 w3,
        extract_keywords proposal s = (Ok kr, s1) ->
        db_search_risks db_client (keywords kr) (world s1) = (Ok [], w2) ->
        db_search_risks db_client fallback_keywords w2 = (Raise e0, w3) ->
        exists e s2 r s',
          candidate_stage db_client proposal s
          = (Ok [],
             {| world := w3;
                calls := calls s1
                         ++ [Search (keywords kr); Search fallback_keywords] |})
          /\ rank_and_select proposal []
               {| world := w3;
                  calls := calls s1
                           ++ [Search (keywords kr); Search fallback_keywords] |}
             = (Raise e, s2)
          /\ assess_proposal db_client proposal s = (Ok r, s')
          /\ calls s' = calls s2
          /\ risks r = repeat (error_assessment e) TOP_N_RISKS).
Proof.
  assert (Hdegrade : forall e s1,
            stage_error db_client proposal s e s1 ->
            exists r s',
              assess_proposal db_client proposal s = (Ok r, s')
              /\ calls s' = calls s1
              /\ risks r = repeat (error_assessment e) TOP_N_RISKS).
  { intros e s1 H; apply assess_body_Raise in H.
    unfold assess_proposal, try_except; rewrite H.
    destruct (new_RiskAssessmentResult_run
                (repeat (error_assessment e) TOP_N_RISKS) s1)
      as (r & s2 & Hrun & Hr & Hc).
    exists r, s2; auto. }
  split; [|split].
  - destruct (assess_proposal_returns db_client proposal s) as (r & s' & H); eauto.
  - intros e s1 H.
    destruct (Hdegrade _ _ H) as (r & s' & Hrun & Hc & Hr).
    exists r, s'; repeat split; auto.
  - intros kr s1 w2 e0 w3 Hk H1 H2.
    pose proof (candidate_stage_fallback _ _ _ Hk H1 H2) as Hc.
    cbn iota in Hc; rewrite <- app_assoc in Hc; cbn [app] in Hc.
    destruct (rank_and_select_nothing proposal
                {| world := w3;
                   calls := calls s1
                            ++ [Search (keywords kr); Search fallback_keywords] |})
      as (e & s2 & Hr).
    destruct (Hdegrade e s2) as (r & s' & Hrun & Hcalls & Hrs);
      [eapply ranking_error; eauto|].
    exists e, s2, r, s'; auto 6.
Qed.

End Degradation.

Lemma stage_errors_degrade_witness :
  (exists r s',
     assess_proposal (RT := Scenario.runtime) (SV := Scenario.services)
       Scenario.db Scenario.proposal (Scenario.start Scenario.short_run)
     = (Ok r, s')
     /\ risks r
        = repeat (error_assessment
                    (Exn ValueError (str "Expected 3 risks, got 2"))) 3)
  /\ (exists r s',
        assess_proposal (RT := Scenario.runtime) (SV := Scenario.services)
          Scenario.db Scenario.proposal (Scenario.start Cases.fallback_down)
        = (Ok r, s')
        /\ risks r
           = repeat (error_assessment
                       (Exn ValueError
                            (str "LLM selected invalid risk_id: R.AIR.002"))) 3).
Proof.
  split.
  - destruct (stage_errors_degrade (RT := Scenario.runtime)
                (SV := Scenario.services) Scenario.db Scenario.proposal
                (Scenario.start Scenario.short_run))
      as (_ & H & _).
    edestruct H as (r & s' & Hrun & _ & Hr & _).
    + eapply ranking_error; vm_compute; reflexivity.
    + exists r, s'; split; [exact Hrun | exact Hr].
  - destruct (stage_errors_degrade (RT := Scenario.runtime)
                (SV := Scenario.services) Scenario.db Scenario.proposal
                (Scenario.start Cases.fallback_down))
      as (_ & _ & H).
    edestruct H as (e & s2 & r & s' & _ & Hr & Hrun & _ & Hrs).
    + vm_compute; reflexivity.
    + vm_compute; reflexivity.
    + vm_compute; reflexivity.
    + exists r, s'; split; [exact Hrun|].
      vm_compute in Hr; injection Hr as <- _; exact Hrs.
Defined.

(** The fallback search of this run raises, and the result does not carry
    its message: the explanation is that of the ranking stage, which
    rejects an id selected from no candidates. *)
Lemma fallback_error_not_reported :
  exists kr s1 w2 w3 r s',
    extract_keywords (RT := Scenario.runtime) (SV := Scenario.services)
      Scenario.proposal (Scenario.start Cases.fallback_down)
    = (Ok kr, s1)
    /\ db_search_risks Scenario.db (keywords kr) (world s1) = (Ok [], w2)
    /\ db_search_risks Scenario.db fallback_keywords w2
       = (Raise Cases.database_unavailable, w3)
    /\ assess_proposal (RT := Scenario.runtime) (SV := Scenario.services)
         Scenario.db Scenario.proposal (Scenario.start Cases.fallback_down)
       = (Ok r, s')
    /\ risks r
       = repeat (error_assessment
                   (Exn ValueError
                        (str "LLM selected invalid risk_id: R.AIR.002")))
                TOP_N_RISKS
    /\ forallb (fun a => negb (is_substring (exn_str Cases.database_unavailable)
                                            (explanation a)))
               (risks r)
       = true.
Proof.
  do 6 eexists.
  split; [vm_compute; reflexivity|].
  split; [vm_compute; reflexivity|].
  split; [vm_compute; reflexivity|].
  split; [vm_compute; reflexivity|].
  split; vm_compute; reflexivity.
Qed.

(** ** Truncation and sanitization *)

Section Truncation.
Context {RT : Runtime} {W : Type} {SV : Services W}.

(** One round of the search loop sends one request, whatever comes back. *)
Lemma search_keyword_calls (all_risks : list (json * Risk)) (keyword : pystr)
    (s : state W) x s' :
  search_keyword all_risks keyword s = (x, s') ->
  calls s' = calls s ++ [search_request keyword].
Proof.
  unfold search_keyword, bind, external, search_request.
  destruct (session_get _ _ keyword (world s)) as [[data|e] w].
  - unfold lift; intros H; now inversion H.
  - intros H; now inversion H.
Qed.

(** The loop sends the requests of its keywords in order, and stops at the
    first round that raises. *)
Lemma search_loop_calls (kws : list pystr) (all_risks : list (json * Risk))
    (s : state W) x s' :
  fold_each kws all_risks search_keyword s = (x, s') ->
  exists n,
    n <= length kws
    /\ calls s' = calls s ++ map search_request (firstn n kws)
    /\ ((exists found, x = Ok found) -> n = length kws).
Proof.
  revert all_risks s; induction kws as [|k kws IH]; intros all_risks s; cbn [fold_each].
  - unfold ret; intros H; inversion H; subst.
    exists 0; cbn; rewrite app_nil_r; auto.
  - unfold bind.
    destruct (search_keyword all_risks k s) as [[acc|e] s1] eqn:E;
      apply search_keyword_calls in E.
    + intros H; apply IH in H as (n & Hn & Hcalls & Hall).
      exists (S n); cbn [length firstn map]; split; [lia|]; split.
      * rewrite Hcalls, E, <- app_assoc; reflexivity.
      * intros Hx; f_equal; auto.
    + intros H; inversion H; subst.
      exists 1; cbn [length firstn map]; split; [lia|]; split; [assumption|].
      intros (found & Hf); discriminate.
Qed.

Lemma client_errors_calls {A : Type} (m : M (state W) A) (s : state W) x s' :
  client_errors m s = (x, s') ->
  exists y, m s = (y, s') /\ ((exists a, x = Ok a) -> x = y).
Proof.
  unfold client_errors, try_except.
  destruct (m s) as [[a|e] s1]; intros H.
  - inversion H; subst; eauto.
  - exists (Raise e); destruct (is_request_exception e); unfold raise in H;
      inversion H; subst; split; auto; intros (a & Ha); discriminate.
Qed.

Lemma firstn_min_length {A : Type} (k : nat) (l : list A) :
  firstn (Nat.min k (length l)) l = firstn k l.
Proof.
  revert l; induction k as [|k IH]; intros [|x l]; cbn; try reflexivity.
  now rewrite IH.
Qed.

(** The requests of a call of [search_risks]: the sanitized forms of its
    first three keywords, in order, up to the first request that fails. *)
Lemma search_risks_calls (kws : list pystr) (s : state W) x s' :
  search_risks kws s = (x, s') ->
  exists n,
    n <= 3
    /\ calls s'
       = calls s
         ++ map (fun k => search_request (_sanitize_keyword k))
                (firstn n (firstn 3 kws))
    /\ ((exists found, x = Ok found) -> firstn n (firstn 3 kws) = firstn 3 kws).
Proof.
  unfold search_risks; intros H.
  apply client_errors_calls in H as (y & H & Hy).
  unfold bind in H.
  destruct (fold_each _ _ _ s) as [r s1] eqn:E.
  apply search_loop_calls in E as (n & Hn & Hcalls & Hall).
  assert (Hs : calls s' = calls s1 /\ ((exists a, y = Ok a) -> exists acc, r = Ok acc)).
  { destruct r as [acc|e]; unfold ret in H; inversion H; subst; split; eauto.
    intros (a & Ha); discriminate. }
  destruct Hs as [Hs Hok].
  exists (Nat.min n 3); split; [lia|]; split.
  - rewrite Hs, Hcalls, !firstn_map, map_map, !firstn_firstn.
    replace (Nat.min (Nat.min n 3) 3) with (Nat.min n 3) by lia; reflexivity.
  - intros Hx; pose proof (Hy Hx) as <-.
    apply Hok, Hall in Hx.
    rewrite firstn_firstn.
    replace (Nat.min (Nat.min n 3) 3) with (Nat.min 3 (length kws)).
    + apply firstn_min_length.
    + rewrite Hx, length_firstn, length_map; lia.
Qed.

End Truncation.

Section Sanitizer.

Lemma keeps_allowed (c : N) : keeps c = allowed c.
Proof.
  unfold keeps, allowed, is_ascii_letter.
  destruct (is_lower c), (is_upper c); reflexivity.
Qed.

Lemma sanitize_filter (k : pystr) :
  _sanitize_keyword k = firstn 100 (filter allowed k).
Proof.
  unfold _sanitize_keyword; f_equal; apply filter_ext, keeps_allowed.
Qed.

Lemma sanitize_length (k : pystr) : length (_sanitize_keyword k) <= 100.
Proof. unfold _sanitize_keyword; rewrite length_firstn; lia. Qed.

Lemma In_firstn {A : Type} (n : nat) (l : list A) (x : A) :
  In x (firstn n l) -> In x l.
Proof.
  intros H; rewrite <- (firstn_skipn n l); apply in_or_app; now left.
Qed.

Lemma sanitize_allowed (k : pystr) :
  Forall (fun c => allowed c = true) (_sanitize_keyword k).
Proof.
  rewrite sanitize_filter; apply Forall_forall; intros c Hc.
  apply In_firstn, filter_In in Hc; tauto.
Qed.

Lemma sanitize_clean (k : pystr) :
  Forall (fun c => allowed c = true) k -> length k <= 100 ->
  _sanitize_keyword k = k.
Proof.
  intros Hk Hlen; rewrite sanitize_filter.
  assert (Hf : filter allowed k = k).
  { induction Hk as [|c k Hc _ IH]; cbn; [reflexivity|].
    rewrite Hc, IH; [reflexivity|cbn in Hlen; lia]. }
  rewrite Hf; now apply firstn_all2.
Qed.

Lemma allowed_spec (c : N) :
  allowed c = true <->
  ((65 <= c <= 90)%N \/ (97 <= c <= 122)%N \/ (48 <= c <= 57)%N
   \/ is_space c = true \/ c = 45%N \/ c = 95%N).
Proof.
  unfold allowed, is_ascii_letter, is_upper, is_lower, is_digit, in_range.
  rewrite !orb_true_iff, !andb_true_iff, !N.leb_le, !N.eqb_eq; tauto.
Qed.

End Sanitizer.

Section TruncationClaims.
Context {RT : Runtime} {W : Type} {SV : Services W}.

(** C7.  [search_risks] sends requests for the first three keywords only,
    in their order (all three when no request fails); and
    [rank_and_select] on a candidate list is [rank_and_select] on its first
    [MAX_CANDIDATE_RISKS] candidates: the request it issues lists them in
    their order, and the ids it accepts are theirs. *)
Theorem truncation (keywords : list pystr) (s : state W)
    (proposal : json) (risks : list Risk) (s0 : state W) :
  (forall x s',
     search_risks keywords s = (x, s') ->
     exists n,
       n <= 3
       /\ calls s'
          = calls s
            ++ map (fun k => search_request (_sanitize_keyword k))
                   (firstn n (firstn 3 keywords))
       /\ ((exists found, x = Ok found) ->
           firstn n (firstn 3 keywords) = firstn 3 keywords))
  /\ rank_and_select proposal risks s0
     = rank_and_select proposal (firstn MAX_CANDIDATE_RISKS risks) s0
  /\ (forall text y s1,
        _format_proposal_text proposal = Ok text ->
        rank_and_select proposal risks s0 = (y, s1) ->
        calls s1
        = calls s0
          ++ [Generate (ranking_prompt text (firstn MAX_CANDIDATE_RISKS risks))])
  /\ (forall rr s1,
        rank_and_select proposal risks s0 = (Ok rr, s1) ->
        Forall (selects_from (firstn MAX_CANDIDATE_RISKS risks)) (ranked_risks rr))
  /\ (MAX_CANDIDATE_RISKS < length risks ->
      length (firstn MAX_CANDIDATE_RISKS risks) = MAX_CANDIDATE_RISKS)
  /\ exists rest, risks = firstn MAX_CANDIDATE_RISKS risks ++ rest.
Proof.
  split; [intros x s'; apply search_risks_calls|].
  split.
  { unfold rank_and_select.
    rewrite !limit_candidates_firstn, firstn_firstn, Nat.min_id; reflexivity. }
  split.
  { intros text y s1 Ht H; rewrite <- limit_candidates_firstn.
    now apply rank_and_select_calls with proposal y. }
  split.
  { intros rr s1 H; rewrite <- limit_candidates_firstn.
    now apply rank_and_select_selects in H. }
  split.
  { intros H; rewrite length_firstn; lia. }
  exists (skipn MAX_CANDIDATE_RISKS risks); now rewrite firstn_skipn.
Qed.

(** C10.  The value of each search request is the keyword with every
    character removed that is not an ASCII letter, a digit, whitespace, a
    hyphen or an underscore, cut to at most 100 characters; a keyword that
    has only such characters and at most 100 of them is sent as it is. *)
Theorem search_requests_sanitized (keywords : list pystr) (s : state W) x s' :
  search_risks keywords s = (x, s') ->
  (exists n,
     n <= 3
     /\ calls s'
        = calls s
          ++ map (fun k => Get (str "/api/search") (str "q")
                               (firstn 100 (filter allowed k)))
                 (firstn n (firstn 3 keywords))
     /\ ((exists found, x = Ok found) ->
         firstn n (firstn 3 keywords) = firstn 3 keywords))
  /\ forall k,
       _sanitize_keyword k = firstn 100 (filter allowed k)
       /\ length (_sanitize_keyword k) <= 100
       /\ Forall (fun c => allowed c = true) (_sanitize_keyword k)
       /\ (Forall (fun c => allowed c = true) k -> length k <= 100 ->
           _sanitize_keyword k = k)
       /\ forall c,
            allowed c = true <->
            ((65 <= c <= 90)%N \/ (97 <= c <= 122)%N \/ (48 <= c <= 57)%N
             \/ is_space c = true \/ c = 45%N \/ c = 95%N).
Proof.
  intros H; split.
  - apply search_risks_calls in H as (n & Hn & Hcalls & Hall).
    exists n; split; [assumption|]; split; [|assumption].
    rewrite Hcalls; f_equal; apply map_ext; intros k.
    unfold search_request; now rewrite sanitize_filter.
  - intros k; split; [apply sanitize_filter|].
    split; [apply sanitize_length|]; split; [apply sanitize_allowed|].
    split; [apply sanitize_clean|apply allowed_spec].
Qed.

End TruncationClaims.

Lemma truncation_witness :
  calls (snd (search_risks (RT := Scenario.runtime) (SV := Scenario.services)
                Scenario.raw_keywords (Scenario.start Scenario.search_session)))
  = [search_request (str "data privacy"); search_request (str "models");
     search_request (str "third-party_x")].
Proof.
  destruct (proj1 (truncation (RT := Scenario.runtime) (SV := Scenario.services)
                     Scenario.raw_keywords (Scenario.start Scenario.search_session)
                     Scenario.proposal Scenario.five
                     (Scenario.start Scenario.valid_run))
              _ _ (surjective_pairing _))
    as (n & _ & Hcalls & Hall).
  rewrite Hcalls, Hall; [vm_compute; reflexivity|].
  vm_compute; eauto.
Defined.

Lemma search_requests_sanitized_witness :
  calls (snd (search_risks (RT := Scenario.runtime) (SV := Scenario.services)
                Scenario.raw_keywords (Scenario.start Scenario.search_session)))
  = [Get (str "/api/search") (str "q") (str "data privacy");
     Get (str "/api/search") (str "q") (str "models");
     Get (str "/api/search") (str "q") (str "third-party_x")].
Proof.
  destruct (proj1 (search_requests_sanitized (RT := Scenario.runtime)
                     (SV := Scenario.services) Scenario.raw_keywords
                     (Scenario.start Scenario.search_session)
                     (surjective_pairing _)))
    as (n & _ & Hcalls & Hall).
  rewrite Hcalls, Hall; [vm_compute; reflexivity|].
  vm_compute; eauto.
Defined.

(** ** Keyword extraction *)

Section KeywordStage.
Context {RT : Runtime} {W : Type} {SV : Services W}.

(** The keyword stage once its reply is known. *)
Lemma extract_keywords_reply (proposal : json) s text reply w rd :
  _format_proposal_text proposal = Ok text ->
  generate_content (format_keyword_extraction_prompt text) (world s)
    = (Ok reply, w) ->
  json_loads reply = Ok rd ->
  extract_keywords proposal s
  = (extract_keywords_validate rd,
     {| world := w;
        calls := calls s ++ [Generate (format_keyword_extraction_prompt text)] |}).
Proof.
  intros Ht Hg Hj; unfold extract_keywords.
  rewrite Ht; unfold bind at 1, lift at 1.
  erewrite bind_step by (exact (generate_run _ _ Hg)).
  apply loads_Ok in Hj; rewrite Hj; reflexivity.
Qed.

(** The validation of an object that has both fields. *)
Lemma extract_keywords_validate_fields d (kv cv : json) :
  lookup (str "keywords") d = Some kv ->
  lookup (str "confidence") d = Some cv ->
  extract_keywords_validate (JDict d)
  = (let? c := py_float cv in
     match kv with
     | JList ((_ :: _) as items) => new_KeywordExtractionResult items c
     | _ => Raise no_keywords
     end).
Proof.
  intros Hk Hc; unfold extract_keywords_validate, lacks_either, py_in, py_getitem.
  now rewrite (lookup_has_key _ _ Hk), (lookup_has_key _ _ Hc), Hk, Hc.
Qed.

Lemma new_KeywordExtractionResult_Ok (items : list json) (c : float) kr :
  new_KeywordExtractionResult items c = Ok kr <->
  Forall2 (fun v k => validate_str v = Some k) items (keywords kr)
  /\ confidence kr = c.
Proof.
  unfold new_KeywordExtractionResult; split.
  - intros H; apply bindR_Ok in H as (ks & Hks & H).
    inversion H; subst kr; cbn; split; [|reflexivity].
    apply mapR_Forall2 in Hks.
    eapply Forall2_impl; [|exact Hks].
    cbn; intros v k Hv; destruct (validate_str v); [|discriminate].
    now inversion Hv.
  - destruct kr as [ks c']; cbn; intros [Hks ->].
    assert (E : mapR (fun v => match validate_str v with
                               | Some s => Ok s
                               | None => fail (Invalid (str "KeywordExtractionResult")
                                                       (str "keywords") v)
                               end) items = Ok ks).
    { induction Hks as [|v k items ks Hv _ IH]; cbn; [reflexivity|].
      now rewrite Hv, IH. }
    now rewrite E.
Qed.

Lemma validated_strings (ks : list pystr) :
  Forall2 (fun v k => validate_str v = Some k) (map JStr ks) ks.
Proof.
  induction ks as [|k ks IH]; cbn; constructor; auto.
  apply validate_str_id.
Qed.

Lemma with_state {A S : Type} (x y : result A) (s : S) :
  x = y -> exists s', (x, s) = (y, s').
Proof. intros ->; now exists s. Qed.

(** C8, as amended.  For a reply that parses to an object with both
    fields, [extract_keywords] succeeds exactly when [keywords] is a
    non-empty list whose entries pass the string validation of the result
    model and [float] accepts the confidence; the result then holds the
    validated keywords and the converted confidence.  It raises
    ["No keywords extracted"] when the confidence converts and [keywords]
    is not a non-empty list, and the error of [float] when the confidence
    does not convert.  Keywords that are strings are returned unchanged,
    and a confidence that is a float is returned as it is, whatever its
    value. *)
Theorem extract_keywords_outcome (proposal : json) (s : state W)
    text reply w d kv cv :
  _format_proposal_text proposal = Ok text ->
  generate_content (format_keyword_extraction_prompt text) (world s)
    = (Ok reply, w) ->
  json_loads reply = Ok (JDict d) ->
  lookup (str "keywords") d = Some kv ->
  lookup (str "confidence") d = Some cv ->
  (forall kr,
     (exists s', extract_keywords proposal s = (Ok kr, s')) <->
     (exists items,
        kv = JList items /\ items <> []
        /\ py_float cv = Ok (confidence kr)
        /\ Forall2 (fun v k => validate_str v = Some k) items (keywords kr)))
  /\ (forall c,
        py_float cv = Ok c ->
        (forall items, kv = JList items -> items = []) ->
        exists s', extract_keywords proposal s = (Raise no_keywords, s'))
  /\ (forall e,
        py_float cv = Raise e ->
        exists s', extract_keywords proposal s = (Raise e, s'))
  /\ (forall ks f,
        ks <> [] -> kv = JList (map JStr ks) -> cv = JFloat f ->
        exists s',
          extract_keywords proposal s
          = (Ok {| keywords := ks; confidence := f |}, s')).
Proof.
  intros Ht Hg Hj Hk Hc.
  rewrite (extract_keywords_reply _ _ Ht Hg Hj),
          (extract_keywords_validate_fields _ Hk Hc).
  split; [|split; [|split]].
  - intros kr; split.
    + intros (s' & H); injection H as H _.
      apply bindR_Ok in H as (c & Hf & H).
      destruct kv as [| | | | |[|v items]|]; try discriminate.
      apply new_KeywordExtractionResult_Ok in H as [Hks <-].
      exists (v :: items); repeat split; auto; discriminate.
    + intros (items & -> & Hne & Hf & Hks).
      apply with_state; rewrite Hf; cbn [bindR].
      destruct items as [|v items]; [contradiction|].
      now apply new_KeywordExtractionResult_Ok.
  - intros c Hf Hnone; apply with_state; rewrite Hf; cbn [bindR].
    destruct kv as [| | | | |[|v items]|]; try reflexivity.
    now specialize (Hnone _ eq_refl).
  - intros e Hf; apply with_state; now rewrite Hf.
  - intros ks f Hne -> ->; apply with_state; cbn [py_float bindR].
    destruct ks as [|k ks]; [contradiction|]; cbn [map].
    apply new_KeywordExtractionResult_Ok; cbn; split; [|reflexivity].
    apply (validated_strings (k :: ks)).
Qed.

End KeywordStage.

Lemma extract_keywords_outcome_witness :
  exists s',
    extract_keywords (RT := Scenario.runtime) (SV := Scenario.services)
      Scenario.proposal (Scenario.start Scenario.valid_run)
    = (Ok {| keywords := Scenario.themes; confidence := 1.5%float |}, s').
Proof.
  edestruct (extract_keywords_outcome (RT := Scenario.runtime)
               (SV := Scenario.services) Scenario.proposal
               (Scenario.start Scenario.valid_run))
    as (_ & _ & _ & H).
  - vm_compute; reflexivity.
  - vm_compute; reflexivity.
  - vm_compute; reflexivity.
  - vm_compute; reflexivity.
  - vm_compute; reflexivity.
  - apply (H Scenario.themes 1.5%float); [discriminate|reflexivity|reflexivity].
Defined.

(** The keywords of this reply are a non-empty list, and yet the stage
    raises: [float] does not accept the [null] confidence. *)
Lemma null_confidence_raises :
  json_loads (Runtime := Scenario.runtime) Scenario.null_confidence_text
  = Ok (JDict [ (str "keywords", JList (map JStr Scenario.themes));
                (str "confidence", JNull) ])
  /\ Scenario.themes <> []
  /\ exists s',
       extract_keywords (RT := Scenario.runtime) (SV := Scenario.services)
         Scenario.proposal (Scenario.start Scenario.null_confidence_run)
       = (Raise (Exn TypeError (fault_msg (Runtime := Scenario.runtime)
                                  (FloatOfOther JNull))), s').
Proof.
  split; [vm_compute; reflexivity|]; split; [discriminate|].
  eexists; vm_compute; reflexivity.
Qed.

(** ** The proposal text *)

Section Formatter.
Context {RT : Runtime}.

Lemma append_field_block (proposal : json) (key label : string)
    (parts : list pystr) (field : option pystr) :
  py_get proposal (str key) JNull = Ok (opt_json field) ->
  append_field proposal key label parts
  = Ok (parts ++ text_block nonempty label field).
Proof.
  unfold append_field; intros ->; cbn [bindR].
  destruct field as [[|c v]|]; cbn; now rewrite ?app_nil_r.
Qed.

Lemma join_items_strings (i : nat) (l : list pystr) :
  join_items i (map JStr l) = Ok l.
Proof.
  revert i; induction l as [|x l IH]; intros i; cbn; [reflexivity|].
  now rewrite IH.
Qed.

Lemma append_data_sources_block (proposal : json) (parts : list pystr)
    (field : option (list pystr)) :
  py_get proposal (str "data_sources") JNull
  = Ok match field with Some l => JList (map JStr l) | None => JNull end ->
  append_data_sources proposal parts
  = Ok (parts ++ list_block nonempty "Data Sources: " field).
Proof.
  unfold append_data_sources; intros ->; cbn [bindR].
  destruct field as [[|x l]|]; cbn [truthy map list_block nonempty];
    rewrite ?app_nil_r; try reflexivity.
  change (JStr x :: map JStr l) with (map JStr (x :: l)).
  now rewrite join_items_strings.
Qed.

Lemma append_additional_fields_block (proposal : json) (parts : list pystr)
    (field : option (list (pystr * json))) :
  py_get proposal (str "additional_fields") JNull
  = Ok match field with Some d => JDict d | None => JNull end ->
  append_additional_fields proposal parts
  = Ok (parts ++ additional_blocks field).
Proof.
  unfold append_additional_fields; intros ->; cbn [bindR].
  destruct field as [[|kv d]|]; cbn [truthy additional_blocks map];
    now rewrite ?app_nil_r.
Qed.

(** C9, as amended.  On every proposal record the formatter returns a text
    and does not raise; the text has one block, label first, for each field
    that is present and not empty, in the order title, description,
    technical approach, data sources (joined by [", "]), deployment, data
    governance, model governance, security measures, then the additional
    fields in their order, the blocks separated by a blank line; a field
    that is absent, or present with an empty string or an empty list, has
    no block. *)
Theorem format_proposal_text_blocks (p : ProposalSchema) :
  _format_proposal_text (ProposalSchema_dict p) = Ok (format_nonempty p).
Proof.
  unfold _format_proposal_text.
  rewrite append_field_block with (field := proposal_title p) by reflexivity.
  cbn [bindR].
  rewrite append_field_block with (field := Some (description p)) by reflexivity.
  cbn [bindR].
  rewrite append_field_block with (field := technical_approach p) by reflexivity.
  cbn [bindR].
  rewrite append_data_sources_block with (field := data_sources p) by reflexivity.
  cbn [bindR].
  rewrite append_field_block with (field := deployment p) by reflexivity.
  cbn [bindR].
  rewrite append_field_block with (field := data_governance p) by reflexivity.
  cbn [bindR].
  rewrite append_field_block with (field := model_governance p) by reflexivity.
  cbn [bindR].
  rewrite append_field_block with (field := security_measures p) by reflexivity.
  cbn [bindR].
  rewrite append_additional_fields_block with (field := additional_fields p)
    by reflexivity.
  cbn [bindR]; unfold format_nonempty, blocks.
  now rewrite <- !app_assoc.
Qed.

End Formatter.

(** The description of this record is present, as the schema requires, and
    empty; the text has no block for it. *)
Lemma empty_description_omitted :
  _format_proposal_text (RT := Scenario.runtime)
    (ProposalSchema_dict Scenario.empty_description)
  = Ok (str "Title: Chatbot")
  /\ format_present (RT := Scenario.runtime) Scenario.empty_description
     = str "Title: Chatbot" ++ NL ++ NL ++ str "Description: ".
Proof.
  split; vm_compute; reflexivity.
Qed.

(** On a dictionary that is not a proposal record the formatter can raise:
    [', '.join] rejects data sources that are not strings. *)
Lemma numbered_sources_raise :
  _format_proposal_text (RT := Scenario.runtime) Scenario.numbered_sources
  = Raise (Exn TypeError
             (fault_msg (Runtime := Scenario.runtime) (JoinItem 0 (JInt 1)))).
Proof.
  vm_compute; reflexivity.
Qed.

(** With the client of db_service.py, the fallback search reaches the
    repository with its first three keywords only. *)
Lemma fallback_requests :
  calls (snd (search_risks (RT := Scenario.runtime) (SV := Scenario.services)
                fallback_keywords (Scenario.start Scenario.search_session)))
  = [search_request (str "data"); search_request (str "model");
     search_request (str "security")].
Proof.
  vm_compute; reflexivity.
Qed.

(* ================================================================= *)
(** * Further properties of the code *)

(** ** The format of risk ids *)

Section RiskIds.

Lemma span_spec (p : N -> bool) (s a b : pystr) :
  span p s = (a, b) ->
  s = a ++ b /\ Forall (fun c => p c = true) a.
Proof.
  revert a b; induction s as [|c s IH]; cbn; intros a b H.
  - inversion H; subst; auto.
  - destruct (p c) eqn:Ec.
    + destruct (span p s) as [a' b'] eqn:E; inversion H; subst.
      destruct (IH a' b eq_refl) as [-> Ha]; auto.
    + inversion H; subst; auto.
Qed.

Lemma span_app (p : N -> bool) (a b : pystr) :
  Forall (fun c => p c = true) a ->
  match b with [] => True | c :: _ => p c = false end ->
  span p (a ++ b) = (a, b).
Proof.
  intros Ha Hb; induction Ha as [|c a Hc _ IH].
  - destruct b as [|c b]; cbn; [reflexivity|]; now rewrite Hb.
  - cbn; now rewrite Hc, IH.
Qed.

Lemma matches_risk_id_form (s : pystr) :
  matches_risk_id s = true <->
  (risk_id_form s \/ exists s0, s = s0 ++ NL /\ risk_id_form s0).
Proof.
  split.
  - unfold matches_risk_id; intros H.
    destruct s as [|c1 s]; [discriminate H|]; pin H c1 82%N.
    destruct s as [|c2 s1]; [discriminate H|]; pin H c2 46%N.
    destruct (span is_upper s1) as [up rest] eqn:Eu.
    destruct up as [|u up]; [discriminate H|].
    destruct rest as [|c3 s2]; [discriminate H|]; pin H c3 46%N.
    destruct (span is_digit s2) as [ds tail] eqn:Edg.
    destruct ds as [|d ds]; [discriminate H|].
    apply span_spec in Eu as [-> Hup]; apply span_spec in Edg as [-> Hds].
    assert (Hbody : risk_id_form (str "R." ++ (u :: up) ++ str "." ++ d :: ds)).
    { exists (u :: up), (d :: ds); repeat split; auto; discriminate. }
    destruct tail as [|c4 tail].
    + left; now rewrite app_nil_r.
    + destruct tail as [|c5 tail]; [pin H c4 10%N|unpin H c4].
      right; exists (str "R." ++ (u :: up) ++ str "." ++ d :: ds); split; [|exact Hbody].
      change (str "R.") with [82%N; 46%N]; change (str ".") with [46%N].
      unfold NL; cbn [app]; now rewrite <- !app_assoc.
  - assert (Hform : forall letters digits tail,
               letters <> [] -> digits <> [] ->
               Forall (fun c => is_upper c = true) letters ->
               Forall (fun c => is_digit c = true) digits ->
               tail = [] \/ tail = NL ->
               matches_risk_id ((str "R." ++ letters ++ str "." ++ digits) ++ tail)
               = true).
    { intros letters digits tail Hl Hd Hup Hds Htail.
      change (str "R.") with [82%N; 46%N]; change (str ".") with [46%N].
      cbn [app]; rewrite <- app_assoc; cbn [app]; unfold matches_risk_id.
      rewrite (@span_app is_upper letters (46%N :: digits ++ tail))
        by first [assumption|reflexivity].
      destruct letters as [|u up]; [contradiction|].
      rewrite (@span_app is_digit digits tail)
        by first [assumption
                 |destruct Htail as [->| ->]; [exact I|reflexivity]].
      destruct digits as [|d ds]; [contradiction|].
      now destruct Htail as [->| ->]. }
    intros [(l & d & Hl & Hd & Hup & Hds & ->)|(s0 & -> & l & d & Hl & Hd & Hup & Hds & ->)].
    + rewrite <- (app_nil_r (str "R." ++ l ++ str "." ++ d)).
      apply Hform; auto.
    + apply Hform; auto.
Qed.

(** X1.  [_validate_risk_id] returns its argument exactly when the
    argument is [R.], upper-case ASCII letters, a dot and ASCII digits (at
    least one of each), optionally followed by one newline, which the [$]
    of the pattern lets through; on every other string it raises the
    [ValueError] that names the string. *)
Theorem validate_risk_id_accepts (s : pystr) :
  ((risk_id_form s \/ exists s0, s = s0 ++ NL /\ risk_id_form s0) ->
   _validate_risk_id s = Ok s)
  /\ (~ (risk_id_form s \/ exists s0, s = s0 ++ NL /\ risk_id_form s0) ->
      _validate_risk_id s
      = Raise (Exn ValueError (str "Invalid risk ID format: " ++ s))).
Proof.
  unfold _validate_risk_id; split; intros H.
  - apply matches_risk_id_form in H; now rewrite H.
  - destruct (matches_risk_id s) eqn:E; [|reflexivity].
    apply matches_risk_id_form in E; contradiction.
Qed.

End RiskIds.

Lemma validate_risk_id_accepts_witness :
  _validate_risk_id (str "R.AIR.001" ++ NL) = Ok (str "R.AIR.001" ++ NL).
Proof.
  apply (proj1 (validate_risk_id_accepts (str "R.AIR.001" ++ NL))).
  right; exists (str "R.AIR.001"); split; [reflexivity|].
  exists (str "AIR"), (str "001").
  split; [discriminate|]; split; [discriminate|].
  split; [repeat constructor|]; split; [repeat constructor|reflexivity].
Defined.

(** ** The controls of a list of risks *)

Section ControlsLookup.
Context {RT : Runtime} {W : Type} {SV : Services W}.

Lemma lookup_dict_set {A : Type} (k k' : pystr) (v : A) (d : list (pystr * A)) :
  lookup k' (dict_set k v d) = if pystr_eqb k k' then Some v else lookup k' d.
Proof.
  induction d as [|[k0 v0] d IH]; cbn.
  - reflexivity.
  - destruct (pystr_eqb k0 k) eqn:E0; cbn.
    + apply pystr_eqb_eq in E0; subst k0.
      destruct (pystr_eqb k k'); reflexivity.
    + destruct (pystr_eqb k0 k') eqn:E1; [|exact IH].
      apply pystr_eqb_eq in E1; subst k0.
      destruct (pystr_eqb k k') eqn:E2; [|reflexivity].
      apply pystr_eqb_eq in E2; subst k.
      now rewrite pystr_eqb_refl in E0.
Qed.

Lemma keys_dict_set {A : Type} (k : pystr) (v : A) (d : list (pystr * A)) :
  NoDup (map fst d) ->
  NoDup (map fst (dict_set k v d))
  /\ forall k', In k' (map fst (dict_set k v d)) <-> k' = k \/ In k' (map fst d).
Proof.
  induction d as [|[k0 v0] d IH]; cbn; intros Hd.
  - split; [repeat constructor; auto|]; intros k'; intuition (subst; auto).
  - inversion Hd as [|? ? Hnot Hd']; subst.
    destruct (pystr_eqb k0 k) eqn:E0; cbn.
    + apply pystr_eqb_eq in E0; subst k0.
      split; [constructor; auto|]; intros k'; intuition (subst; auto).
    + destruct (IH Hd') as [Hnd Hin]; split.
      * constructor; [|assumption].
        rewrite Hin; intros [->|H]; [now rewrite pystr_eqb_refl in E0|auto].
      * intros k'; rewrite Hin; intuition (subst; auto).
Qed.

Lemma lookup_In_keys {A : Type} (k : pystr) (d : list (pystr * A)) :
  has_key k d = true <-> In k (map fst d).
Proof.
  unfold has_key; induction d as [|[k0 v0] d IH]; cbn.
  - split; [discriminate|contradiction].
  - destruct (pystr_eqb k0 k) eqn:E.
    + apply pystr_eqb_eq in E; tauto.
    + rewrite IH; split; [auto|].
      intros [->|H]; [now rewrite pystr_eqb_refl in E|assumption].
Qed.

Lemma validated_ids (ids : list pystr) :
  (Forall (fun id => matches_risk_id id = true) ids
   /\ mapR _validate_risk_id ids = Ok ids)
  \/ exists bad,
       In bad ids /\ matches_risk_id bad = false
       /\ mapR _validate_risk_id ids
          = Raise (Exn ValueError (str "Invalid risk ID format: " ++ bad)).
Proof.
  induction ids as [|id ids IH]; cbn.
  - left; split; [constructor|reflexivity].
  - destruct (matches_risk_id id) eqn:E.
    + assert (Hid : _validate_risk_id id = Ok id)
        by (unfold _validate_risk_id; now rewrite E).
      rewrite Hid; cbn [bindR].
      destruct IH as [[Hall ->]|(bad & Hin & Hbad & ->)]; cbn [bindR].
      * left; split; [constructor; auto|reflexivity].
      * right; exists bad; auto.
    + assert (Hid : _validate_risk_id id
                    = Raise (Exn ValueError (str "Invalid risk ID format: " ++ id)))
        by (unfold _validate_risk_id; now rewrite E).
      rewrite Hid; cbn [bindR]; right; exists id; auto.
Qed.

Lemma collect_control_of (risk : pystr) (found out : list Control) (rel : json) :
  collect_control risk found rel = Ok out ->
  Forall (control_of risk) found -> Forall (control_of risk) out.
Proof.
  unfold collect_control; intros H Hf.
  apply bindR_Ok in H as (source & _ & H).
  destruct (eq_str risk source); [|now inversion H; subst].
  apply bindR_Ok in H as (ty & _ & H).
  destruct (eq_str _ ty); [|now inversion H; subst].
  apply bindR_Ok in H as (target & _ & H).
  destruct (truthy target) eqn:Et; [|now inversion H; subst].
  destruct (validate_str target) as [cid|] eqn:Ev; [|discriminate].
  inversion H; subst out; apply Forall_app; split; [assumption|].
  repeat constructor; cbn; eauto.
Qed.

Lemma collect_controls_of (risk : pystr) (data : list json) found out :
  collect_controls risk found data = Ok out ->
  Forall (control_of risk) found -> Forall (control_of risk) out.
Proof.
  revert found; induction data as [|rel data IH]; cbn; intros found H Hf.
  - now inversion H; subst.
  - apply bindR_Ok in H as (found' & H1 & H).
    eapply IH; [exact H|]; eapply collect_control_of; eauto.
Qed.

Lemma controls_by_risk_of_Ok (data : list json) (ids : list pystr) acc cb :
  controls_by_risk_of data ids acc = Ok cb ->
  NoDup (map fst acc) ->
  (forall id cs, lookup id acc = Some cs -> Forall (control_of id) cs) ->
  NoDup (map fst cb)
  /\ (forall id, In id (map fst cb) <-> In id ids \/ In id (map fst acc))
  /\ (forall id cs, lookup id cb = Some cs -> Forall (control_of id) cs).
Proof.
  revert acc; induction ids as [|id ids IH]; cbn; intros acc H Hnd Hacc.
  - inversion H; subst; repeat split; auto; tauto.
  - apply bindR_Ok in H as (found & Hf & H).
    destruct (keys_dict_set id found acc Hnd) as [Hnd' Hkeys].
    apply IH in H as (H1 & H2 & H3); [|assumption|].
    + split; [assumption|]; split; [|assumption].
      intros k; rewrite H2, Hkeys; intuition (subst; auto).
    + intros k cs; rewrite lookup_dict_set.
      destruct (pystr_eqb id k) eqn:E; [|apply Hacc].
      apply pystr_eqb_eq in E; subst k; intros Hcs; inversion Hcs; subst cs.
      eapply collect_controls_of; [exact Hf|constructor].
Qed.

Lemma client_errors_other {A : Type} (e : exn) (s : state W) :
  is_request_exception e = false ->
  client_errors (A := A) (raise e) s = (Raise e, s).
Proof.
  intros H; unfold client_errors, try_except, raise; now rewrite H.
Qed.

(** The validation of a list with a malformed id stops at the first one. *)
Lemma first_malformed_id (ids : list pystr) (id : pystr) :
  In id ids -> matches_risk_id id = false ->
  exists pre bad post,
    ids = pre ++ bad :: post
    /\ Forall (fun id => matches_risk_id id = true) pre
    /\ matches_risk_id bad = false
    /\ mapR _validate_risk_id ids
       = Raise (Exn ValueError (str "Invalid risk ID format: " ++ bad)).
Proof.
  induction ids as [|id0 ids IH]; cbn; [contradiction|]; intros Hin Hbad.
  destruct (matches_risk_id id0) eqn:E.
  - assert (Hid : _validate_risk_id id0 = Ok id0)
      by (unfold _validate_risk_id; now rewrite E).
    destruct Hin as [->|Hin]; [congruence|].
    destruct (IH Hin Hbad) as (pre & bad & post & -> & Hpre & Hb & Hm).
    exists (id0 :: pre), bad, post.
    split; [reflexivity|]; split; [constructor; assumption|].
    split; [assumption|].
    rewrite Hid; cbn [bindR]; now rewrite Hm.
  - assert (Hid : _validate_risk_id id0
                  = Raise (Exn ValueError (str "Invalid risk ID format: " ++ id0)))
      by (unfold _validate_risk_id; now rewrite E).
    exists [], id0, ids.
    split; [reflexivity|]; split; [constructor|]; split; [assumption|].
    now rewrite Hid.
Qed.

(** X2.  When one of the ids is not in the format of risk ids,
    [get_controls_for_risks] raises the [ValueError] of the first such id,
    the ids before it being well formed, and sends no request. *)
Theorem controls_reject_malformed_ids (ids : list pystr) (id : pystr)
    (s : state W) :
  In id ids -> matches_risk_id id = false ->
  exists pre bad post,
    ids = pre ++ bad :: post
    /\ Forall (fun id => matches_risk_id id = true) pre
    /\ matches_risk_id bad = false
    /\ get_controls_for_risks ids s
       = (Raise (Exn ValueError (str "Invalid risk ID format: " ++ bad)), s).
Proof.
  intros Hin Hbad.
  destruct (first_malformed_id ids id Hin Hbad)
    as (pre & bad & post & Hids & Hpre & Hb & Hm).
  exists pre, bad, post.
  split; [assumption|]; split; [assumption|]; split; [assumption|].
  unfold get_controls_for_risks, client_errors, try_except.
  rewrite Hm; unfold bind, lift, raise; reflexivity.
Qed.

(** X3.  When [get_controls_for_risks] returns, every id was in the format
    of risk ids, one request was sent, with the ids joined by commas, and
    the dictionary has exactly the given ids as its keys, each once; each
    control listed under an id is described as a control of that id. *)
Theorem controls_by_risk_keys (ids : list pystr) (s : state W) cb s' :
  get_controls_for_risks ids s = (Ok cb, s') ->
  Forall (fun id => matches_risk_id id = true) ids
  /\ calls s'
     = calls s ++ [Get (str "/api/relationships") (str "risk_ids")
                       (join (str ",") ids)]
  /\ NoDup (map fst cb)
  /\ (forall id, has_key id cb = true <-> In id ids)
  /\ forall id cs, lookup id cb = Some cs -> Forall (control_of id) cs.
Proof.
  unfold get_controls_for_risks; intros H.
  apply client_errors_calls in H as (y & H & Hy).
  pose proof (Hy (ex_intro _ cb eq_refl)) as <-; clear Hy.
  apply bind_Ok in H as (v & s0 & Hv & H).
  apply lift_eq in Hv as [Hv ->].
  destruct (validated_ids ids) as [[Hall Hm]|(bad & _ & _ & Hm)];
    rewrite Hm in Hv; [|discriminate].
  inversion Hv; subst v; clear Hv.
  apply bind_Ok in H as (data & s1 & Hd & H).
  apply external_eq in Hd as (w & _ & ->).
  apply lift_eq in H as [H ->].
  split; [assumption|]; split; [reflexivity|].
  destruct ids as [|id ids].
  - inversion H; subst cb; cbn; repeat split; try constructor;
      try discriminate; try contradiction.
  - apply bindR_Ok in H as (items & _ & H).
    apply controls_by_risk_of_Ok in H as (H1 & H2 & H3);
      [|constructor|intros k cs Hk; discriminate].
    split; [assumption|]; split; [|assumption].
    intros k; rewrite lookup_In_keys, H2; cbn; tauto.
Qed.

End ControlsLookup.

Lemma controls_reject_malformed_ids_witness :
  exists pre bad post,
    [str "R.AIR.001"; str "AIR-2"; str "R.AIR.003"; str "AIR-4"]
    = pre ++ bad :: post
    /\ Forall (fun id => matches_risk_id id = true) pre
    /\ matches_risk_id bad = false
    /\ get_controls_for_risks (RT := Scenario.runtime) (SV := Scenario.services)
         [str "R.AIR.001"; str "AIR-2"; str "R.AIR.003"; str "AIR-4"]
         (Scenario.start Cases.related)
       = (Raise (Exn ValueError (str "Invalid risk ID format: " ++ bad)),
          Scenario.start Cases.related).
Proof.
  apply (controls_reject_malformed_ids (RT := Scenario.runtime)
           (SV := Scenario.services)
           [str "R.AIR.001"; str "AIR-2"; str "R.AIR.003"; str "AIR-4"]
           (str "AIR-4") (Scenario.start Cases.related)).
  - do 3 right; left; reflexivity.
  - reflexivity.
Defined.

Lemma controls_by_risk_keys_witness :
  exists cb s',
    get_controls_for_risks (RT := Scenario.runtime) (SV := Scenario.services)
      [str "R.AIR.001"; str "R.AIR.003"; str "R.AIR.001"]
      (Scenario.start Cases.related)
    = (Ok cb, s')
    /\ map fst cb = [str "R.AIR.001"; str "R.AIR.003"]
    /\ NoDup (map fst cb).
Proof.
  eexists; eexists; split; [vm_compute; reflexivity|].
  split; [reflexivity|].
  eapply (controls_by_risk_keys (RT := Scenario.runtime)
            (SV := Scenario.services))
    with (ids := [str "R.AIR.001"; str "R.AIR.003"; str "R.AIR.001"])
         (s := Scenario.start Cases.related).
  vm_compute; reflexivity.
Defined.

(** ** The search, its failures and its results *)

Section SearchResults.
Context {RT : Runtime} {W : Type} {SV : Services W}.

(** X4.  When the first request of [search_risks], or the request of
    [get_controls_for_risks], raises, the method stops after that one
    request; a [RequestException] is replaced by the [Exception] whose
    message is ["Database service unavailable: "] followed by its text, and
    any other exception is raised as it is. *)
Theorem transport_errors (e : exn) (w : W) (s : state W) :
  (forall k rest,
     session_get (str "/api/search") (str "q") (_sanitize_keyword k) (world s)
       = (Raise e, w) ->
     search_risks (k :: rest) s
     = (Raise (if is_request_exception e then unavailable e else e),
        {| world := w;
           calls := calls s ++ [search_request (_sanitize_keyword k)] |}))
  /\ (forall ids,
        Forall (fun id => matches_risk_id id = true) ids ->
        session_get (str "/api/relationships") (str "risk_ids")
                    (join (str ",") ids) (world s)
          = (Raise e, w) ->
        get_controls_for_risks ids s
        = (Raise (if is_request_exception e then unavailable e else e),
           {| world := w;
              calls := calls s
                       ++ [Get (str "/api/relationships") (str "risk_ids")
                               (join (str ",") ids)] |}))
  /\ exn_str (unavailable e) = str "Database service unavailable: " ++ exn_str e.
Proof.
  split; [|split; [|reflexivity]].
  - intros k rest H.
    unfold search_risks, client_errors, try_except; cbn [map firstn fold_each].
    unfold bind at 1; unfold bind at 1; unfold search_keyword at 1.
    unfold bind at 1; unfold external; rewrite H.
    destruct (is_request_exception e); reflexivity.
  - intros ids Hall H.
    destruct (validated_ids ids) as [[_ Hm]|(bad & Hin & Hbad & _)].
    + unfold get_controls_for_risks, client_errors, try_except.
      rewrite Hm; unfold bind at 1, lift at 1.
      unfold bind at 1; unfold external; rewrite H.
      destruct (is_request_exception e); reflexivity.
    + rewrite Forall_forall in Hall; apply Hall in Hin; congruence.
Qed.

Lemma NoDup_snoc {A : Type} (l : list A) (x : A) :
  NoDup l -> ~ In x l -> NoDup (l ++ [x]).
Proof.
  induction l as [|y l IH]; cbn; intros Hl Hx.
  - repeat constructor; auto.
  - inversion Hl; subst; constructor.
    + rewrite in_app_iff; cbn; intuition (subst; auto).
    + apply IH; auto.
Qed.

Lemma new_Risk_id (item : json) (r : Risk) :
  new_Risk item = Ok r ->
  exists id, py_getitem item (str "id") = Ok id
             /\ validate_str id = Some (risk_id r).
Proof.
  unfold new_Risk; intros H.
  apply bindR_Ok in H as (id & Hid & H).
  apply bindR_Ok in H as (title & _ & H).
  apply bindR_Ok in H as (descr & _ & H).
  exists id; split; [assumption|].
  destruct (validate_str id), (validate_str title), (validate_str descr);
    try discriminate.
  now inversion H.
Qed.

Lemma collect_item_keyed (all_risks out : list (json * Risk)) (item : json) :
  strict_validation ->
  collect_item all_risks item = Ok out ->
  keyed_by_id all_risks -> keyed_by_id out.
Proof.
  intros Hstrict H [Hkeys Hnd]; unfold collect_item in H.
  apply bindR_Ok in H as (ty & _ & H).
  destruct (eq_str _ ty); [|now inversion H; subst].
  apply bindR_Ok in H as (id & Hid & H).
  apply bindR_Ok in H as (seen & Hseen & H).
  destruct seen; cbn [negb] in H; [now inversion H; subst|].
  apply bindR_Ok in H as (r & Hr & H); inversion H; subst out; clear H.
  apply new_Risk_id in Hr as (id' & Hid' & Hv).
  assert (id' = id) by congruence; subst id'.
  apply Hstrict in Hv; subst id.
  unfold key_in in Hseen; cbn [hashable] in Hseen.
  inversion Hseen as [Hex]; clear Hseen.
  split.
  - apply Forall_app; split; [assumption|]; repeat constructor.
  - rewrite map_app; cbn [map]; apply NoDup_snoc; [assumption|].
    intros Hin; apply in_map_iff in Hin as ([k r'] & Heq & Hin).
    cbn in Heq.
    assert (Hk : k = JStr (risk_id r')).
    { rewrite Forall_forall in Hkeys; exact (Hkeys _ Hin). }
    assert (Hfalse : existsb (fun kv => key_eq (fst kv) (JStr (risk_id r)))
                             all_risks = true).
    { apply existsb_exists; exists (k, r'); split; [assumption|].
      cbn; rewrite Hk, Heq; cbn; apply pystr_eqb_refl. }
    congruence.
Qed.

Lemma collect_items_keyed (items : list json) (all_risks out : list (json * Risk)) :
  strict_validation ->
  collect_items all_risks items = Ok out ->
  keyed_by_id all_risks -> keyed_by_id out.
Proof.
  intros Hstrict; revert all_risks.
  induction items as [|item items IH]; cbn; intros all_risks H Hk.
  - now inversion H; subst.
  - apply bindR_Ok in H as (acc & Hacc & H).
    eapply IH; [exact H|]; eapply collect_item_keyed; eauto.
Qed.

Lemma search_loop_keyed (kws : list pystr) (all_risks out : list (json * Risk))
    (s s' : state W) :
  strict_validation ->
  fold_each kws all_risks search_keyword s = (Ok out, s') ->
  keyed_by_id all_risks -> keyed_by_id out.
Proof.
  intros Hstrict; revert all_risks s.
  induction kws as [|k kws IH]; cbn [fold_each]; intros all_risks s H Hk.
  - unfold ret in H; now inversion H; subst.
  - apply bind_Ok in H as (acc & s1 & Hacc & H).
    eapply IH; [exact H|].
    unfold search_keyword in Hacc.
    apply bind_Ok in Hacc as (data & s2 & _ & Hacc).
    apply lift_eq in Hacc as [Hacc _].
    apply bindR_Ok in Hacc as (results & _ & Hacc).
    apply bindR_Ok in Hacc as (items & _ & Hacc).
    eapply collect_items_keyed; eauto.
Qed.

(** X5.  When validation accepts strings only, the risks [search_risks]
    returns have pairwise distinct ids: an item whose id was already seen,
    under the same or a later keyword, is not added again. *)
Theorem search_results_distinct (keywords : list pystr) (s : state W) found s' :
  strict_validation ->
  search_risks keywords s = (Ok found, s') ->
  NoDup (map risk_id found).
Proof.
  intros Hstrict H; unfold search_risks in H.
  apply client_errors_calls in H as (y & H & Hy).
  pose proof (Hy (ex_intro _ found eq_refl)) as <-; clear Hy.
  apply bind_Ok in H as (all_risks & s1 & Hloop & H).
  unfold ret in H; inversion H; subst; clear H.
  apply search_loop_keyed in Hloop as [_ Hnd];
    [|assumption|split; constructor].
  now rewrite map_map.
Qed.

End SearchResults.

Lemma transport_errors_witness :
  search_risks (RT := Scenario.runtime) (SV := Scenario.services)
    Scenario.raw_keywords (Scenario.start Cases.unreachable)
  = (Raise (Exn Exception_
              (str "Database service unavailable: Connection refused")),
     {| world := {| Scenario.llm_replies := []; Scenario.search_replies := [];
                    Scenario.controls_replies := [];
                    Scenario.http_replies := [] |};
        calls := [search_request (str "data privacy")] |}).
Proof.
  apply (proj1 (transport_errors (RT := Scenario.runtime)
                  (SV := Scenario.services) Cases.refused _
                  (Scenario.start Cases.unreachable))
           (str "data; privacy")
           [str "model's"; str "third-party_x"; str "unused"]).
  reflexivity.
Defined.

Lemma search_results_distinct_witness :
  exists found s',
    search_risks (RT := Scenario.runtime) (SV := Scenario.services)
      Scenario.raw_keywords (Scenario.start Cases.overlapping)
    = (Ok found, s')
    /\ map risk_id found = [str "R.AIR.001"; str "R.AIR.002"; str "R.AIR.003"]
    /\ NoDup (map risk_id found).
Proof.
  eexists; eexists; split; [vm_compute; reflexivity|].
  split; [reflexivity|].
  eapply (search_results_distinct (RT := Scenario.runtime)
            (SV := Scenario.services))
    with (keywords := Scenario.raw_keywords)
         (s := Scenario.start Cases.overlapping).
  - intros v t H; destruct v; try discriminate; now inversion H.
  - vm_compute; reflexivity.
Defined.

(** ** Replies of the generation service *)

Section Replies.
Context {RT : Runtime} {W : Type} {SV : Services W}.
Variable db_client : DbClient W.

Lemma validate_ranked_entry_from (v : json) (e : list (pystr * pystr)) :
  validate_ranked_entry v = Ok e -> validated_from v e.
Proof.
  destruct v; cbn; try discriminate; intros H.
  exists d; split; [reflexivity|].
  apply mapR_Forall2 in H.
  eapply Forall2_impl; [|exact H].
  cbn; intros [k x] [k' y] Hx; cbn in *.
  destruct (validate_str x); [|discriminate].
  inversion Hx; subst; auto.
Qed.

(** X6.  The entries of a successful ranking are the items of the reply's
    ["risks"] array, in the order of the reply: each entry has the keys of
    its item, in the same order, with every value as the string validation
    returns it. *)
Theorem ranking_follows_reply (proposal : json) (risks : list Risk)
    (s : state W) rr s' :
  rank_and_select proposal risks s = (Ok rr, s') ->
  exists text reply w rd l,
    _format_proposal_text proposal = Ok text
    /\ generate_content (ranking_prompt text (limit_candidates risks)) (world s)
       = (Ok reply, w)
    /\ json_loads reply = Ok rd
    /\ py_getitem rd (str "risks") = Ok (JList l)
    /\ Forall2 validated_from l (ranked_risks rr).
Proof.
  intros H.
  apply rank_and_select_Ok in H as (text & reply & rd & w & Ht & Hg & _ & Hj & H).
  apply rank_and_select_validate_Ok in H as (l & Hl & _ & _ & Hm).
  exists text, reply, w, rd, l; repeat split; auto.
  apply mapR_Forall2 in Hm.
  eapply Forall2_impl; [|exact Hm].
  intros v e; apply validate_ranked_entry_from.
Qed.

(** X7.  Only a JSON object passes either validation: a reply that parses
    to a list or to a string fails even when the field names occur in it,
    and so does a number, a boolean or [null]. *)
Theorem replies_are_objects (rd : json) :
  (forall kr,
     extract_keywords_validate rd = Ok kr ->
     exists d kv cv,
       rd = JDict d
       /\ lookup (str "keywords") d = Some kv
       /\ lookup (str "confidence") d = Some cv)
  /\ (forall risks rr,
        rank_and_select_validate risks rd = Ok rr ->
        exists d l, rd = JDict d /\ lookup (str "risks") d = Some (JList l)).
Proof.
  split.
  - intros kr H; unfold extract_keywords_validate in H.
    apply bindR_Ok in H as (missing & _ & H).
    destruct missing; [discriminate|].
    apply bindR_Ok in H as (kv & Hk & H).
    apply bindR_Ok in H as (cv & Hc & _).
    apply py_getitem_Ok in Hk as (d & -> & Hk).
    apply py_getitem_Ok in Hc as (d' & Hd & Hc).
    inversion Hd; subst d'; exists d, kv, cv; auto.
  - intros risks rr H.
    apply rank_and_select_validate_Ok in H as (l & Hl & _).
    apply py_getitem_Ok in Hl as (d & -> & Hl); eauto.
Qed.

Lemma extract_keywords_Raise (proposal : json) (s : state W) e s1 :
  extract_keywords proposal s = (Raise e, s1) ->
  (_format_proposal_text proposal = Raise e /\ s1 = s)
  \/ exists text,
       _format_proposal_text proposal = Ok text
       /\ calls s1 = calls s ++ [Generate (format_keyword_extraction_prompt text)].
Proof.
  unfold extract_keywords; intros H.
  apply bind_Raise in H as [H|(text & s0 & Ht & H)].
  - apply lift_eq in H as [H ->]; auto.
  - apply lift_eq in Ht as [Ht ->]; right; exists text; split; [assumption|].
    apply bind_Raise in H as [H|(reply & s2 & Hg & H)].
    + now apply generate_eq in H as (y & w & _ & _ & ->).
    + apply generate_eq in Hg as (y & w & _ & _ & ->).
      apply bind_Raise in H as [H|(rd & s3 & Ej & H)].
      * now apply lift_eq in H as [_ ->].
      * apply lift_eq in Ej as [_ ->]; now apply lift_eq in H as [_ ->].
Qed.

(** The keyword stage when the request or the parsing of its reply
    raises. *)
Lemma extract_keywords_fails (proposal : json) (s : state W) text y w e :
  _format_proposal_text proposal = Ok text ->
  generate_content (format_keyword_extraction_prompt text) (world s) = (y, w) ->
  bindR (generated y) loads = Raise e ->
  extract_keywords proposal s
  = (Raise e,
     {| world := w;
        calls := calls s ++ [Generate (format_keyword_extraction_prompt text)] |}).
Proof.
  intros Ht Hg He; unfold extract_keywords.
  rewrite Ht; unfold bind at 1, lift at 1.
  unfold bind at 1; rewrite (generate_run _ _ Hg).
  destruct (generated y) as [reply|e0]; cbn [bindR] in He.
  - unfold bind, lift; now rewrite He.
  - now inversion He.
Qed.

Lemma assess_proposal_Raise_body (proposal : json) (s : state W) e s1 :
  assess_body db_client proposal s = (Raise e, s1) ->
  exists r s',
    assess_proposal db_client proposal s = (Ok r, s')
    /\ risks r = repeat (error_assessment e) TOP_N_RISKS
    /\ calls s' = calls s1.
Proof.
  intros H; unfold assess_proposal, try_except; rewrite H.
  destruct (new_RiskAssessmentResult_run
              (repeat (error_assessment e) TOP_N_RISKS) s1)
    as (r & s2 & Hrun & Hr & Hc).
  exists r, s2; auto.
Qed.

(** X8.  When keyword extraction raises, the run ends there: the result is
    the error result of that exception and the repository is not queried;
    the only call of the run, if any, is the keyword request.  A reply on
    which [json.loads] raises a [JSONDecodeError] is such a case, with the
    explanation ["Error: Invalid JSON response from LLM"]; any other
    exception of [json.loads], such as the [RecursionError] of a reply that
    is nested too deeply, is reported with its own message, and so is an
    exception of the request itself, except that a [JSONDecodeError] of the
    request is reported as the [UnboundLocalError] of the variable
    [response]. *)
Theorem extraction_failure_stops (proposal : json) (s : state W) :
  (forall e s1,
     extract_keywords proposal s = (Raise e, s1) ->
     exists r s',
       assess_proposal db_client proposal s = (Ok r, s')
       /\ risks r = repeat (error_assessment e) TOP_N_RISKS
       /\ (calls s' = calls s
           \/ exists text,
                _format_proposal_text proposal = Ok text
                /\ calls s' = calls s
                              ++ [Generate (format_keyword_extraction_prompt text)]))
  /\ (forall text reply w e0,
        _format_proposal_text proposal = Ok text ->
        generate_content (format_keyword_extraction_prompt text) (world s)
          = (Ok reply, w) ->
        json_loads reply = Raise e0 ->
        exists r s',
          assess_proposal db_client proposal s = (Ok r, s')
          /\ risks r
             = repeat (error_assessment
                         (if is_json_decode_error e0 then invalid_json else e0))
                      TOP_N_RISKS
          /\ explanation (error_assessment invalid_json)
             = str "Error: Invalid JSON response from LLM"
          /\ calls s' = calls s
                        ++ [Generate (format_keyword_extraction_prompt text)])
  /\ (forall text w e0,
        _format_proposal_text proposal = Ok text ->
        generate_content (format_keyword_extraction_prompt text) (world s)
          = (Raise e0, w) ->
        exists r s',
          assess_proposal db_client proposal s = (Ok r, s')
          /\ risks r
             = repeat (error_assessment
                         (if is_json_decode_error e0
                          then Exn UnboundLocalError
                                   (fault_msg (UnboundLocal (str "response")))
                          else e0))
                      TOP_N_RISKS
          /\ calls s' = calls s
                        ++ [Generate (format_keyword_extraction_prompt text)]).
Proof.
  assert (Hstop : forall e s1,
            extract_keywords proposal s = (Raise e, s1) ->
            exists r s',
              assess_proposal db_client proposal s = (Ok r, s')
              /\ risks r = repeat (error_assessment e) TOP_N_RISKS
              /\ calls s' = calls s1).
  { intros e s1 H; apply assess_proposal_Raise_body.
    apply assess_body_Raise; now apply extraction_error. }
  split; [|split].
  - intros e s1 H.
    destruct (Hstop _ _ H) as (r & s' & Hrun & Hr & Hc).
    exists r, s'; split; [assumption|]; split; [assumption|].
    rewrite Hc.
    apply extract_keywords_Raise in H as [[_ ->]|(text & Ht & Hcalls)]; eauto.
  - intros text reply w e0 Ht Hg Hj.
    destruct (Hstop _ _ (extract_keywords_fails proposal s Ht Hg
                           (loads_Raise _ Hj)))
      as (r & s' & Hrun & Hr & Hc).
    exists r, s'; repeat split; auto.
  - intros text w e0 Ht Hg.
    destruct (Hstop _ _ (extract_keywords_fails proposal s Ht Hg eq_refl))
      as (r & s' & Hrun & Hr & Hc).
    exists r, s'; repeat split; auto.
Qed.

Lemma format_needs_object (proposal : json) :
  (forall d, proposal <> JDict d) ->
  _format_proposal_text proposal
  = Raise (Exn AttributeError (fault_msg (NoAttribute proposal (str "get")))).
Proof.
  intros H; destruct proposal; try reflexivity.
  now contradiction (H d).
Qed.

(** X9.  A proposal that the formatter rejects makes no call at all: the
    run returns the error result of the formatter's exception at once.  A
    proposal that is not a JSON object is rejected, with the
    [AttributeError] of its missing [get]. *)
Theorem unformattable_proposal (proposal : json) (s : state W) e :
  _format_proposal_text proposal = Raise e ->
  (exists r s',
     assess_proposal db_client proposal s = (Ok r, s')
     /\ risks r = repeat (error_assessment e) TOP_N_RISKS
     /\ calls s' = calls s)
  /\ ((forall d, proposal <> JDict d) ->
      e = Exn AttributeError (fault_msg (NoAttribute proposal (str "get")))).
Proof.
  intros He; split.
  - assert (Hk : extract_keywords proposal s = (Raise e, s))
      by (unfold extract_keywords; rewrite He; reflexivity).
    assert (Hb : assess_body db_client proposal s = (Raise e, s))
      by (apply assess_body_Raise; now apply extraction_error).
    apply assess_proposal_Raise_body in Hb as (r & s' & Hrun & Hr & Hc); eauto.
  - intros H; apply format_needs_object in H; congruence.
Qed.

End Replies.

Lemma ranking_follows_reply_witness :
  exists rr s',
    rank_and_select (RT := Scenario.runtime) (SV := Scenario.services)
      Scenario.proposal Scenario.five (Scenario.ranking_state Scenario.valid_run)
    = (Ok rr, s')
    /\ exists l,
         py_getitem (RT := Scenario.runtime)
           (Scenario.ranking_value Scenario.valid_ids) (str "risks")
         = Ok (JList l)
         /\ Forall2 (validated_from (RT := Scenario.runtime)) l (ranked_risks rr).
Proof.
  eexists; eexists; split; [vm_compute; reflexivity|].
  edestruct (ranking_follows_reply (RT := Scenario.runtime)
               (SV := Scenario.services) Scenario.proposal Scenario.five
               (Scenario.ranking_state Scenario.valid_run))
    as (text & reply & w & rd & l & _ & Hg & Hj & Hl & Hv).
  - vm_compute; reflexivity.
  - vm_compute in Hg; injection Hg as <- _.
    vm_compute in Hj; injection Hj as <-.
    exists l; split; [exact Hl|exact Hv].
Defined.

Lemma extraction_failure_stops_witness :
  (exists r s',
     assess_proposal (RT := Scenario.runtime) (SV := Scenario.services)
       Scenario.db Scenario.proposal (Scenario.start Cases.garbled)
     = (Ok r, s')
     /\ risks r = repeat (error_assessment invalid_json) TOP_N_RISKS
     /\ calls s'
        = [Generate (format_keyword_extraction_prompt Scenario.proposal_text)])
  /\ (exists r s',
        assess_proposal (RT := Cases.nesting_runtime) (SV := Scenario.services)
          Scenario.db Scenario.proposal (Scenario.start Cases.nested)
        = (Ok r, s')
        /\ risks r = repeat (error_assessment Cases.recursion_error) TOP_N_RISKS
        /\ calls s'
           = [Generate (format_keyword_extraction_prompt Scenario.proposal_text)])
  /\ (exists r s',
        assess_proposal (RT := Scenario.runtime) (SV := Scenario.services)
          Scenario.db Scenario.proposal (Scenario.start Cases.silent)
        = (Ok r, s')
        /\ risks r = repeat (error_assessment Cases.timed_out) TOP_N_RISKS
        /\ calls s'
           = [Generate (format_keyword_extraction_prompt Scenario.proposal_text)]).
Proof.
  split; [|split].
  - edestruct (proj1 (proj2 (extraction_failure_stops (RT := Scenario.runtime)
                               (SV := Scenario.services) Scenario.db
                               Scenario.proposal (Scenario.start Cases.garbled))))
      as (r & s' & Hrun & Hr & _ & Hc).
    + vm_compute; reflexivity.
    + vm_compute; reflexivity.
    + vm_compute; reflexivity.
    + exists r, s'; split; [exact Hrun|]; split; [exact Hr|].
      rewrite Hc; vm_compute; reflexivity.
  - edestruct (proj1 (proj2 (extraction_failure_stops (RT := Cases.nesting_runtime)
                               (SV := Scenario.services) Scenario.db
                               Scenario.proposal (Scenario.start Cases.nested))))
      as (r & s' & Hrun & Hr & _ & Hc).
    + vm_compute; reflexivity.
    + vm_compute; reflexivity.
    + vm_compute; reflexivity.
    + exists r, s'; split; [exact Hrun|]; split; [exact Hr|].
      rewrite Hc; vm_compute; reflexivity.
  - edestruct (proj2 (proj2 (extraction_failure_stops (RT := Scenario.runtime)
                               (SV := Scenario.services) Scenario.db
                               Scenario.proposal (Scenario.start Cases.silent))))
      as (r & s' & Hrun & Hr & Hc).
    + vm_compute; reflexivity.
    + vm_compute; reflexivity.
    + exists r, s'; split; [exact Hrun|]; split; [exact Hr|].
      rewrite Hc; vm_compute; reflexivity.
Defined.

Lemma unformattable_proposal_witness :
  exists r s',
    assess_proposal (RT := Scenario.runtime) (SV := Scenario.services)
      Scenario.db Scenario.numbered_sources (Scenario.start Scenario.valid_run)
    = (Ok r, s')
    /\ calls s' = [].
Proof.
  edestruct (proj1 (unformattable_proposal (RT := Scenario.runtime)
                      (SV := Scenario.services) Scenario.db
                      Scenario.numbered_sources
                      (Scenario.start Scenario.valid_run) (e := _)
                      ltac:(vm_compute; reflexivity)))
    as (r & s' & Hrun & _ & Hc).
  exists r, s'; split; [exact Hrun|exact Hc].
Defined.

(** ** A run that succeeds *)

Section SuccessfulRun.
Context {RT : Runtime} {W : Type} {SV : Services W}.
Variable db_client : DbClient W.

Lemma find_details_In (cands : list Risk) (id : pystr) :
  In id (map risk_id cands) ->
  exists risk, find_details cands id = Some risk.
Proof.
  unfold find_details; induction cands as [|c cands IH]; cbn; [contradiction|].
  intros [<-|H].
  - rewrite pystr_eqb_refl; eauto.
  - destruct (pystr_eqb (risk_id c) id); eauto.
Qed.

(** The join keeps every entry of a ranking whose ids are ids of
    candidates, in order. *)
Lemma assess_all_exact (cands : list Risk) cb (ranked : list (list (pystr * pystr))) :
  Forall (selects_from cands) ranked ->
  forall acc,
  exists new,
    assess_all cands cb acc ranked = Ok (acc ++ new)
    /\ Forall2 (assessed_from cands cb) ranked new.
Proof.
  induction 1 as [|entry ranked (id & why & Hid & Hwhy & Hin) _ IH]; intros acc; cbn.
  - exists []; split; [now rewrite app_nil_r|constructor].
  - destruct (find_details_In cands id Hin) as (risk & Hf).
    unfold assess_ranked, dict_getitem; rewrite Hid, Hwhy; cbn [bindR]; rewrite Hf.
    cbn [bindR].
    destruct (IH (acc ++
                  [ {| ra_risk_id := id;
                       ra_risk_title := risk_title risk;
                       ra_risk_description := risk_description risk;
                       explanation := why;
                       controls := match lookup id cb with
                                   | Some cs => cs
                                   | None => []
                                   end |} ]))
      as (new & Hnew & Hrel).
    eexists (_ :: new); split.
    + rewrite Hnew, <- app_assoc; reflexivity.
    + constructor; [|exact Hrel].
      repeat split; cbn; auto; exists risk; auto.
Qed.

Lemma selects_from_all (cands : list Risk) entry :
  selects_from (limit_candidates cands) entry -> selects_from cands entry.
Proof.
  intros (id & why & H1 & H2 & H3); exists id, why; repeat split; auto.
  now apply limit_candidates_incl.
Qed.

Lemma ensure_top_n_exact (l : list RiskAssessment) :
  length l = TOP_N_RISKS -> ensure_top_n l = l.
Proof.
  intros H; unfold ensure_top_n; now rewrite H.
Qed.

Lemma assess_body_exact (proposal : json) (s : state W) r s' :
  assess_body db_client proposal s = (Ok r, s') ->
  exists cands s1 rr s2 cb s3,
    candidate_stage db_client proposal s = (Ok cands, s1)
    /\ rank_and_select proposal cands s1 = (Ok rr, s2)
    /\ enrichment_stage db_client rr s2 = (Ok cb, s3)
    /\ calls s' = calls s3
    /\ Forall2 (assessed_from cands cb) (ranked_risks rr) (risks r).
Proof.
  intros H.
  apply assess_body_Ok in H
    as (cands & s1 & rr & s2 & cb & s3 & assessments & Hc & Hr & He & Ha & Hrs & Hcalls).
  exists cands, s1, rr, s2, cb, s3; repeat split; auto.
  destruct (rank_and_select_selects _ _ _ Hr) as [Hlen Hsel].
  destruct (assess_all_exact cb (ranked := ranked_risks rr)
              (Forall_impl _ (selects_from_all cands) Hsel) [])
    as (new & Hnew & Hrel).
  cbn [app] in Hnew; rewrite Hnew in Ha; inversion Ha; subst assessments.
  rewrite Hrs, ensure_top_n_exact; [assumption|].
  apply Forall2_length in Hrel; congruence.
Qed.

(** X10.  A result of [assess_proposal] is either the error result of an
    exception, or the three assessments of the three ranked entries, in
    the order of the ranking: each has the id and the reasoning of its
    entry, the title and description of the first candidate with that id,
    and the controls listed under that id (none when the id is not
    listed).  Padding entries never occur. *)
Theorem result_is_error_or_ranking (proposal : json) (s : state W) r s' :
  assess_proposal db_client proposal s = (Ok r, s') ->
  (exists e, risks r = repeat (error_assessment e) TOP_N_RISKS)
  \/ exists cands s1 rr s2 cb s3,
       candidate_stage db_client proposal s = (Ok cands, s1)
       /\ rank_and_select proposal cands s1 = (Ok rr, s2)
       /\ enrichment_stage db_client rr s2 = (Ok cb, s3)
       /\ Forall2 (assessed_from cands cb) (ranked_risks rr) (risks r).
Proof.
  intros H; apply assess_proposal_Ok in H as [H|H]; [right|now left].
  apply assess_body_exact in H
    as (cands & s1 & rr & s2 & cb & s3 & Hc & Hr & He & _ & Hrel).
  exists cands, s1, rr, s2, cb, s3; auto.
Qed.

Lemma candidate_stage_Ok (proposal : json) (s : state W) cands s1 :
  candidate_stage db_client proposal s = (Ok cands, s1) ->
  exists kr s0 found w,
    extract_keywords proposal s = (Ok kr, s0)
    /\ db_search_risks db_client (keywords kr) (world s0) = (Ok found, w)
    /\ cands = candidates_of db_client found w
    /\ calls s1
       = calls s0
         ++ Search (keywords kr)
            :: match found with [] => [Search fallback_keywords] | _ => [] end.
Proof.
  unfold candidate_stage; intros H.
  apply bind_Ok in H as (kr & s0 & Hk & H).
  apply bind_Ok in H as (found & s2 & Hf & H).
  apply external_eq in Hf as (w & Hf & ->).
  exists kr, s0, found, w; split; [assumption|]; split; [assumption|].
  unfold candidates_of; destruct found as [|c found].
  - unfold _get_fallback_risks, try_except, external in H; cbn [world calls] in H.
    destruct (db_search_risks db_client fallback_keywords w) as [[l|e] w'];
      unfold ret in H; inversion H; subst; cbn [calls fst];
      (split; [reflexivity|now rewrite <- app_assoc]).
  - unfold ret in H; inversion H; subst; split; reflexivity.
Qed.

Lemma selected_ids_of (cands : list Risk) cb ranked (rs : list RiskAssessment) ids :
  Forall2 (assessed_from cands cb) ranked rs ->
  mapR (fun r => dict_getitem r (str "risk_id")) ranked = Ok ids ->
  ids = map ra_risk_id rs.
Proof.
  intros Hrel; revert ids; induction Hrel as [|e a ranked rs Ha _ IH];
    cbn; intros ids H.
  - now inversion H.
  - apply bindR_Ok in H as (id & Hid & H).
    apply bindR_Ok in H as (rest & Hrest & H).
    inversion H; subst ids; f_equal; [|auto].
    apply dict_getitem_Ok in Hid; destruct Ha as (Ha & _); congruence.
Qed.

(** X11.  The calls of a run whose [try] body returns, in order: the
    keyword request, the search for the extracted keywords, the fallback
    search when and only when that search found nothing, the ranking
    request for the first [MAX_CANDIDATE_RISKS] candidates of the run (the
    risks the search found or, when it found none, those the fallback
    search returned), and one lookup of controls, for exactly the ids of
    the result in their order. *)
Theorem calls_of_a_successful_run (proposal : json) (s : state W) r s' :
  assess_body db_client proposal s = (Ok r, s') ->
  exists text kr s0 found w cands s1,
    _format_proposal_text proposal = Ok text
    /\ extract_keywords proposal s = (Ok kr, s0)
    /\ db_search_risks db_client (keywords kr) (world s0) = (Ok found, w)
    /\ candidate_stage db_client proposal s = (Ok cands, s1)
    /\ cands = candidates_of db_client found w
    /\ calls s'
       = calls s
         ++ [Generate (format_keyword_extraction_prompt text);
             Search (keywords kr)]
         ++ match found with [] => [Search fallback_keywords] | _ => [] end
         ++ [Generate (ranking_prompt text (limit_candidates cands));
             Controls (map ra_risk_id (risks r))].
Proof.
  intros H.
  apply assess_body_exact in H
    as (cands & s1 & rr & s2 & cb & s3 & Hc & Hr & He & Hcalls & Hrel).
  pose proof Hc as Hstage.
  apply candidate_stage_Ok in Hc as (kr & s0 & found & w & Hk & Hf & Hcs & Hc1).
  destruct (extract_keywords_Ok _ _ Hk) as (text & Ht & Hc0).
  pose proof (rank_and_select_calls _ _ _ Ht Hr) as Hc2.
  unfold enrichment_stage in He.
  apply bind_Ok in He as (ids & s4 & Hids & He).
  apply lift_eq in Hids as [Hids ->].
  apply external_eq in He as (w3 & _ & ->).
  apply (selected_ids_of Hrel) in Hids; subst ids.
  exists text, kr, s0, found, w, cands, s1.
  split; [assumption|]; split; [assumption|]; split; [assumption|].
  split; [assumption|]; split; [assumption|].
  rewrite Hcalls; cbn [calls]; rewrite Hc2, Hc1, Hc0.
  rewrite <- !app_assoc; cbn [app]; reflexivity.
Qed.

End SuccessfulRun.

Lemma result_is_error_or_ranking_witness :
  exists r s',
    assess_proposal (RT := Scenario.runtime) (SV := Scenario.services)
      Scenario.db Scenario.proposal (Scenario.start Scenario.valid_run)
    = (Ok r, s')
    /\ map ra_risk_id (risks r)
       = [str "R.AIR.002"; str "R.AIR.004"; str "R.AIR.005"]
    /\ ((exists e, risks r = repeat (error_assessment e) TOP_N_RISKS)
        \/ exists cands s1 rr s2 cb s3,
             candidate_stage (RT := Scenario.runtime) (SV := Scenario.services)
               Scenario.db Scenario.proposal (Scenario.start Scenario.valid_run)
             = (Ok cands, s1)
             /\ rank_and_select (RT := Scenario.runtime)
                  (SV := Scenario.services) Scenario.proposal cands s1
                = (Ok rr, s2)
             /\ enrichment_stage (RT := Scenario.runtime) Scenario.db rr s2
                = (Ok cb, s3)
             /\ Forall2 (assessed_from cands cb) (ranked_risks rr) (risks r)).
Proof.
  eexists; eexists; split; [vm_compute; reflexivity|].
  split; [reflexivity|].
  eapply (result_is_error_or_ranking (RT := Scenario.runtime)
            (SV := Scenario.services)).
  vm_compute; reflexivity.
Defined.

Lemma calls_of_a_successful_run_witness :
  exists r s',
    assess_body (RT := Scenario.runtime) (SV := Scenario.services)
      Scenario.db Scenario.proposal (Scenario.start Scenario.valid_run)
    = (Ok r, s')
    /\ calls s'
       = [Generate (format_keyword_extraction_prompt Scenario.proposal_text);
          Search Scenario.themes;
          Generate (ranking_prompt Scenario.proposal_text Scenario.five);
          Controls [str "R.AIR.002"; str "R.AIR.004"; str "R.AIR.005"]].
Proof.
  eexists; eexists; split; [vm_compute; reflexivity|].
  edestruct (calls_of_a_successful_run (RT := Scenario.runtime)
               (SV := Scenario.services) Scenario.db Scenario.proposal
               (Scenario.start Scenario.valid_run))
    as (text & kr & s0 & found & w & cands & s1 & _ & _ & _ & _ & _ & Hcalls).
  - vm_compute; reflexivity.
  - vm_compute; reflexivity.
Defined.

(** ** What a run reads of the proposal *)

Section ProposalText.
Context {RT : Runtime} {W : Type} {SV : Services W}.
Variable db_client : DbClient W.

Lemma bind_ext {S A B : Type} (m1 m2 : M S A) (k1 k2 : A -> M S B) (s : S) :
  m1 s = m2 s -> (forall a s', k1 a s' = k2 a s') ->
  bind m1 k1 s = bind m2 k2 s.
Proof.
  unfold bind; intros -> Hk; destruct (m2 s) as [[a|e] s']; auto.
Qed.

Lemma same_text_same_run (p1 p2 : json) (s : state W) :
  _format_proposal_text p1 = _format_proposal_text p2 ->
  assess_proposal db_client p1 s = assess_proposal db_client p2 s.
Proof.
  intros H.
  assert (Hk : forall s0, extract_keywords p1 s0 = extract_keywords p2 s0)
    by (intros s0; unfold extract_keywords; now rewrite H).
  assert (Hr : forall c s0, rank_and_select p1 c s0 = rank_and_select p2 c s0)
    by (intros c s0; unfold rank_and_select; now rewrite H).
  assert (Hb : assess_body db_client p1 s = assess_body db_client p2 s).
  { unfold assess_body; apply bind_ext.
    - unfold candidate_stage; apply bind_ext; [apply Hk|reflexivity].
    - intros c s0; unfold ranking_stages; apply bind_ext; [apply Hr|reflexivity]. }
  unfold assess_proposal, try_except; now rewrite Hb.
Qed.

(** X12.  The formatter reads nine keys of the proposal and nothing else:
    two proposals that agree on them have the same text, whatever other
    keys they hold and in whatever order. *)
Theorem formatter_reads_nine_keys (d1 d2 : list (pystr * json)) :
  (forall k, In k formatted_keys -> lookup k d1 = lookup k d2) ->
  _format_proposal_text (JDict d1) = _format_proposal_text (JDict d2).
Proof.
  intros H.
  assert (E : forall k, In k formatted_keys ->
                        py_get (JDict d1) k JNull = py_get (JDict d2) k JNull)
    by (intros k Hk; cbn; now rewrite (H k Hk)).
  unfold _format_proposal_text, append_field, append_data_sources,
    append_additional_fields.
  rewrite !E by (unfold formatted_keys; cbn [In]; auto 12).
  reflexivity.
Qed.

(** X13.  A run depends on the proposal through its text only: two
    proposals with the same text make the same calls and get the same
    result in every world. *)
Theorem runs_depend_on_the_text (p1 p2 : json) (s : state W) :
  _format_proposal_text p1 = _format_proposal_text p2 ->
  extract_keywords p1 s = extract_keywords p2 s
  /\ (forall risks, rank_and_select p1 risks s = rank_and_select p2 risks s)
  /\ assess_proposal db_client p1 s = assess_proposal db_client p2 s.
Proof.
  intros H; split; [|split].
  - unfold extract_keywords; now rewrite H.
  - intros risks; unfold rank_and_select; now rewrite H.
  - now apply same_text_same_run.
Qed.

Lemma proposal_dict_text (request : App.AssessmentRequest) :
  _format_proposal_text (App.proposal_dict request)
  = _format_proposal_text (ProposalSchema_dict (App.proposal request)).
Proof.
  unfold App.proposal_dict, ProposalSchema_dict.
  destruct (App.cfp request) as [[|kv c]|]; reflexivity.
Qed.

(** X14.  The context of a call for proposals that [assess_risks] stores in
    the proposal has no effect: the handler behaves as
    [assess_risks_simple] on the proposal alone.  Neither handler ever
    answers with the [HTTPException] of its [except] clause: both return a
    result with [TOP_N_RISKS] risks. *)
Theorem cfp_context_is_ignored (request : App.AssessmentRequest) (s : state W) :
  App.assess_risks db_client request s
  = App.assess_risks_simple db_client (App.proposal request) s
  /\ exists r s',
       App.assess_risks db_client request s = (App.Returned r, s')
       /\ length (risks r) = TOP_N_RISKS.
Proof.
  assert (E : App.assess_risks db_client request s
              = App.assess_risks_simple db_client (App.proposal request) s).
  { unfold App.assess_risks, App.assess_risks_simple, App.perform.
    now rewrite (same_text_same_run _ _ s (proposal_dict_text request)). }
  split; [exact E|].
  rewrite E; unfold App.assess_risks_simple, App.perform.
  destruct (assess_proposal_returns db_client
              (ProposalSchema_dict (App.proposal request)) s) as (r & s' & Hrun).
  rewrite Hrun; exists r, s'; split; [reflexivity|].
  apply assess_proposal_Ok in Hrun as [Hb|(e & ->)].
  - now apply assess_body_length in Hb.
  - apply repeat_length.
Qed.

(** X15.  The proposal the command line builds from a text is always
    formatted, title first: the text is the fixed title, followed by the
    description block unless the text is empty. *)
Theorem cli_text_is_formatted (text : pystr) :
  _format_proposal_text (load_proposal_from_text text)
  = Ok (str "Title: CLI Input Proposal"
        ++ match text with
           | [] => []
           | _ => NL ++ NL ++ str "Description: " ++ text
           end).
Proof.
  destruct text as [|c text]; reflexivity.
Qed.

End ProposalText.

Lemma formatter_reads_nine_keys_witness :
  _format_proposal_text (RT := Scenario.runtime)
    (JDict [ (str "cfp_id", JStr (str "CFP-7"));
             (str "description", JStr (str "Chatbot")) ])
  = _format_proposal_text (RT := Scenario.runtime)
      (JDict [ (str "description", JStr (str "Chatbot"));
               (str "budget", JInt 100) ]).
Proof.
  apply (formatter_reads_nine_keys (RT := Scenario.runtime)).
  intros k Hk; unfold formatted_keys in Hk; cbn [In] in Hk.
  repeat (destruct Hk as [<-|Hk]; [reflexivity|]); contradiction.
Defined.

Lemma runs_depend_on_the_text_witness :
  assess_proposal (RT := Scenario.runtime) (SV := Scenario.services) Scenario.db
    (JDict [ (str "description",
              JStr (str "Deploy a chatbot using RAG over support tickets"));
             (str "cfp_context", JDict [(str "deadline", JStr (str "soon"))]) ])
    (Scenario.start Scenario.valid_run)
  = assess_proposal (RT := Scenario.runtime) (SV := Scenario.services) Scenario.db
      Scenario.proposal (Scenario.start Scenario.valid_run).
Proof.
  apply (runs_depend_on_the_text (RT := Scenario.runtime)
           (SV := Scenario.services)).
  reflexivity.
Defined.

(** ** Lookups by id and health checks *)

Section LookupFacts.
Context {RT : Runtime} {W : Type} {PB : Probes W}.

(** X16.  [get_risk_by_id] on an id that is not in the format of risk ids
    raises the [ValueError] of that id, which its [except] clause does not
    catch, and sends no request. *)
Theorem get_risk_by_id_rejects (id : pystr) (s : session W) :
  matches_risk_id id = false ->
  get_risk_by_id id s
  = (Raise (Exn ValueError (str "Invalid risk ID format: " ++ id)), s).
Proof.
  intros H; unfold get_risk_by_id, none_on_request_error, try_except.
  unfold _validate_risk_id; rewrite H.
  unfold bind, lift, raise; reflexivity.
Qed.

Lemma get_risk_by_id_fetch (id : pystr) (s : session W) x w :
  matches_risk_id id = true ->
  session_fetch (str "/api/risks/" ++ id) (net s) = (x, w) ->
  get_risk_by_id id s
  = match x with
    | Raise e =>
        (if is_request_exception e then Ok None else Raise e,
         {| net := w; sent := sent s ++ [Fetch (str "/api/risks/" ++ id)] |})
    | Ok resp =>
        if Nat.eqb (status_code resp) 404 then
          (Ok None,
           {| net := w; sent := sent s ++ [Fetch (str "/api/risks/" ++ id)] |})
        else
          (match (let? _ := raise_for_status (str "/api/risks/" ++ id) resp in
                  let? data := response_json resp in
                  let? risk := new_Risk data in Ok (Some risk)) with
           | Raise e => if is_request_exception e then Ok None else Raise e
           | ok => ok
           end,
           {| net := w; sent := sent s ++ [Fetch (str "/api/risks/" ++ id)] |})
    end.
Proof.
  intros Hid Hf; unfold get_risk_by_id, none_on_request_error, try_except.
  unfold _validate_risk_id; rewrite Hid.
  unfold bind at 1, lift at 1; unfold bind at 1, send; rewrite Hf.
  destruct x as [resp|e].
  - destruct (Nat.eqb (status_code resp) 404); [reflexivity|].
    unfold bind, lift, ret, raise.
    destruct (raise_for_status _ resp) as [[]|e]; cbn [bindR];
      [|destruct (is_request_exception e); reflexivity].
    destruct (response_json resp) as [data|e]; cbn [bindR];
      [|destruct (is_request_exception e); reflexivity].
    destruct (new_Risk data) as [risk|e]; cbn [bindR];
      [reflexivity|destruct (is_request_exception e); reflexivity].
  - unfold ret, raise; destruct (is_request_exception e); reflexivity.
Qed.

Lemma raise_for_status_error (path : pystr) (resp : response) :
  400 <= status_code resp < 600 ->
  exists e, raise_for_status path resp = Raise e
            /\ is_request_exception e = true.
Proof.
  intros [Hlo Hhi]; unfold raise_for_status.
  destruct (Nat.ltb (status_code resp) 500) eqn:E.
  - apply Nat.leb_le in Hlo; rewrite Hlo; cbn [andb]; eauto.
  - apply Nat.leb_le in Hlo; rewrite Hlo; cbn [andb].
    apply Nat.ltb_ge in E; apply Nat.leb_le in E; rewrite E.
    apply Nat.ltb_lt in Hhi; rewrite Hhi; cbn [andb]; eauto.
Qed.

(** X17.  On an id in the format of risk ids, [get_risk_by_id] sends one
    request and returns [None], without raising, when the request raises a
    [RequestException], when the status is 404 or any other code from 400
    to 599, and when decoding the body raises a [RequestException]: a
    risk that does not exist and a repository that cannot be reached give
    the same answer. *)
Theorem get_risk_by_id_none (id : pystr) (s : session W) x w :
  matches_risk_id id = true ->
  session_fetch (str "/api/risks/" ++ id) (net s) = (x, w) ->
  (exists e, x = Raise e /\ is_request_exception e = true)
  \/ (exists resp, x = Ok resp /\ 400 <= status_code resp < 600)
  \/ (exists resp e,
        x = Ok resp /\ raise_for_status (str "/api/risks/" ++ id) resp = Ok tt
        /\ response_json resp = Raise e /\ is_request_exception e = true) ->
  get_risk_by_id id s
  = (Ok None,
     {| net := w; sent := sent s ++ [Fetch (str "/api/risks/" ++ id)] |}).
Proof.
  intros Hid Hf Hcase; rewrite (get_risk_by_id_fetch _ _ Hid Hf).
  destruct Hcase as [(e & -> & He)|[(resp & -> & Hst)|(resp & e & -> & Hok & Hj & He)]].
  - now rewrite He.
  - destruct (Nat.eqb (status_code resp) 404); [reflexivity|].
    destruct (raise_for_status_error (str "/api/risks/" ++ id) resp Hst)
      as (e & -> & He); cbn [bindR]; now rewrite He.
  - destruct (Nat.eqb (status_code resp) 404); [reflexivity|].
    rewrite Hok, Hj; cbn [bindR]; now rewrite He.
Qed.

(** X18.  When [get_risk_by_id] returns a risk, the id was in the format
    of risk ids, one request was sent for it, its status was outside 400
    to 599, and the risk is built from the ["id"], ["title"] and
    ["description"] of the body; the id of the body is not compared with
    the id asked for. *)
Theorem get_risk_by_id_some (id : pystr) (s : session W) risk s' :
  get_risk_by_id id s = (Ok (Some risk), s') ->
  matches_risk_id id = true
  /\ exists resp w body,
       session_fetch (str "/api/risks/" ++ id) (net s) = (Ok resp, w)
       /\ s' = {| net := w; sent := sent s ++ [Fetch (str "/api/risks/" ++ id)] |}
       /\ ~ 400 <= status_code resp < 600
       /\ response_json resp = Ok body
       /\ new_Risk body = Ok risk.
Proof.
  intros H.
  destruct (matches_risk_id id) eqn:Hid;
    [|unfold get_risk_by_id, none_on_request_error, try_except,
        _validate_risk_id in H;
      rewrite Hid in H; discriminate].
  split; [reflexivity|].
  destruct (session_fetch (str "/api/risks/" ++ id) (net s)) as [x w] eqn:Hf.
  rewrite (get_risk_by_id_fetch _ _ Hid Hf) in H.
  destruct x as [resp|e];
    [|destruct (is_request_exception e); discriminate].
  destruct (Nat.eqb (status_code resp) 404); [discriminate|].
  destruct (raise_for_status _ resp) as [[]|e] eqn:Est; cbn [bindR] in H;
    [|destruct (is_request_exception e); discriminate].
  destruct (response_json resp) as [body|e] eqn:Ej; cbn [bindR] in H;
    [|destruct (is_request_exception e); discriminate].
  destruct (new_Risk body) as [r0|e] eqn:Er; cbn [bindR] in H;
    [|destruct (is_request_exception e); discriminate].
  inversion H; subst; exists resp, w, body; repeat split; auto.
  intros Hst; destruct (raise_for_status_error (str "/api/risks/" ++ id) resp Hst)
    as (e & He & _); congruence.
Qed.

(** X19.  [health_check] never raises and always makes both probes, the
    database first: the database is reported healthy exactly when its
    request returns with status 200, the generation service exactly when
    its answer contains ["OK"]; a probe that raises is reported
    unhealthy. *)
Theorem health_check_reports (s : session W) :
  exists database_service llm_service s',
    health_check s
    = (Ok [ (str "database_service", database_service);
            (str "llm_service", llm_service) ], s')
    /\ sent s' = sent s ++ [Fetch (str "/api/health"); Ask probe_prompt]
    /\ (database_service = true <->
        exists resp,
          fst (session_fetch (str "/api/health") (net s)) = Ok resp
          /\ status_code resp = 200)
    /\ (llm_service = true <->
        exists text,
          fst (generate_probe probe_prompt
                 (snd (session_fetch (str "/api/health") (net s))))
          = Ok text
          /\ is_substring (str "OK") text = true).
Proof.
  unfold health_check, db_health_check, llm_health_check, try_except, bind, send, ret.
  destruct (session_fetch (str "/api/health") (net s)) as [x w]; cbn [fst snd].
  destruct (generate_probe probe_prompt w) as [y w'] eqn:Ey; cbn [fst].
  exists (match x with Ok resp => Nat.eqb (status_code resp) 200 | Raise _ => false end),
         (match y with Ok text => is_substring (str "OK") text | Raise _ => false end),
         {| net := w';
            sent := (sent s ++ [Fetch (str "/api/health")]) ++ [Ask probe_prompt] |}.
  split; [destruct x; cbn; rewrite Ey; destruct y; reflexivity|].
  split; [cbn [sent]; now rewrite <- app_assoc|].
  split.
  - destruct x as [resp|e]; split.
    + intros H; apply Nat.eqb_eq in H; eauto.
    + intros (r & Hr & Hst); inversion Hr; subst; now apply Nat.eqb_eq.
    + discriminate.
    + intros (r & Hr & _); discriminate.
  - destruct y as [text|e]; split.
    + eauto.
    + intros (t & Ht & Hin); now inversion Ht; subst.
    + discriminate.
    + intros (t & Ht & _); discriminate.
Qed.

End LookupFacts.

Lemma get_risk_by_id_rejects_witness :
  get_risk_by_id (RT := Scenario.runtime) (PB := Cases.probes) (str "AIR-1")
    (Cases.open {| Cases.fetches := [Ok (Cases.found "AIR-1")];
                   Cases.answers := [] |})
  = (Raise (Exn ValueError (str "Invalid risk ID format: AIR-1")),
     Cases.open {| Cases.fetches := [Ok (Cases.found "AIR-1")];
                   Cases.answers := [] |}).
Proof.
  apply (get_risk_by_id_rejects (RT := Scenario.runtime) (PB := Cases.probes)).
  reflexivity.
Defined.

Lemma get_risk_by_id_none_witness :
  get_risk_by_id (RT := Scenario.runtime) (PB := Cases.probes) (str "R.AIR.001")
    (Cases.open {| Cases.fetches := [Ok Cases.not_found]; Cases.answers := [] |})
  = (Ok None,
     {| net := {| Cases.fetches := []; Cases.answers := [] |};
        sent := [Fetch (str "/api/risks/R.AIR.001")] |}).
Proof.
  apply (get_risk_by_id_none (RT := Scenario.runtime) (PB := Cases.probes)
           (str "R.AIR.001")
           (Cases.open {| Cases.fetches := [Ok Cases.not_found];
                          Cases.answers := [] |})
           (x := Ok Cases.not_found)).
  - reflexivity.
  - reflexivity.
  - right; left; exists Cases.not_found; split; [reflexivity|cbn; lia].
Defined.

Lemma get_risk_by_id_some_witness :
  exists risk s',
    get_risk_by_id (RT := Scenario.runtime) (PB := Cases.probes) (str "R.AIR.001")
      (Cases.open {| Cases.fetches := [Ok (Cases.found "R.AIR.777")];
                     Cases.answers := [] |})
    = (Ok (Some risk), s')
    /\ risk_id risk = str "R.AIR.777"
    /\ matches_risk_id (str "R.AIR.001") = true.
Proof.
  eexists; eexists; split; [vm_compute; reflexivity|].
  split; [reflexivity|].
  eapply (get_risk_by_id_some (RT := Scenario.runtime) (PB := Cases.probes))
    with (s := Cases.open {| Cases.fetches := [Ok (Cases.found "R.AIR.777")];
                             Cases.answers := [] |}).
  vm_compute; reflexivity.
Defined.

(** ** The sanitizer, the prompt and the ids of the repository *)

Section PromptAndIds.
Context {RT : Runtime} {W : Type} {SV : Services W}.

Lemma filter_length {A : Type} (f : A -> bool) (l : list A) :
  length (filter f l) <= length l.
Proof.
  induction l as [|x l IH]; cbn; [lia|].
  destruct (f x); cbn; lia.
Qed.

(** X20.  Sanitizing twice is sanitizing once, and the sanitized keyword
    is never longer than the keyword. *)
Theorem sanitize_idempotent (keyword : pystr) :
  _sanitize_keyword (_sanitize_keyword keyword) = _sanitize_keyword keyword
  /\ length (_sanitize_keyword keyword) <= length keyword.
Proof.
  split.
  - apply sanitize_clean; [apply sanitize_allowed|apply sanitize_length].
  - unfold _sanitize_keyword; rewrite length_firstn.
    pose proof (filter_length keeps keyword); lia.
Qed.

Lemma is_prefix_app (a q : pystr) : is_prefix a (a ++ q) = true.
Proof.
  induction a as [|c a IH]; cbn; [reflexivity|].
  now rewrite N.eqb_refl, IH.
Qed.

Lemma is_substring_app (a p q : pystr) : is_substring a (p ++ a ++ q) = true.
Proof.
  induction p as [|c p IH].
  - cbn [app]; destruct (a ++ q) eqn:E; cbn; rewrite <- E, is_prefix_app;
      reflexivity.
  - cbn; rewrite IH; apply orb_true_r.
Qed.

Lemma join_contains (sep x : pystr) (parts : list pystr) :
  In x parts -> exists p q, join sep parts = p ++ x ++ q.
Proof.
  induction parts as [|y parts IH]; [contradiction|].
  intros [->|H].
  - destruct parts as [|z parts]; cbn.
    + exists [], []; now rewrite app_nil_r.
    + exists [], (sep ++ join sep (z :: parts)); reflexivity.
  - destruct (IH H) as (p & q & E).
    destruct parts as [|z parts]; [contradiction|].
    exists (y ++ sep ++ p), q.
    change (join sep (y :: z :: parts)) with (y ++ sep ++ join sep (z :: parts)).
    rewrite E, <- !app_assoc; reflexivity.
Qed.

Lemma prompt_lists_candidate (text : pystr) (risks : list Risk) (r : Risk) :
  In r risks ->
  is_substring (str "ID: " ++ risk_id r ++ NL) (ranking_prompt text risks) = true.
Proof.
  intros H; unfold ranking_prompt, format_risk_ranking_prompt, format_candidate_risks.
  destruct (join_contains NL
              (str "ID: " ++ risk_id r ++ NL
               ++ str "Title: " ++ risk_title r ++ NL
               ++ str "Description: " ++ risk_description r ++ NL)
              (map (fun risk =>
                      str "ID: " ++ risk_id risk ++ NL
                      ++ str "Title: " ++ risk_title risk ++ NL
                      ++ str "Description: " ++ risk_description risk ++ NL)
                   risks))
    as (p & q & E).
  { apply in_map_iff; exists r; auto. }
  rewrite E.
  replace (RISK_RANKING_PROMPT_head ++ text ++ RISK_RANKING_PROMPT_middle
           ++ (p ++ (str "ID: " ++ risk_id r ++ NL
                     ++ str "Title: " ++ risk_title r ++ NL
                     ++ str "Description: " ++ risk_description r ++ NL) ++ q)
           ++ RISK_RANKING_PROMPT_tail)
    with ((RISK_RANKING_PROMPT_head ++ text ++ RISK_RANKING_PROMPT_middle ++ p)
          ++ (str "ID: " ++ risk_id r ++ NL)
          ++ (str "Title: " ++ risk_title r ++ NL
              ++ str "Description: " ++ risk_description r ++ NL)
          ++ q ++ RISK_RANKING_PROMPT_tail)
    by (rewrite <- !app_assoc; reflexivity).
  apply is_substring_app.
Qed.

(** X21.  Every id of a successful ranking was shown to the generation
    service: the ranking request of that call contains the line
    ["ID: "] followed by the id. *)
Theorem selected_ids_were_listed (proposal : json) (risks : list Risk)
    (s : state W) rr s' :
  rank_and_select proposal risks s = (Ok rr, s') ->
  exists prompt,
    calls s' = calls s ++ [Generate prompt]
    /\ forall id,
         In (Some id) (selected_ids rr) ->
         is_substring (str "ID: " ++ id ++ NL) prompt = true.
Proof.
  intros H.
  destruct (rank_and_select_selects _ _ _ H) as [_ Hsel].
  apply rank_and_select_Ok in H as (text & reply & rd & w & _ & _ & -> & _ & _).
  eexists; split; [reflexivity|].
  intros id Hid; unfold selected_ids in Hid.
  apply in_map_iff in Hid as (entry & Hl & Hentry).
  rewrite Forall_forall in Hsel.
  destruct (Hsel _ Hentry) as (id' & why & Hid' & _ & Hin).
  assert (id' = id) by congruence; subst id'.
  apply in_map_iff in Hin as (r & <- & Hr).
  now apply prompt_lists_candidate.
Qed.

Lemma selected_ids_Ok (cands : list Risk) (ranked : list (list (pystr * pystr))) :
  Forall (selects_from cands) ranked ->
  exists ids,
    mapR (fun r => dict_getitem r (str "risk_id")) ranked = Ok ids
    /\ map Some ids = map (lookup (str "risk_id")) ranked.
Proof.
  induction 1 as [|entry ranked (id & why & Hid & _) _ (ids & Hids & Hmap)]; cbn.
  - exists []; auto.
  - exists (id :: ids); unfold dict_getitem at 1; rewrite Hid, Hids; cbn.
    now rewrite Hmap.
Qed.

(** X22.  With the client of db_service.py behind the engine, a run whose
    ranking selects an id that is not in the format of risk ids ends in the
    error result of ["Invalid risk ID format: "] followed by the first such
    id of the ranking, the ids selected before it being well formed: a
    repository whose ids have another form cannot be assessed. *)
Theorem foreign_ids_degrade (proposal : json) (s : state W)
    cands s1 rr s2 (id : pystr) :
  candidate_stage DatabaseServiceClient proposal s = (Ok cands, s1) ->
  rank_and_select proposal cands s1 = (Ok rr, s2) ->
  In (Some id) (selected_ids rr) ->
  matches_risk_id id = false ->
  exists pre bad post r s',
    selected_ids rr = map Some (pre ++ bad :: post)
    /\ Forall (fun id => matches_risk_id id = true) pre
    /\ matches_risk_id bad = false
    /\ assess_proposal DatabaseServiceClient proposal s = (Ok r, s')
    /\ risks r
       = repeat (error_assessment
                   (Exn ValueError (str "Invalid risk ID format: " ++ bad)))
                TOP_N_RISKS.
Proof.
  intros Hc Hr Hin Hbad.
  destruct (rank_and_select_selects _ _ _ Hr) as [_ Hsel].
  destruct (selected_ids_Ok Hsel) as (ids & Hids & Hmap).
  assert (Hid : In id ids).
  { unfold selected_ids in Hin; rewrite <- Hmap in Hin.
    apply in_map_iff in Hin as (x & Hx & Hin); now inversion Hx; subst. }
  destruct (first_malformed_id ids id Hid Hbad)
    as (pre & bad & post & Hsplit & Hpre & Hb2 & Hm).
  assert (He : enrichment_stage DatabaseServiceClient rr s2
               = (Raise (Exn ValueError (str "Invalid risk ID format: " ++ bad)),
                  {| world := world s2; calls := calls s2 ++ [Controls ids] |})).
  { unfold enrichment_stage; rewrite Hids; unfold bind at 1, lift at 1.
    apply external_run; cbn [db_get_controls_for_risks DatabaseServiceClient].
    unfold get_controls_for_risks, client_errors, try_except.
    rewrite Hm; unfold bind, lift, raise; reflexivity. }
  assert (Hb : assess_body DatabaseServiceClient proposal s
               = (Raise (Exn ValueError (str "Invalid risk ID format: " ++ bad)),
                  {| world := world s2; calls := calls s2 ++ [Controls ids] |}))
    by (apply assess_body_Raise; eapply enrichment_error; eauto).
  apply assess_proposal_Raise_body in Hb as (r & s' & Hrun & Hrs & _).
  exists pre, bad, post, r, s'; split; [|auto].
  unfold selected_ids; now rewrite <- Hmap, Hsplit.
Qed.

End PromptAndIds.

Lemma selected_ids_were_listed_witness :
  exists rr s' prompt,
    rank_and_select (RT := Scenario.runtime) (SV := Scenario.services)
      Scenario.proposal Scenario.five (Scenario.ranking_state Scenario.valid_run)
    = (Ok rr, s')
    /\ calls s' = calls (Scenario.ranking_state Scenario.valid_run)
                  ++ [Generate prompt]
    /\ is_substring (str "ID: R.AIR.004" ++ NL) prompt = true.
Proof.
  edestruct (selected_ids_were_listed (RT := Scenario.runtime)
               (SV := Scenario.services) Scenario.proposal Scenario.five
               (Scenario.ranking_state Scenario.valid_run))
    as (prompt & Hcalls & Hids).
  - vm_compute; reflexivity.
  - eexists; eexists; exists prompt; split; [vm_compute; reflexivity|].
    split; [exact Hcalls|].
    apply (Hids (str "R.AIR.004")); right; left; reflexivity.
Defined.

Lemma foreign_ids_degrade_witness :
  exists r s',
    assess_proposal (RT := Cases.legacy_runtime) (SV := Scenario.services)
      (DatabaseServiceClient (RT := Cases.legacy_runtime)
                             (SV := Scenario.services))
      Scenario.proposal (Scenario.start Cases.legacy_ids)
    = (Ok r, s')
    /\ risks r
       = repeat (error_assessment
                   (Exn ValueError (str "Invalid risk ID format: AIR-1")))
                TOP_N_RISKS.
Proof.
  pose proof (fun cands s1 rr s2 =>
                @foreign_ids_degrade Cases.legacy_runtime Scenario.script
                  Scenario.services Scenario.proposal
                  (Scenario.start Cases.legacy_ids) cands s1 rr s2 (str "AIR-1"))
    as H.
  edestruct H as (pre & bad & post & r & s' & _ & _ & _ & Hrun & _).
  - vm_compute; reflexivity.
  - vm_compute; reflexivity.
  - left; reflexivity.
  - reflexivity.
  - exists r, s'; split; [exact Hrun|].
    vm_compute in Hrun; injection Hrun as <- _; reflexivity.
Defined.

(** ** The items of a search result *)

Section SearchItems.
Context {RT : Runtime}.

Lemma collect_item_skips (all_risks : list (json * Risk)) d :
  is_risk_item (JDict d) = false ->
  collect_item all_risks (JDict d) = Ok all_risks.
Proof.
  unfold collect_item, py_get, is_risk_item.
  destruct (lookup (str "type") d) as [t|]; cbn [bindR eq_str].
  - now intros ->.
  - reflexivity.
Qed.

(** X23.  Of a search result whose items are objects, only the items of
    type ["risk"] are read: the others, such as controls, are skipped
    whatever their fields, and the risks collected are those of the result
    without them. *)
Theorem only_risk_items_are_read (all_risks : list (json * Risk))
    (items : list json) :
  Forall (fun item => exists d, item = JDict d) items ->
  collect_items all_risks items
  = collect_items all_risks (filter is_risk_item items).
Proof.
  intros H; revert all_risks; induction H as [|item items (d & ->) _ IH];
    intros all_risks; [reflexivity|].
  cbn [collect_items filter].
  destruct (is_risk_item (JDict d)) eqn:E.
  - cbn [collect_items].
    destruct (collect_item all_risks (JDict d)) as [acc|e]; cbn [bindR];
      [apply IH|reflexivity].
  - rewrite (collect_item_skips all_risks d E); cbn [bindR]; apply IH.
Qed.

End SearchItems.

Lemma only_risk_items_are_read_witness :
  collect_items (RT := Scenario.runtime) []
    [ Cases.item "risk" "R.AIR.001" "Data poisoning";
      Cases.item "control" "C.AIIM.1" "Inventory";
      Cases.item "risk" "R.AIR.002" "Prompt injection" ]
  = collect_items (RT := Scenario.runtime) []
      [ Cases.item "risk" "R.AIR.001" "Data poisoning";
        Cases.item "risk" "R.AIR.002" "Prompt injection" ].
Proof.
  apply (only_risk_items_are_read (RT := Scenario.runtime) []
           (items := [ Cases.item "risk" "R.AIR.001" "Data poisoning";
                       Cases.item "control" "C.AIIM.1" "Inventory";
                       Cases.item "risk" "R.AIR.002" "Prompt injection" ])).
  repeat constructor; eexists; reflexivity.
Defined.
